(** * CR30 colorimeter driver: frame codec, transport, measurement session
      and colorimetric engine, embedded from the Python sources

    - [cr30reader/protocol/packets.py]   : [CR30Packet], [PacketBuilder], [PacketParser]
    - [cr30reader/protocol/device.py]    : [CR30Device]
    - [cr30reader/protocol/protocol.py]  : [CR30Protocol]
    - [cr30reader/color_science/color_science.py] : [ColorScience],
      [SpectrumDataLoader]
    - [cr30reader/color_science/white_points.py] : [WhitePoint]
    - [cr30reader/driver/cr30_reader.py] : [CR30Reader._decide]

    Conventions of the embedding.
    - A Python [bytes]/[bytearray] is a [list Z]; every element of a value
      that comes from Python is in [0, 255] ([is_bytes]).
    - A Python exception is a value of [exn]; a call that may raise returns a
      [outcome].  Methods that mutate [self] return the new object.
    - Stateful asynchronous code of the device runs in the monad [CR30Device.M],
      which keeps the state reached when an exception is raised, so that a
      handler sees the mutations made before the [raise].
    - IEEE-754 single precision values unpacked from the wire are kept as
      their 32-bit patterns ([float32]); double precision arithmetic of the
      colorimetric engine is idealised (rationals for field operations, reals
      where a non-integer power is taken). *)

From Stdlib Require Import ZArith List Bool Lia String Ascii QArith Qminmax Qabs Lqa Reals Lra
  DecimalString.
From stdpp Require Import base option list gmap strings.
From Equations Require Import Equations.

Local Open Scope Z_scope.

(** ** Python values shared by all modules *)

Abbreviation bytes := (list Z).

Definition is_byte (b : Z) : Prop := 0 <= b < 256.
Definition is_bytes (bs : bytes) : Prop := Forall is_byte bs.

Inductive exn : Type :=
| ValueError (msg : string)
| TimeoutError (msg : string)
| StructError (msg : string)
| KeyError (key : string)
| LinAlgError (msg : string)
| IncompleteReadError.

Inductive outcome (A : Type) : Type :=
| Ok (a : A)
| Raise (e : exn).
Arguments Ok {A} a.
Arguments Raise {A} e.

#[global] Instance outcome_ret : MRet outcome := fun A a => Ok a.
#[global] Instance outcome_bind : MBind outcome := fun A B f r =>
  match r with
  | Ok a => f a
  | Raise e => Raise e
  end.

(** [s[lo:hi]] for [0 <= lo] and [0 <= hi]. *)
Definition slice {A} (lo hi : nat) (s : list A) : list A :=
  take (hi - lo) (drop lo s).

(** [s[lo:hi] = v] on a bytearray, for [lo <= hi <= len(s)]. *)
Definition slice_assign {A} (lo hi : nat) (v : list A) (s : list A) : list A :=
  take lo s ++ v ++ drop hi s.

(** Built-in [sum] over a sequence of ints. *)
Definition sum (s : bytes) : Z := fold_left Z.add s 0.

(** *** String formatting *)

Definition hex_digit (upper : bool) (d : Z) : ascii :=
  if d <? 10 then ascii_of_nat (48 + Z.to_nat d)
  else ascii_of_nat ((if upper then 55 else 87) + Z.to_nat d).

(** Two hexadecimal digits of a byte; [f"{b:02X}"] when [upper]. *)
Definition hex_byte (upper : bool) (b : Z) : string :=
  String (hex_digit upper (b / 16)) (String (hex_digit upper (b mod 16)) EmptyString).

Definition format_02X (b : Z) : string := hex_byte true b.

(** [bytes.hex()] *)
Definition hex (bs : bytes) : string :=
  fold_right (fun b acc => hex_byte false b +:+ acc) EmptyString bs.

(** [str(n)] for a length. *)
Definition str_nat (n : nat) : string := NilEmpty.string_of_uint (Nat.to_uint n).

(** [bs.decode('ascii', errors='ignore')]: the bytes above 127 are dropped,
    the others are the characters of the same code. *)
Definition decode_ascii_ignore (bs : bytes) : string :=
  string_of_list_ascii
    (map (fun b => ascii_of_nat (Z.to_nat b)) (filter (fun b : Z => b < 128) bs)).

(** [s.lstrip(c)], [s.rstrip(c)] and [s.strip(c)] for a one-character [c]. *)
Fixpoint lstrip (c : ascii) (s : string) : string :=
  match s with
  | String a s' => if Ascii.eqb a c then lstrip c s' else s
  | EmptyString => EmptyString
  end.

Fixpoint rstrip (c : ascii) (s : string) : string :=
  match s with
  | EmptyString => EmptyString
  | String a s' =>
      match rstrip c s' with
      | EmptyString => if Ascii.eqb a c then EmptyString else String a EmptyString
      | r => String a r
      end
  end.

Definition strip (c : ascii) (s : string) : string := rstrip c (lstrip c s).

(** The character [\x00]. *)
Definition NUL : ascii := Ascii.zero.

(** *** [struct.unpack] of little-endian single precision floats *)

(** A single precision float, kept as its IEEE-754 bit pattern. *)
Abbreviation float32 := Z.

Fixpoint le_words (bs : bytes) : list float32 :=
  match bs with
  | b0 :: b1 :: b2 :: b3 :: rest =>
      (b0 + 256 * b1 + 65536 * b2 + 16777216 * b3) :: le_words rest
  | _ => []
  end.

(** [struct.unpack(f"<{n}f", data)]: the buffer must hold exactly [4 * n] bytes. *)
Definition struct_unpack_f (n : nat) (data : bytes) : outcome (list float32) :=
  if (length data =? 4 * n)%nat then Ok (le_words data)
  else Raise (StructError ("unpack requires a buffer of " +:+ str_nat (4 * n) +:+ " bytes")).

(** Values stored in the diagnostic dictionaries. *)
Inductive value : Type :=
| VInt (z : Z)
| VStr (s : string)
| VFloats (fs : list float32).

(** ** packets.py *)

Module CR30Packet.

Definition PACKET_SIZE : nat := 60.
Definition PAYLOAD_START : nat := 4.
Definition PAYLOAD_END : nat := 56.
Definition PAYLOAD_SIZE : nat := 52.

Record t : Type := mk { _data : bytes }.

Definition __init__ (data : option bytes) : outcome t :=
  match data with
  | None => Ok (mk (<[58%nat := 0xFF]> (replicate PACKET_SIZE 0)))
  | Some data =>
      if negb (length data =? PACKET_SIZE)%nat then
        Raise (ValueError ("Packet must be exactly " +:+ str_nat PACKET_SIZE
                           +:+ " bytes, got " +:+ str_nat (length data)))
      else Ok (mk data)
  end.

Definition start (self : t) : Z := _data self !!! 0%nat.

Definition set_start (value : Z) (self : t) : outcome t :=
  if negb ((value =? 0xAA) || (value =? 0xBB)) then
    Raise (ValueError "Start byte must be 0xAA or 0xBB")
  else
    let d := <[0%nat := value]> (_data self) in
    if value =? 0xAA then Ok (mk (<[58%nat := 0xFF]> d))
    else if negb ((d !!! 58%nat =? 0x00) || (d !!! 58%nat =? 0xFF)) then
      Ok (mk (<[58%nat := 0xFF]> d))
    else Ok (mk d).

Definition cmd (self : t) : Z := _data self !!! 1%nat.
Definition set_cmd (value : Z) (self : t) : t :=
  mk (<[1%nat := Z.land value 0xFF]> (_data self)).

Definition subcmd (self : t) : Z := _data self !!! 2%nat.
Definition set_subcmd (value : Z) (self : t) : t :=
  mk (<[2%nat := Z.land value 0xFF]> (_data self)).

Definition param (self : t) : Z := _data self !!! 3%nat.
Definition set_param (value : Z) (self : t) : t :=
  mk (<[3%nat := Z.land value 0xFF]> (_data self)).

Definition payload (self : t) : bytes :=
  slice PAYLOAD_START PAYLOAD_END (_data self).

Definition set_payload (value : bytes) (self : t) : outcome t :=
  if (PAYLOAD_SIZE <? length value)%nat then
    Raise (ValueError ("Payload must be at most " +:+ str_nat PAYLOAD_SIZE
                       +:+ " bytes, got " +:+ str_nat (length value)))
  else
    let d := slice_assign PAYLOAD_START PAYLOAD_END
               (replicate PAYLOAD_SIZE 0) (_data self) in
    Ok (mk (slice_assign PAYLOAD_START (PAYLOAD_START + length value) value d)).

Definition marker (self : t) : Z := _data self !!! 58%nat.

(** The assignment to an element of a [bytearray] raises [ValueError]
    for a value outside [0, 255]. *)
Definition set_marker (value : Z) (self : t) : outcome t :=
  if (start self =? 0xAA) && negb (value =? 0xFF) then
    Raise (ValueError "Marker must be 0xFF for 0xAA packets")
  else if (start self =? 0xBB) && negb ((value =? 0x00) || (value =? 0xFF)) then
    Raise (ValueError "Marker must be 0x00 or 0xFF for 0xBB packets")
  else if negb ((0 <=? value) && (value <? 256)) then
    Raise (ValueError "byte must be in range(0, 256)")
  else Ok (mk (<[58%nat := value]> (_data self))).

Definition checksum (self : t) : Z := _data self !!! 59%nat.

(** Returns the checksum and the packet with byte 59 overwritten. *)
Definition calculate_checksum (self : t) : Z * t :=
  let checksum := sum (take 58 (_data self)) mod 256 in
  let checksum :=
    if start self =? 0xBB then (checksum - 1) mod 256 else checksum in
  (checksum, mk (<[59%nat := checksum]> (_data self))).

Definition verify_checksum (self : t) : bool * t :=
  let '(calculated, self) := calculate_checksum self in
  (calculated =? _data self !!! 59%nat, self).

Definition is_valid (self : t) : bool :=
  if negb (length (_data self) =? PACKET_SIZE)%nat then false
  else if negb ((start self =? 0xAA) || (start self =? 0xBB)) then false
  else if (start self =? 0xAA) && negb (marker self =? 0xFF) then false
  else if (start self =? 0xBB)
          && negb ((marker self =? 0x00) || (marker self =? 0xFF)) then false
  else true.

Definition to_bytes (self : t) : bytes * t :=
  let '(_, self) := calculate_checksum self in
  (_data self, self).

Definition from_bytes (data : bytes) : outcome t := __init__ (Some data).

End CR30Packet.

Module PacketBuilder.

(** [data] is [None] when the argument is omitted; [if data:] also skips
    an empty payload. *)
Definition build_packet (start cmd subcmd param : Z) (data : option bytes)
  : outcome bytes :=
  packet ← CR30Packet.__init__ None;
  packet ← CR30Packet.set_start start packet;
  let packet := CR30Packet.set_cmd cmd packet in
  let packet := CR30Packet.set_subcmd subcmd packet in
  let packet := CR30Packet.set_param param packet in
  packet ← match data with
           | None | Some [] => Ok packet
           | Some data => CR30Packet.set_payload data packet
           end;
  Ok (fst (CR30Packet.to_bytes packet)).

Definition build_handshake_packet (cmd subcmd param : Z) (data : option bytes) :=
  build_packet 0xAA cmd subcmd param data.

Definition build_command_packet (cmd subcmd param : Z) (data : option bytes) :=
  build_packet 0xBB cmd subcmd param data.

End PacketBuilder.

Module PacketParser.

(** State kept for the reconstruction of one spectral measurement. *)
Record t : Type := mk {
  _spd_bytes : bytes;
  _chunks_received : gset Z;
  _chunk_info_list : list (gmap string value);
}.

Definition __init__ : t := mk [] ∅ [].

Definition reset_spd_collection (self : t) : t := mk [] ∅ [].

(** [CR30Packet.__init__] raises nothing but [ValueError], which the
    handler turns into [False]. *)
Definition is_valid_packet (packet : bytes) : bool :=
  match CR30Packet.__init__ (Some packet) with
  | Ok pkt => CR30Packet.is_valid pkt
  | Raise _ => false
  end.

Definition parse_packet (packet : bytes) : outcome CR30Packet.t :=
  match CR30Packet.__init__ (Some packet) with
  | Ok pkt =>
      if negb (CR30Packet.is_valid pkt) then
        Raise (ValueError ("Failed to parse packet: "
                 +:+ "Invalid packet structure: start=0x"
                 +:+ format_02X (CR30Packet.start pkt)
                 +:+ ", marker=0x" +:+ format_02X (CR30Packet.marker pkt)))
      else Ok pkt
  | Raise (ValueError e) => Raise (ValueError ("Failed to parse packet: " +:+ e))
  | Raise e => Raise e
  end.

Definition extract_payload (packet : bytes) : outcome bytes :=
  pkt ← parse_packet packet; Ok (CR30Packet.payload pkt).

(** Marks the chunk as received and records its diagnostics. *)
Definition record_chunk (subcmd : Z) (chunk_info : gmap string value) (self : t)
  : outcome (gmap string value) * t :=
  (Ok chunk_info,
   mk (_spd_bytes self) ({[subcmd]} ∪ _chunks_received self)
      (_chunk_info_list self ++ [chunk_info])).

Definition parse_spd_chunk (packet : bytes) (self : t)
  : outcome (gmap string value) * t :=
  match parse_packet packet with
  | Raise e => (Raise e, self)
  | Ok pkt =>
      let payload := CR30Packet.payload pkt in
      let subcmd := CR30Packet.subcmd pkt in
      if bool_decide (subcmd ∈ _chunks_received self) then
        (Raise (ValueError ("Chunk 0x" +:+ format_02X subcmd +:+ " already received")),
         self)
      else
        let chunk_info : gmap string value :=
          <["payload" := VStr (hex payload)]> (<["subcmd" := VInt subcmd]> ∅) in
        if subcmd =? 0x10 then
          let spd_data := slice 2 50 payload in
          let self := mk (_spd_bytes self ++ spd_data) (_chunks_received self)
                         (_chunk_info_list self) in
          match struct_unpack_f (length spd_data / 4) spd_data with
          | Raise e => (Raise e, self)
          | Ok floats =>
              let chunk_info :=
                <["spd" := VFloats floats]>
                  (<["spd_raw" := VStr (hex spd_data)]>
                     (<["spd_bytes_count" := VInt (Z.of_nat (length spd_data))]>
                        (<["spd_bytes_start" := VInt 2]> chunk_info))) in
              record_chunk subcmd chunk_info self
          end
        else if (subcmd =? 0x11) || (subcmd =? 0x12) then
          let spd_data := slice 2 50 payload in
          let self := mk (_spd_bytes self ++ spd_data) (_chunks_received self)
                         (_chunk_info_list self) in
          match struct_unpack_f (length spd_data / 4) spd_data with
          | Raise e => (Raise e, self)
          | Ok floats =>
              let chunk_info :=
                <["spd" := VFloats floats]>
                  (<["spd_raw" := VStr (hex spd_data)]>
                     (<["spd_bytes_count" := VInt (Z.of_nat (length spd_data))]>
                        chunk_info)) in
              record_chunk subcmd chunk_info self
          end
        else if subcmd =? 0x13 then
          record_chunk subcmd (<["spd_bytes_count" := VInt 0]> chunk_info) self
        else
          (Raise (ValueError ("Unknown SPD chunk subcmd: 0x" +:+ format_02X subcmd)),
           self)
  end.

Definition get_accumulated_spd (self : t) : bytes := _spd_bytes self.

Definition get_chunks_info (self : t) : list (gmap string value) :=
  _chunk_info_list self.

Definition is_spd_complete (self : t) : bool :=
  bool_decide (({[0x10; 0x11; 0x12; 0x13]} : gset Z) ⊆ _chunks_received self).

Definition verify_checksum (packet : bytes) : outcome bool :=
  pkt ← parse_packet packet; Ok (fst (CR30Packet.verify_checksum pkt)).

Definition parse_header (packet : bytes) : outcome CR30Packet.t :=
  parse_packet packet.

(** [field.decode('ascii', errors='ignore').strip('\x00')] *)
Definition info_string (field : bytes) : string :=
  strip NUL (decode_ascii_ignore field).

Definition parse_device_info (packet : bytes) : outcome (gmap string value) :=
  pkt ← parse_packet packet;
  let payload := CR30Packet.payload pkt in
  let result : gmap string value :=
    <["param" := VInt (CR30Packet.param pkt)]>
      (<["subcmd" := VInt (CR30Packet.subcmd pkt)]>
         (<["cmd" := VInt (CR30Packet.cmd pkt)]> ∅)) in
  if CR30Packet.cmd pkt =? 0x0A then
    if CR30Packet.subcmd pkt =? 0x00 then
      let name := info_string (slice 5 30 payload) in
      let model := info_string (slice 35 45 payload) in
      Ok (<["model" := VStr model]> (<["name" := VStr name]> result))
    else if CR30Packet.subcmd pkt =? 0x01 then
      let serial := info_string (slice 5 25 payload) in
      Ok (<["serial" := VStr serial]> result)
    else if CR30Packet.subcmd pkt =? 0x02 then
      let firmware := info_string (slice 5 25 payload) in
      Ok (<["firmware" := VStr firmware]> result)
    else if CR30Packet.subcmd pkt =? 0x03 then
      let build := info_string (slice 5 25 payload) in
      Ok (<["build" := VStr build]> result)
    else Ok result
  else Ok result.

Definition parse_measurement_header (packet : bytes) : outcome CR30Packet.t :=
  pkt ← parse_packet packet;
  if negb (CR30Packet.subcmd pkt =? 0x09) then
    Raise (ValueError ("Not a measurement header packet: subcmd=0x"
                       +:+ format_02X (CR30Packet.subcmd pkt) +:+ ", expected 0x09"))
  else Ok pkt.

End PacketParser.

(** ** device.py *)

Module CR30Device.

(** *** The reader task *)

(** [StreamReader.readexactly(n)] on a stream that delivers [reader] and is
    then closed: the next [n] bytes and the rest of the stream, or
    [IncompleteReadError] when fewer than [n] bytes remain. *)
Definition readexactly (n : nat) (reader : bytes) : outcome (bytes * bytes) :=
  if (length reader <? n)%nat then Raise IncompleteReadError
  else Ok (take n reader, drop n reader).

(** [for cb in self._raw_callbacks: cb(data)]; an observer that raises
    ends the iteration. *)
Fixpoint run_raw_callbacks (cbs : list (bytes -> outcome unit)) (data : bytes)
  : outcome unit :=
  match cbs with
  | [] => Ok tt
  | cb :: cbs => match cb data with
                 | Ok _ => run_raw_callbacks cbs data
                 | Raise e => Raise e
                 end
  end.

(** Keeps the equation of a scrutinee for the termination proof. *)
Definition inspect {A} (a : A) : {b | a = b} := exist _ a eq_refl.

(** The receive loop, run on the bytes that arrive until the stream is
    closed, with [_running] left set.  The value is the queue [_frames]
    when the task ends; any exception (the short read at the end of the
    stream, a raising observer) ends the loop and is printed. *)
Equations? _receive_loop (_raw_callbacks : list (bytes -> outcome unit))
    (reader : bytes) (_frames : list bytes) : list bytes
    by wf (length reader) lt :=
  _receive_loop cbs reader frames with inspect (readexactly 60 reader) := {
    | exist _ (Raise _) _ => frames
    | exist _ (Ok (data, reader')) Hread =>
        if PacketParser.is_valid_packet data then
          match run_raw_callbacks cbs data with
          | Ok _ => _receive_loop cbs reader' (frames ++ [data])
          | Raise _ => frames ++ [data]
          end
        else _receive_loop cbs reader' frames }.
Proof.
  all: unfold readexactly in Hread;
    destruct (length reader <? 60)%nat eqn:Hlen; [discriminate|];
    apply Nat.ltb_ge in Hlen; injection Hread as <- <-;
    rewrite length_drop; lia.
Qed.

(** *** Requests and replies *)

(** The device object as the request path sees it.  [writer] is the log
    of the packets written to the serial port, oldest first.  [_frames] is
    the queue of accepted frames.  The reader task runs concurrently; its
    effect on the queue is given by [arrivals]: the head is the batch of
    frames it enqueues while the next [recv] waits for its timeout, so a
    timeout is an empty queue after an empty batch. *)
Record t : Type := mk {
  writer : list bytes;
  _frames : list bytes;
  arrivals : list (list bytes);
  _packet_parser : PacketParser.t;
}.

Definition set_writer (w : list bytes) (self : t) : t :=
  mk w (_frames self) (arrivals self) (_packet_parser self).
Definition set_frames (q : list bytes) (self : t) : t :=
  mk (writer self) q (arrivals self) (_packet_parser self).
Definition set_arrivals (a : list (list bytes)) (self : t) : t :=
  mk (writer self) (_frames self) a (_packet_parser self).
Definition set_packet_parser (p : PacketParser.t) (self : t) : t :=
  mk (writer self) (_frames self) (arrivals self) p.

(** Computations on the device: the state is kept when an exception is
    raised. *)
Definition M (A : Type) : Type := t -> outcome A * t.

Definition raise {A} (e : exn) : M A := fun self => (Raise e, self).
#[global] Instance M_ret : MRet M := fun A a self => (Ok a, self).
#[global] Instance M_bind : MBind M := fun A B k c self =>
  match c self with
  | (Ok a, self) => k a self
  | (Raise e, self) => (Raise e, self)
  end.
(** [try: c  except ValueError as e: h(str(e))] *)
Definition try_except_ValueError {A} (c : M A) (h : string -> M A) : M A :=
  fun self =>
    match c self with
    | (Raise (ValueError e), self) => h e self
    | r => r
    end.
(** A method of [self._packet_parser]. *)
Definition on_parser {A} (f : PacketParser.t -> outcome A * PacketParser.t) : M A :=
  fun self =>
    let '(r, p) := f (_packet_parser self) in (r, set_packet_parser p self).

(** Empties the queue without waiting. *)
Definition flush_recv : M unit := fun self => (Ok tt, set_frames [] self).

(** [asyncio.wait_for(self._frames.get(), timeout)]: the oldest queued
    frame, or [None] when the timeout expires. *)
Definition recv : M (option bytes) := fun self =>
  let batch := hd [] (arrivals self) in
  let self := set_arrivals (tl (arrivals self)) self in
  match _frames self ++ batch with
  | [] => (Ok None, set_frames [] self)
  | frame :: queue => (Ok (Some frame), set_frames queue self)
  end.

Definition build_packet (start cmd subcmd param : Z) (data : option bytes)
  : outcome bytes :=
  PacketBuilder.build_packet start cmd subcmd param data.

Definition send_raw (packet : bytes) : M unit := fun self =>
  (Ok tt, set_writer (writer self ++ [packet]) self).

Definition send (start cmd subcmd param : Z) (data : option bytes) : M unit :=
  match build_packet start cmd subcmd param data with
  | Ok packet => send_raw packet
  | Raise e => raise e
  end.

Definition send_recv (start cmd subcmd param : Z) (data : option bytes)
  : M (option bytes) :=
  send start cmd subcmd param data ;; recv.

Definition _extract_payload_bytes (packet : bytes) : M bytes := fun self =>
  (PacketParser.extract_payload packet, self).

(** *** Identification of the device *)

(** The attributes [_device_name] to [_device_build] of the device
    object, [None] until the handshake assigns them.  They are kept apart
    from [t]: only the handshake writes them, and the request path never
    reads them. *)
Record info : Type := mk_info {
  _device_name : option string;
  _device_model : option string;
  _device_serial : option string;
  _device_firmware : option string;
  _device_build : option string;
}.

(** [attribute or "Unknown"]: [None] and the empty string are false. *)
Definition or_Unknown (attribute : option string) : string :=
  match attribute with
  | None | Some EmptyString => "Unknown"
  | Some s => s
  end.

Definition name (i : info) : string := or_Unknown (_device_name i).
Definition model (i : info) : string := or_Unknown (_device_model i).
Definition serial_number (i : info) : string := or_Unknown (_device_serial i).
Definition fw_version (i : info) : string := or_Unknown (_device_firmware i).
Definition fw_build (i : info) : string := or_Unknown (_device_build i).

Definition _parse_name (data : bytes) (i : info) : info :=
  mk_info (Some (PacketParser.info_string (slice 5 30 data)))
          (Some (PacketParser.info_string (slice 35 45 data)))
          (_device_serial i) (_device_firmware i) (_device_build i).

(** [data[-7:]] is the last seven bytes, all of [data] when it is shorter. *)
Definition _parse_serial_number (data : bytes) (i : info) : info :=
  mk_info (_device_name i) (_device_model i)
          (Some (PacketParser.info_string (slice 16 30 data) +:+ " - "
                 +:+ PacketParser.info_string (drop (length data - 7) data)))
          (_device_firmware i) (_device_build i).

Definition _parse_firmware (data : bytes) (i : info) : info :=
  mk_info (_device_name i) (_device_model i) (_device_serial i)
          (Some (PacketParser.info_string (slice 20 30 data)))
          (Some (PacketParser.info_string (slice 1 20 data))).

Definition aa_commands : list (Z * option (bytes -> info -> info)) :=
  [(0x00, Some _parse_name); (0x01, Some _parse_serial_number);
   (0x02, Some _parse_firmware); (0x03, None)].

(** [for subcmd, parse in aa_commands: ...]; a missing or short reply is
    skipped with [continue]. *)
Fixpoint for_aa_commands (commands : list (Z * option (bytes -> info -> info)))
    (i : info) : M info :=
  match commands with
  | [] => mret i
  | (subcmd, parse) :: commands =>
      response ← send_recv 0xAA 0x0A subcmd 0x00 None;
      match response with
      | None => for_aa_commands commands i
      | Some response =>
          if (length response <? 60)%nat then for_aa_commands commands i
          else
            payload ← _extract_payload_bytes response;
            match parse with
            | Some parse => for_aa_commands commands (parse payload i)
            | None => for_aa_commands commands i
            end
      end
  end.

(** [for idx in [0x00, 0x01, 0x02, 0x03, 0xFF]: ...] *)
Fixpoint for_idx (idxs : list Z) : M unit :=
  match idxs with
  | [] => mret tt
  | idx :: idxs => send_recv 0xBB 0x28 0x00 idx None ;; for_idx idxs
  end.

(** [b'Check' + b'\x00' * 7] *)
Definition Check_data : bytes := [67; 104; 101; 99; 107] ++ replicate 7 0.

Definition handshake (i : info) : M info :=
  flush_recv ;;
  i ← for_aa_commands aa_commands i;
  send_recv 0xBB 0x17 0x00 0x00 None ;;
  send_recv 0xBB 0x13 0x00 0x00 (Some Check_data) ;;
  for_idx [0x00; 0x01; 0x02; 0x03; 0xFF] ;;
  mret i.

End CR30Device.

(** ** protocol.py *)

Module CR30Protocol.
Import CR30Device.

(** The [result] dictionary of a measurement.  The keys ["header"],
    ["chunks"], ["spd"] and ["raw"] are created with the dictionary;
    ["spd_bytes"] and ["spd_data"] are absent until they are assigned. *)
Record measurement : Type := mk_measurement {
  result_header : option (gmap string value);
  result_chunks : list (gmap string value);
  result_spd : list float32;
  result_raw : gmap string string;
  result_spd_bytes : option string;
  result_spd_data : option (gmap Z float32);
}.

(** [list(range(400, 701, 10))], 31 bands *)
Definition wavelengths : list Z :=
  map (fun i => 400 + 10 * Z.of_nat i) (seq 0 31).

(** [dict(zip(keys, values))]: the last binding of a key wins. *)
Definition dict_zip (keys : list Z) (values : list float32) : gmap Z float32 :=
  list_to_map (reverse (zip keys values)).

(** The dictionary [calibrate] returns. *)
Record calibration : Type := mk_calibration {
  success : bool;
  status_byte : Z;
  raw_response : string;
}.

Definition calibrate (white : bool) : M calibration :=
  response ← send_recv 0xBB (if white then 0x11 else 0x10) 0x00 0x00 None;
  match response with
  | None | Some [] => raise (TimeoutError "No response from calibration command")
  | Some response =>
      match PacketParser.extract_payload response with
      | Raise (ValueError e) =>
          raise (ValueError ("Invalid calibration response packet: " +:+ e))
      | Raise e => raise e
      | Ok payload =>
          let status := if (1 <? length payload)%nat then payload !!! 1%nat else 0 in
          mret (mk_calibration (status =? 0x01) status (hex response))
      end
  end.

(** Outcome of one iteration of a [for] loop with [break]. *)
Inductive iteration (A : Type) : Type :=
| Next (a : A)
| Break (a : A).
Arguments Next {A} a.
Arguments Break {A} a.

(** The loop state an iteration leaves behind. *)
Definition iteration_result {A} (step : iteration A) : A :=
  match step with Next a | Break a => a end.

Definition chunk_subcmds : list Z := [0x10; 0x11; 0x12; 0x13].

(** Body of the loop of [_read_all_chunks] for one [subcmd].  The per-step
    timeout is the waiting time of [recv], see [CR30Device.t]. *)
Definition read_chunk (subcmd : Z) (result : measurement)
  : M (iteration measurement) :=
  packet ← send_recv 0xBB 0x01 subcmd 0x00 None;
  match packet with
  | None | Some [] => mret (Break result)
  | Some packet =>
      try_except_ValueError
        (chunk_info ← on_parser (PacketParser.parse_spd_chunk packet);
         match chunk_info !! "payload" with
         | Some (VStr payload) =>
             mret (Next (mk_measurement (result_header result)
                          (result_chunks result ++ [chunk_info]) (result_spd result)
                          (<["0x" +:+ format_02X subcmd := payload]> (result_raw result))
                          (result_spd_bytes result) (result_spd_data result)))
         | _ => raise (KeyError "payload")
         end)
        (fun e =>
           let chunk_info : gmap string value :=
             <["error" := VStr e]> (<["subcmd" := VInt subcmd]> ∅) in
           mret (Next (mk_measurement (result_header result)
                        (result_chunks result ++ [chunk_info]) (result_spd result)
                        (result_raw result) (result_spd_bytes result) (result_spd_data result))))
  end.

(** [for subcmd in subcmds: ...]: [Break] when the loop was left by
    [break], [Next] when it ran to the end of the list. *)
Fixpoint for_subcmd (subcmds : list Z) (result : measurement)
  : M (iteration measurement) :=
  match subcmds with
  | [] => mret (Next result)
  | subcmd :: subcmds =>
      step ← read_chunk subcmd result;
      match step with
      | Break result => mret (Break result)
      | Next result => for_subcmd subcmds result
      end
  end.

(** Returns the accumulated bytes together with the updated [result]
    dictionary, which Python mutates in place. *)
Definition _read_all_chunks (result : measurement) : M (bytes * measurement) :=
  on_parser (fun p => (Ok tt, PacketParser.reset_spd_collection p)) ;;
  step ← for_subcmd chunk_subcmds result;
  let result := iteration_result step in
  spd_bytes ← on_parser (fun p => (Ok (PacketParser.get_accumulated_spd p), p));
  mret (spd_bytes, result).

(** Any exception of the decoding is caught and printed. *)
Definition _parse_spd_data (result : measurement) (spd_bytes : bytes) : measurement :=
  if (length spd_bytes <? 124)%nat then result
  else
    match struct_unpack_f 31 (slice 0 124 spd_bytes) with
    | Ok spd =>
        mk_measurement (result_header result) (result_chunks result) spd (result_raw result)
          (result_spd_bytes result) (Some (dict_zip wavelengths spd))
    | Raise _ => result
    end.

Section Callbacks.

(** Observers registered with [register_raw_measurement_callback] and
    [register_response_callback]. *)
Variable _raw_measurement_callbacks : list (measurement -> outcome unit).
Variable _response_callbacks : list (measurement -> outcome unit).

(** Every observer is called; an exception it raises is printed. *)
Definition _trigger_callbacks (result : measurement) : M unit :=
  let call cb := match cb result with Ok _ => tt | Raise _ => tt end in
  let _ := map call _raw_measurement_callbacks in
  let _ := map call _response_callbacks in
  mret tt.

Definition _read_measurement (initial_response : bytes) : M measurement :=
  flush_recv ;;
  let result := mk_measurement None [] [] ∅ None None in
  match PacketParser.parse_packet initial_response with
  | Raise (ValueError e) =>
      raise (ValueError ("Invalid measurement header packet: " +:+ e))
  | Raise e => raise e
  | Ok header_pkt =>
      let header_info : gmap string value :=
        <["payload" := VStr (hex (CR30Packet.payload header_pkt))]>
          (<["param" := VInt (CR30Packet.param header_pkt)]>
             (<["subcmd" := VInt (CR30Packet.subcmd header_pkt)]>
                (<["cmd" := VInt (CR30Packet.cmd header_pkt)]> ∅))) in
      let result :=
        mk_measurement (Some header_info) [] [] {["header" := hex initial_response]}
          None None in
      '(spd_bytes, result) ← _read_all_chunks result;
      let result :=
        mk_measurement (result_header result) (result_chunks result) (result_spd result) (result_raw result)
          (Some (hex spd_bytes)) (result_spd_data result) in
      let result := _parse_spd_data result spd_bytes in
      _trigger_callbacks result ;;
      mret result
  end.

Definition wait_measurement : M measurement :=
  response ← recv;
  match response with
  | None | Some [] => raise (TimeoutError "No button press detected")
  | Some response => _read_measurement response
  end.

Definition measure : M measurement :=
  header_packet ← send_recv 0xBB 0x01 0x00 0x00 None;
  match header_packet with
  | None | Some [] =>
      raise (TimeoutError "No header response after trigger (BB 01 00).")
  | Some header_packet => _read_measurement header_packet
  end.

End Callbacks.

End CR30Protocol.

(** ** color_science.py *)

Module ColorScience.

(** [str.lower] on ASCII text. *)
Definition lower_ascii (c : ascii) : ascii :=
  let n := nat_of_ascii c in
  if ((65 <=? n) && (n <=? 90))%nat then ascii_of_nat (n + 32) else c.

Fixpoint lower (s : string) : string :=
  match s with
  | EmptyString => EmptyString
  | String c s => String (lower_ascii c) (lower s)
  end.

(** *** Chromatic adaptation.  Doubles are idealised as rationals: the
    function uses field operations only. *)
Section Adaptation.
Local Open Scope Q_scope.

Definition vec3 : Type := Q * Q * Q.
Definition mat3 : Type := vec3 * vec3 * vec3.

(** [M @ v] *)
Definition matvec (M : mat3) (v : vec3) : vec3 :=
  let '((a, b, c), (d, e, f), (g, h, i)) := M in
  let '(x, y, z) := v in
  (a * x + b * y + c * z, d * x + e * y + f * z, g * x + h * y + i * z).

(** [A @ B] *)
Definition matmul (A B : mat3) : mat3 :=
  let '((a, b, c), (d, e, f), (g, h, i)) := B in
  let '(c1, c2, c3) := (matvec A (a, d, g), matvec A (b, e, h), matvec A (c, f, i)) in
  let '((x1, y1, z1), (x2, y2, z2), (x3, y3, z3)) := (c1, c2, c3) in
  ((x1, x2, x3), (y1, y2, y3), (z1, z2, z3)).

Definition det (M : mat3) : Q :=
  let '((a, b, c), (d, e, f), (g, h, i)) := M in
  a * (e * i - f * h) - b * (d * i - f * g) + c * (d * h - e * g).

(** [np.linalg.inv]: the inverse, [LinAlgError] on a singular matrix. *)
Definition linalg_inv (M : mat3) : outcome mat3 :=
  let '((a, b, c), (d, e, f), (g, h, i)) := M in
  let dt := det M in
  if Qeq_bool dt 0 then Raise (LinAlgError "Singular matrix")
  else Ok (((e * i - f * h) / dt, (c * h - b * i) / dt, (b * f - c * e) / dt),
           ((f * g - d * i) / dt, (a * i - c * g) / dt, (c * d - a * f) / dt),
           ((d * h - e * g) / dt, (b * g - a * h) / dt, (a * e - b * d) / dt)).

(** Element-wise [u / v] and [u * v] *)
Definition vdiv (u v : vec3) : vec3 :=
  let '(a, b, c) := u in let '(x, y, z) := v in (a / x, b / y, c / z).
Definition vmul (u v : vec3) : vec3 :=
  let '(a, b, c) := u in let '(x, y, z) := v in (a * x, b * y, c * z).

Definition _CAT_MATRICES : gmap string mat3 :=
  <["kries" := (( 0.4002,  0.7075, -0.0807),
                (-0.2280,  1.1500,  0.0612),
                ( 0.0000,  0.0000,  0.9184))]>
  (<["cat02" := (( 0.7328,  0.4296, -0.1624),
                 (-0.7036,  1.6975,  0.0061),
                 ( 0.0030,  0.0136,  0.9834))]>
  (<["bradford" := (( 0.8951,  0.2664, -0.1614),
                    (-0.7502,  1.7135,  0.0367),
                    ( 0.0389, -0.0685,  1.0296))]> ∅)).

Definition adapt_xyz (X Y Z : Q) (Ws Wd : vec3) (method : string) : outcome vec3 :=
  let method := lower method in
  match _CAT_MATRICES !! method with
  | None =>
      Raise (ValueError ("Unknown adaptation method '" +:+ method
                         +:+ "'. Use 'bradford', 'cat02', or 'kries'."))
  | Some M =>
      M_inv ← linalg_inv M;
      let XYZ := (X, Y, Z) in
      let src_cone := matvec M Ws in
      let dst_cone := matvec M Wd in
      let XYZ_cone := matvec M XYZ in
      let scale := vdiv dst_cone src_cone in
      let adapted_cone := vmul XYZ_cone scale in
      Ok (matvec M_inv adapted_cone)
  end.

End Adaptation.

(** *** sRGB to XYZ.  Doubles are idealised as real numbers, [c ** 2.4]
    as [Rpower c 2.4]. *)
Section RgbToXyz.
Local Open Scope R_scope.

(** [rgb.max()] *)
Definition rgb_max (r g b : R) : R := Rmax r (Rmax g b).

(** [np.where] selects the power law only above the breakpoint, where
    its base is positive. *)
Definition inv_gamma (c : R) : R :=
  if Rle_dec c 0.04045 then c / 12.92
  else Rpower ((c + 0.055) / 1.055) 2.4.

(** [M @ inv_gamma(rgb)] for an array [rgb] already in the unit range. *)
Definition gamma_decoded_to_xyz (rgb : R * R * R) : R * R * R :=
  let '(r, g, b) := rgb in
  let '(r, g, b) := (inv_gamma r, inv_gamma g, inv_gamma b) in
  (0.4124564 * r + 0.3575761 * g + 0.1804375 * b,
   0.2126729 * r + 0.7151522 * g + 0.0721750 * b,
   0.0193339 * r + 0.1191920 * g + 0.9503041 * b).

Definition rgb_to_xyz (r g b : R) : R * R * R :=
  let rgb := (r, g, b) in
  let rgb :=
    if Rgt_dec (rgb_max r g b) 1.0 then (r / 255.0, g / 255.0, b / 255.0)
    else rgb in
  gamma_decoded_to_xyz rgb.

End RgbToXyz.

(** *** XYZ and Lab.  Doubles are idealised as real numbers. *)
Section Lab.
Local Open Scope R_scope.

(** [WhitePoint.D65_10] *)
Definition D65_10 : R * R * R := (94.81, 100.000, 107.32).

(** [np.cbrt], the real cube root. *)
Definition cbrt (t : R) : R :=
  if Rlt_dec 0 t then Rpower t (1 / 3)
  else if Rlt_dec t 0 then - Rpower (- t) (1 / 3)
  else 0.

(** The local function [f] of [xyz_to_lab]. *)
Definition xyz_to_lab_f (t : R) : R :=
  let delta := 6 / 29 in
  if Rgt_dec t (delta ^ 3) then cbrt t
  else t / (3 * delta ^ 2) + 4 / 29.

(** [illuminant] is [None] or a triple [(Xn, Yn, Zn)]. *)
Definition xyz_to_lab (X Y Z : R) (illuminant : option (R * R * R)) : R * R * R :=
  let '(Xn, Yn, Zn) :=
    match illuminant with
    | None => D65_10
    | Some white => white
    end in
  let xr := X / Xn in
  let yr := Y / Yn in
  let zr := Z / Zn in
  let fx := xyz_to_lab_f xr in
  let fy := xyz_to_lab_f yr in
  let fz := xyz_to_lab_f zr in
  let L := 116 * fy - 16 in
  let a := 500 * (fx - fy) in
  let b := 200 * (fy - fz) in
  (L, a, b).

(** The local function [f_inv] of [lab_to_xyz]. *)
Definition lab_to_xyz_f_inv (ft : R) : R :=
  let delta := 6 / 29 in
  if Rgt_dec ft delta then ft ^ 3
  else 3 * delta ^ 2 * (ft - 4 / 29).

Definition lab_to_xyz (L a b : R) (illuminant : option (R * R * R)) : R * R * R :=
  let '(Xn, Yn, Zn) :=
    match illuminant with
    | None => D65_10
    | Some white => white
    end in
  let fy := (L + 16) / 116 in
  let fx := fy + a / 500 in
  let fz := fy - b / 200 in
  let xr := lab_to_xyz_f_inv fx in
  let yr := lab_to_xyz_f_inv fy in
  let zr := lab_to_xyz_f_inv fz in
  (xr * Xn, yr * Yn, zr * Zn).

End Lab.

(** *** XYZ to sRGB, and the conversions chained through XYZ.  Doubles are
    idealised as real numbers, [c ** (1 / 2.4)] as [Rpower c (1 / 2.4)]. *)
Section XyzToRgb.
Local Open Scope R_scope.

(** The local function [gamma]: [np.where] selects the power law only
    above the breakpoint, where its base is positive. *)
Definition gamma (c : R) : R :=
  if Rle_dec c 0.0031308 then 12.92 * c
  else 1.055 * Rpower c (1 / 2.4) - 0.055.

(** [np.clip(x, lo, hi)], that is [minimum(hi, maximum(x, lo))] *)
Definition clip (x lo hi : R) : R := Rmin hi (Rmax x lo).

(** The largest integer not above [x]. *)
Definition floor (x : R) : Z := (up x - 1)%Z.

(** [x.round().astype(int)]: the nearest integer, the even one half way
    between two integers. *)
Definition np_round (x : R) : Z :=
  let f := floor x in
  let d := x - IZR f in
  if Rlt_dec d (1 / 2) then f
  else if Rlt_dec (1 / 2) d then (f + 1)%Z
  else if Z.even f then f else (f + 1)%Z.

Definition xyz_to_rgb (X Y Z : R) (out_255 : bool) : R * R * R :=
  let r_lin :=  3.2404542 * X + -1.5371385 * Y + -0.4985314 * Z in
  let g_lin := -0.9692660 * X +  1.8760108 * Y +  0.0415560 * Z in
  let b_lin :=  0.0556434 * X + -0.2040259 * Y +  1.0572252 * Z in
  let '(r, g, b) := (gamma r_lin, gamma g_lin, gamma b_lin) in
  let '(r, g, b) := (clip r 0 1, clip g 0 1, clip b 0 1) in
  if out_255 then
    (IZR (np_round (r * 255)), IZR (np_round (g * 255)), IZR (np_round (b * 255)))
  else (r, g, b).

(** [ColorScienceBase.rgb_to_lab] and [ColorScienceBase.lab_to_rgb] *)
Definition rgb_to_lab (r g b : R) (illuminant : option (R * R * R)) : R * R * R :=
  let '(X, Y, Z) := rgb_to_xyz r g b in
  xyz_to_lab X Y Z illuminant.

Definition lab_to_rgb (L a b : R) (illuminant : option (R * R * R)) (out_255 : bool)
  : R * R * R :=
  let '(X, Y, Z) := lab_to_xyz L a b illuminant in
  xyz_to_rgb X Y Z out_255.

End XyzToRgb.

(** *** The Kubelka-Munk function.  Doubles are idealised as rationals:
    the function uses field operations and comparisons only. *)
Section KubelkaMunk.
Local Open Scope Q_scope.

(** [np.clip(x, lo, hi)] *)
Definition Qclip (x lo hi : Q) : Q := Qmin hi (Qmax x lo).

Definition calculate_k_s (reflectance : list Q) : list Q :=
  map (fun r =>
         let R01 := Qclip (r / 100) 0.01 0.99 in
         (1 - R01) ^ 2 / (2 * R01))
      reflectance.

End KubelkaMunk.

End ColorScience.

(** [SpectrumDataLoader]: the two resampling helpers.  Doubles are
    idealised as rationals. *)
Module SpectrumDataLoader.
Local Open Scope Q_scope.

(** Result of an array operation: the value, or the exception numpy or
    the indexing raises. *)
Inductive np_result (A : Type) : Type :=
| NpOk (a : A)
| NpValueError (msg : string)
| NpIndexError (msg : string).
Arguments NpOk {A} a.
Arguments NpValueError {A} msg.
Arguments NpIndexError {A} msg.




(** [a[mask]] for a boolean [mask] as long as [a] *)
Fixpoint select {A} (mask : list bool) (a : list A) : list A :=
  match mask, a with
  | m :: mask, x :: a => if m then x :: select mask a else select mask a
  | _, _ => []
  end.

Definition restrict_to_X_range (X Xp Yp : list Q) : np_result (list Q * list Q) :=
  match X with
  | [] =>
      NpValueError
        "zero-size array to reduction operation minimum which has no identity"
  | x :: X' =>
      let Xmin := fold_left Qmin X' x in
      let Xmax := fold_left Qmax X' x in
      let mask := map (fun xp => Qle_bool Xmin xp && Qle_bool xp Xmax) Xp in
      if negb (length Yp =? length mask)%nat then
        NpIndexError
          ("boolean index did not match indexed array along axis 0; size of axis is "
           +:+ str_nat (length Yp) +:+ " but size of corresponding boolean axis is "
           +:+ str_nat (length mask))
      else NpOk (select mask Xp, select mask Yp)
  end.

End SpectrumDataLoader.

(** ** white_points.py *)

Module WhitePoint.
Local Open Scope Q_scope.

(** [str.upper] on ASCII text. *)
Definition upper_ascii (c : ascii) : ascii :=
  let n := nat_of_ascii c in
  if ((97 <=? n) && (n <=? 122))%nat then ascii_of_nat (n - 32) else c.

Fixpoint upper (s : string) : string :=
  match s with
  | EmptyString => EmptyString
  | String c s => String (upper_ascii c) (upper s)
  end.

(** [c in s] for a character [c] *)
Fixpoint contains (c : ascii) (s : string) : bool :=
  match s with
  | EmptyString => false
  | String a s => Ascii.eqb a c || contains c s
  end.

Definition _data : gmap string (Q * Q * Q) :=
  list_to_map
    [("D50/10"%string, (96.72, 100.000, 81.43));
     ("D55/10"%string, (95.682, 100.000, 92.149));
     ("D65/10"%string, (94.81, 100.000, 107.32));
     ("D75/10"%string, (94.972, 100.000, 122.638));
     ("D50/2"%string, (96.422, 100.000, 82.521));
     ("D65/2"%string, (95.047, 100.000, 108.883));
     ("D75/2"%string, (94.972, 100.000, 122.638));
     ("A"%string, (109.850, 100.000, 35.585));
     ("B"%string, (99.092, 100.000, 85.313));
     ("C"%string, (98.074, 100.000, 118.232));
     ("E"%string, (100.000, 100.000, 100.000));
     ("F1"%string, (92.834, 100.000, 103.665));
     ("F2"%string, (99.187, 100.000, 67.395));
     ("F3"%string, (103.754, 100.000, 49.861));
     ("F4"%string, (109.147, 100.000, 38.813));
     ("F5"%string, (90.872, 100.000, 98.723));
     ("F6"%string, (97.309, 100.000, 60.188));
     ("F7"%string, (95.044, 100.000, 108.755));
     ("F8"%string, (96.413, 100.000, 82.333));
     ("F9"%string, (100.365, 100.000, 67.868));
     ("F10"%string, (96.174, 100.000, 108.882));
     ("F11"%string, (100.966, 100.000, 64.370));
     ("F12"%string, (108.046, 100.000, 39.228));
     ("LED_CW_6500K"%string, (95.04, 100.0, 108.88));
     ("LED_NW_4300K"%string, (97.0, 100.0, 92.0));
     ("LED_WW_3000K"%string, (98.5, 100.0, 67.0));
     ("LED_VWW_2200K"%string, (103.0, 100.0, 50.0))].

(** [/10] is appended to a standard daylight illuminant given without
    observer. *)
Definition __getitem__ (key : string) : outcome (Q * Q * Q) :=
  let key_upper := upper key in
  let key_upper :=
    if negb (contains "/" key_upper)
       && bool_decide (key_upper ∈ ["D50"; "D55"; "D65"; "D75"]%string)
    then key_upper +:+ "/10"
    else key_upper in
  match _data !! key_upper with
  | None => Raise (KeyError ("Unknown whitepoint '" +:+ key +:+ "'"))
  | Some white => Ok white
  end.

(** [default] is [None] when the argument is omitted. *)
Definition get (key : string) (default : option (Q * Q * Q)) : option (Q * Q * Q) :=
  let key_upper := upper key in
  let key_upper :=
    if negb (contains "/" key_upper)
       && bool_decide (key_upper ∈ ["D50"; "D55"; "D65"; "D75"]%string)
    then key_upper +:+ "/10"
    else key_upper in
  match _data !! key_upper with
  | None => default
  | Some white => Some white
  end.

Definition __len__ : nat := size _data.

End WhitePoint.

(** ** driver/cr30_reader.py *)

Module CR30Reader.

(** [self._wp] is the default [WhitePoint()]; its rational entries are
    read as real numbers.  [xyz_to_rgb] is called with its default
    [out_255=True]. *)
Definition _decide (xyz : R * R * R) (space illuminant : string)
  : outcome (R * R * R) :=
  if String.eqb space "XYZ" then Ok xyz
  else
    whitepoint ← WhitePoint.__getitem__ illuminant;
    let '(Xn, Yn, Zn) := whitepoint in
    let whitepoint := (Q2R Xn, Q2R Yn, Q2R Zn) in
    let '(X, Y, Z) := xyz in
    if String.eqb space "LAB" then
      Ok (ColorScience.xyz_to_lab X Y Z (Some whitepoint))
    else if String.eqb space "RGB" then
      Ok (ColorScience.xyz_to_rgb X Y Z true)
    else Raise (ValueError ("Unknown color space: " +:+ space)).

End CR30Reader.


(** ** Vocabulary of the statements *)

(** The payload argument of [build_packet] as a byte string. *)
Definition payload_of (data : option bytes) : bytes :=
  match data with
  | Some data => data
  | None => []
  end.

(** The checksum [calculate_checksum] computes from the start byte and the
    bytes it sums. *)
Definition checksum_of (start : Z) (summed : bytes) : Z :=
  if start =? 0xBB then (sum summed mod 256 - 1) mod 256 else sum summed mod 256.

(** Bytes 0 to 57 of a built packet. *)
Definition frame_body (start cmd subcmd param : Z) (payload : bytes) : bytes :=
  [start; Z.land cmd 0xFF; Z.land subcmd 0xFF; Z.land param 0xFF]
  ++ payload ++ replicate (52 - length payload) 0 ++ [0; 0].

(** Closed form of the frame [build_packet] returns. *)
Definition encoded_frame (start cmd subcmd param : Z) (payload : bytes) : bytes :=
  frame_body start cmd subcmd param payload
  ++ [0xFF; checksum_of start (frame_body start cmd subcmd param payload)].

(** The structure of a frame: 60 bytes, a start byte [0xAA] with the end
    marker [0xFF], or a start byte [0xBB] with the end marker [0x00] or
    [0xFF]. *)
Definition frame_structure_ok (frame : bytes) : Prop :=
  length frame = 60%nat
  /\ (frame !!! 0%nat = 0xAA /\ frame !!! 58%nat = 0xFF
      \/ frame !!! 0%nat = 0xBB
         /\ (frame !!! 58%nat = 0x00 \/ frame !!! 58%nat = 0xFF)).

(** The stored checksum of a frame agrees with the checksum computed over
    its first [n] bytes. *)
Definition stored_checksum_matches (n : nat) (frame : bytes) : bool :=
  frame !!! 59%nat =? checksum_of (frame !!! 0%nat) (take n frame).

(** The spectral bytes a chunk reply adds to the accumulator. *)
Definition spd_contribution (pkt : CR30Packet.t) : bytes :=
  if (CR30Packet.subcmd pkt =? 0x10) || (CR30Packet.subcmd pkt =? 0x11)
     || (CR30Packet.subcmd pkt =? 0x12)
  then slice 2 50 (CR30Packet.payload pkt) else [].

(** A device that has written nothing yet, with an empty queue, a fresh
    parser and the given arrivals. *)
Definition fresh_device (arrivals : list (list bytes)) : CR30Device.t :=
  CR30Device.mk [] [] arrivals PacketParser.__init__.

(** The entry [_read_all_chunks] records for a reply that failed to parse. *)
Definition error_entry (subcmd : Z) (e : string) : gmap string value :=
  <["error" := VStr e]> (<["subcmd" := VInt subcmd]> ∅).

(** The device once [_read_measurement] has flushed the queue and
    [_read_all_chunks] has reset the parser. *)
Definition session_start (self : CR30Device.t) : CR30Device.t :=
  CR30Device.set_packet_parser
    (PacketParser.reset_spd_collection (CR30Device._packet_parser self))
    (CR30Device.set_frames [] self).

(** The [result] dictionary once the header has been parsed. *)
Definition measurement_start (initial_response : bytes) (header_pkt : CR30Packet.t)
  : CR30Protocol.measurement :=
  CR30Protocol.mk_measurement
    (Some (<["payload" := VStr (hex (CR30Packet.payload header_pkt))]>
             (<["param" := VInt (CR30Packet.param header_pkt)]>
                (<["subcmd" := VInt (CR30Packet.subcmd header_pkt)]>
                   (<["cmd" := VInt (CR30Packet.cmd header_pkt)]> ∅)))))
    [] [] {["header" := hex initial_response]} None None.

(** [result["chunks"].append(chunk_info)] *)
Definition append_chunk (chunk_info : gmap string value)
    (result : CR30Protocol.measurement) : CR30Protocol.measurement :=
  CR30Protocol.mk_measurement (CR30Protocol.result_header result)
    (CR30Protocol.result_chunks result ++ [chunk_info])
    (CR30Protocol.result_spd result) (CR30Protocol.result_raw result)
    (CR30Protocol.result_spd_bytes result) (CR30Protocol.result_spd_data result).

(** Equality of rational vectors and matrices, component by component. *)
Definition vec_eq (u v : ColorScience.vec3) : Prop :=
  let '(a, b, c) := u in
  let '(x, y, z) := v in
  (a == x /\ b == y /\ c == z)%Q.

Definition mat_eq (A B : ColorScience.mat3) : Prop :=
  let '(a1, a2, a3) := A in
  let '(b1, b2, b3) := B in
  vec_eq a1 b1 /\ vec_eq a2 b2 /\ vec_eq a3 b3.

Definition identity3 : ColorScience.mat3 :=
  ((1, 0, 0), (0, 1, 0), (0, 0, 1))%Q.

(** The adaptation through the cone space of a matrix [M] with inverse
    [M_inv]. *)
Definition cone_adaptation (M M_inv : ColorScience.mat3)
    (XYZ Ws Wd : ColorScience.vec3) : ColorScience.vec3 :=
  ColorScience.matvec M_inv
    (ColorScience.vmul (ColorScience.matvec M XYZ)
       (ColorScience.vdiv (ColorScience.matvec M Wd) (ColorScience.matvec M Ws))).

(** Frames captured from a device, as listed in
    [tests/test_protocol.py] ([TestPacketIntegration]): the reply to the
    name query, the frame of the serial number query and the replies to the
    chunk requests [0x10] to [0x12]. *)
Definition device_name_frame : bytes :=
  [170; 10; 0; 0; 0; 86; 0; 25; 3; 83; 68; 54; 56; 55; 48;
   66; 54; 54; 55; 0; 0; 0; 0; 0; 0; 0; 0; 0; 0; 0;
   0; 0; 0; 0; 0; 0; 0; 0; 0; 67; 82; 51; 48; 0; 0;
   0; 0; 0; 0; 0; 0; 0; 0; 0; 0; 0; 0; 0; 255; 110].

Definition serial_number_frame : bytes :=
  [170; 10; 1; 0; 0; 0; 0; 0; 0; 0; 0; 0; 0; 0; 0;
   0; 0; 0; 0; 0; 0; 0; 0; 0; 0; 0; 0; 0; 0; 0;
   0; 0; 0; 0; 0; 0; 0; 0; 0; 0; 0; 0; 0; 0; 0;
   0; 0; 0; 0; 0; 0; 0; 0; 0; 0; 0; 0; 0; 255; 180].

Definition chunk_0x10_frame : bytes :=
  [187; 1; 16; 0; 0; 0; 164; 104; 176; 64; 177; 116; 230; 64; 134;
   19; 1; 65; 244; 156; 9; 65; 153; 3; 19; 65; 187; 216; 30; 65;
   185; 75; 43; 65; 117; 105; 57; 65; 100; 128; 73; 65; 31; 177; 89;
   65; 139; 113; 102; 65; 22; 140; 104; 65; 0; 0; 0; 0; 255; 55].

Definition chunk_0x11_frame : bytes :=
  [187; 1; 17; 0; 0; 0; 239; 89; 93; 65; 53; 10; 72; 65; 254;
   51; 48; 65; 196; 44; 25; 65; 198; 30; 5; 65; 93; 0; 234; 64;
   74; 171; 205; 64; 53; 135; 174; 64; 196; 91; 147; 64; 72; 107; 135;
   64; 97; 118; 139; 64; 101; 143; 141; 64; 0; 0; 0; 0; 255; 146].

Definition chunk_0x12_frame : bytes :=
  [187; 1; 18; 0; 0; 0; 27; 182; 138; 64; 242; 39; 138; 64; 158;
   230; 140; 64; 144; 88; 147; 64; 86; 123; 154; 64; 122; 7; 161; 64;
   2; 96; 166; 64; 0; 0; 0; 0; 0; 0; 0; 0; 0; 0; 0;
   0; 0; 0; 0; 0; 0; 0; 0; 0; 0; 0; 0; 0; 255; 171].

(** A measurement header ([subcmd 0x09]): the first seven bytes of the
    header of [TestPacketParser], a payload of zeros, the end marker and
    the checksum. *)
Definition measurement_header_frame : bytes :=
  [187; 1; 9; 0; 40; 31; 10; 0; 0; 0; 0; 0; 0; 0; 0;
   0; 0; 0; 0; 0; 0; 0; 0; 0; 0; 0; 0; 0; 0; 0;
   0; 0; 0; 0; 0; 0; 0; 0; 0; 0; 0; 0; 0; 0; 0;
   0; 0; 0; 0; 0; 0; 0; 0; 0; 0; 0; 0; 0; 255; 21].

(** The parser after [parse_spd_chunk] was called on each packet in turn,
    its exceptions caught as [_read_all_chunks] does. *)
Definition feed_chunks (packets : list bytes) (self : PacketParser.t) : PacketParser.t :=
  foldl (fun self packet => snd (PacketParser.parse_spd_chunk packet self)) self packets.

(** 1 when the chunk [subcmd] is marked as received, 0 otherwise. *)
Definition received (subcmd : Z) (self : PacketParser.t) : nat :=
  if bool_decide (subcmd ∈ PacketParser._chunks_received self) then 1%nat else 0%nat.

(** The three fields of the parser agree: only the four chunk
    subcommands are marked, each data chunk contributed 48 bytes, and each
    marked chunk has one diagnostic entry. *)
Definition accumulator_consistent (self : PacketParser.t) : Prop :=
  PacketParser._chunks_received self ⊆ {[0x10; 0x11; 0x12; 0x13]}
  /\ length (PacketParser._spd_bytes self)
     = (48 * (received 0x10 self + received 0x11 self + received 0x12 self))%nat
  /\ length (PacketParser._chunk_info_list self)
     = (received 0x10 self + received 0x11 self + received 0x12 self
        + received 0x13 self)%nat.

(** The consecutive 60-byte chunks of a stream; a shorter rest is left
    out. *)
Definition chunks60 (reader : bytes) : list bytes :=
  reshape (replicate (length reader / 60) 60%nat) reader.

(** Frames that pass [is_valid_packet], as the reader task enqueues them. *)
Definition valid_frames (frames : list bytes) : Prop :=
  Forall (fun frame => PacketParser.is_valid_packet frame = true) frames.

(** The requests of the handshake, in the order they are written. *)
Definition handshake_requests : list bytes :=
  [encoded_frame 0xAA 0x0A 0x00 0x00 []; encoded_frame 0xAA 0x0A 0x01 0x00 [];
   encoded_frame 0xAA 0x0A 0x02 0x00 []; encoded_frame 0xAA 0x0A 0x03 0x00 [];
   encoded_frame 0xBB 0x17 0x00 0x00 [];
   encoded_frame 0xBB 0x13 0x00 0x00 CR30Device.Check_data;
   encoded_frame 0xBB 0x28 0x00 0x00 []; encoded_frame 0xBB 0x28 0x00 0x01 [];
   encoded_frame 0xBB 0x28 0x00 0x02 []; encoded_frame 0xBB 0x28 0x00 0x03 [];
   encoded_frame 0xBB 0x28 0x00 0xFF []].


(** * Properties *)

(** ** Byte strings *)

Lemma fold_left_add_sum (s : bytes) (a : Z) : fold_left Z.add s a = a + sum s.
Proof.
  unfold sum. revert a. induction s as [|b s IH]; intros a; simpl.
  - lia.
  - rewrite (IH (a + b)), (IH (0 + b)). lia.
Qed.

Lemma sum_cons (b : Z) (s : bytes) : sum (b :: s) = b + sum s.
Proof. unfold sum at 1. simpl. apply fold_left_add_sum. Qed.

Lemma sum_insert (s : bytes) (i : nat) (old v : Z) :
  s !! i = Some old -> sum (<[i:=v]> s) = sum s - old + v.
Proof.
  revert i. induction s as [|b s IH]; intros [|i] H; simpl in H; try discriminate.
  - injection H as ->. change (<[0%nat:=v]> (old :: s)) with (v :: s).
    rewrite !sum_cons. lia.
  - change (<[S i:=v]> (b :: s)) with (b :: <[i:=v]> s).
    rewrite !sum_cons, (IH i H). lia.
Qed.

Lemma is_byte_land (z : Z) : is_byte (Z.land z 0xFF).
Proof.
  unfold is_byte. change 0xFF with (Z.ones 8). rewrite Z.land_ones by lia.
  apply Z.mod_pos_bound. lia.
Qed.

Lemma land_byte (z : Z) : is_byte z -> Z.land z 0xFF = z.
Proof.
  unfold is_byte. intros H. change 0xFF with (Z.ones 8).
  rewrite Z.land_ones by lia. apply Z.mod_small. exact H.
Qed.

(** ** The frame codec *)

Lemma length_frame_body start cmd subcmd param (payload : bytes) :
  (length payload <= 52)%nat ->
  length (frame_body start cmd subcmd param payload) = 58%nat.
Proof.
  intros H. unfold frame_body. simpl.
  rewrite !length_app, length_replicate. simpl. lia.
Qed.

Lemma length_encoded_frame start cmd subcmd param (payload : bytes) :
  (length payload <= 52)%nat ->
  length (encoded_frame start cmd subcmd param payload) = 60%nat.
Proof.
  intros H. unfold encoded_frame.
  rewrite length_app, length_frame_body by exact H. reflexivity.
Qed.

Lemma set_payload_spec (value d : bytes) :
  (length value <= 52)%nat -> length d = 60%nat ->
  CR30Packet.set_payload value (CR30Packet.mk d)
  = Ok (CR30Packet.mk (take 4 d ++ value
                         ++ replicate (52 - length value) 0 ++ drop 56 d)).
Proof.
  intros Hv Hd. unfold CR30Packet.set_payload, CR30Packet.PAYLOAD_SIZE,
    CR30Packet.PAYLOAD_START, CR30Packet.PAYLOAD_END, slice_assign.
  cbn [CR30Packet._data].
  destruct (52 <? length value)%nat eqn:E; [apply Nat.ltb_lt in E; lia|].
  do 2 f_equal.
  rewrite take_app_length' by (rewrite length_take; lia).
  f_equal. f_equal.
  rewrite drop_app_add' by (rewrite length_take; lia).
  rewrite drop_app_le by (rewrite length_replicate; lia).
  rewrite drop_replicate. reflexivity.
Qed.

Lemma to_bytes_spec (s : Z) (body : bytes) (m c : Z) :
  length body = 58%nat -> body !! 0%nat = Some s ->
  fst (CR30Packet.to_bytes (CR30Packet.mk (body ++ [m; c])))
  = body ++ [m; checksum_of s body].
Proof.
  intros Hlen Hs. unfold CR30Packet.to_bytes, CR30Packet.calculate_checksum,
    CR30Packet.start, checksum_of.
  cbn [CR30Packet._data fst].
  rewrite take_app_length' by (symmetry; exact Hlen).
  assert ((body ++ [m; c]) !!! 0%nat = s) as ->.
  { apply list_lookup_total_correct. rewrite lookup_app_l by lia. exact Hs. }
  assert (forall x, <[59%nat:=x]> (body ++ [m; c]) = body ++ [m; x]) as Hins.
  { intros x. rewrite insert_app_r_alt by lia. rewrite Hlen. reflexivity. }
  destruct (s =? 187); cbn [CR30Packet._data]; apply Hins.
Qed.

Lemma build_packet_encoded_frame (start cmd subcmd param : Z) (data : option bytes) :
  start = 0xAA \/ start = 0xBB ->
  (length (payload_of data) <= 52)%nat ->
  PacketBuilder.build_packet start cmd subcmd param data
  = Ok (encoded_frame start cmd subcmd param (payload_of data)).
Proof.
  intros Hstart Hlen. unfold PacketBuilder.build_packet.
  assert (CR30Packet.set_start start
            (CR30Packet.mk (<[58%nat:=0xFF]> (replicate CR30Packet.PACKET_SIZE 0)))
          = Ok (CR30Packet.mk ([start] ++ replicate 57 0 ++ [0xFF; 0]))) as Hset.
  { destruct Hstart as [-> | ->]; reflexivity. }
  cbn [CR30Packet.__init__ mbind outcome_bind]. rewrite Hset.
  cbn [mbind outcome_bind].
  unfold CR30Packet.set_cmd, CR30Packet.set_subcmd, CR30Packet.set_param.
  cbn [CR30Packet._data].
  set (d := <[3%nat:=_]> _).
  assert (d = [start; Z.land cmd 0xFF; Z.land subcmd 0xFF; Z.land param 0xFF]
              ++ replicate 52 0 ++ [0; 0; 0xFF; 0]) as Hd by reflexivity.
  assert (forall payload : bytes, (length payload <= 52)%nat ->
            fst (CR30Packet.to_bytes
                   (CR30Packet.mk (take 4 d ++ payload
                      ++ replicate (52 - length payload) 0 ++ drop 56 d)))
            = encoded_frame start cmd subcmd param payload) as Hfinal.
  { intros payload Hp. rewrite Hd.
    change (take 4 _) with [start; Z.land cmd 0xFF; Z.land subcmd 0xFF; Z.land param 0xFF].
    change (drop 56 _) with ([0; 0] ++ [0xFF; 0]).
    replace (_ ++ payload ++ _ ++ _ ++ _)
      with (frame_body start cmd subcmd param payload ++ [0xFF; 0])
      by (unfold frame_body; rewrite <- !(assoc_L (++)); reflexivity).
    apply (to_bytes_spec start (frame_body start cmd subcmd param payload)).
    - apply length_frame_body, Hp.
    - reflexivity. }
  destruct data as [[|b value]|];
    cbn [payload_of] in *.
  - cbn [mbind outcome_bind]. rewrite <- (Hfinal [] ltac:(simpl; lia)), Hd.
    reflexivity.
  - rewrite set_payload_spec by (try exact Hlen; rewrite Hd; reflexivity).
    cbn [mbind outcome_bind]. f_equal. apply Hfinal, Hlen.
  - cbn [mbind outcome_bind]. rewrite <- (Hfinal [] ltac:(simpl; lia)), Hd.
    reflexivity.
Qed.

Lemma build_packet_inv (start cmd subcmd param : Z) (data : option bytes) (frame : bytes) :
  PacketBuilder.build_packet start cmd subcmd param data = Ok frame ->
  (start = 0xAA \/ start = 0xBB)
  /\ (length (payload_of data) <= 52)%nat
  /\ frame = encoded_frame start cmd subcmd param (payload_of data).
Proof.
  intros H.
  assert (start = 0xAA \/ start = 0xBB) as Hstart.
  { unfold PacketBuilder.build_packet, CR30Packet.set_start in H.
    cbn [CR30Packet.__init__ mbind outcome_bind] in H.
    destruct (start =? 0xAA) eqn:Ea; [apply Z.eqb_eq in Ea; left; exact Ea|].
    destruct (start =? 0xBB) eqn:Eb; [apply Z.eqb_eq in Eb; right; exact Eb|].
    discriminate H. }
  assert (length (payload_of data) <= 52)%nat as Hlen.
  { destruct (le_lt_dec (length (payload_of data)) 52) as [Hle|Hgt]; [exact Hle|].
    exfalso. destruct data as [[|b value]|]; cbn [payload_of] in Hgt;
      try (simpl in Hgt; lia).
    unfold PacketBuilder.build_packet, CR30Packet.set_start in H.
    cbn [CR30Packet.__init__ mbind outcome_bind] in H.
    unfold CR30Packet.set_payload, CR30Packet.PAYLOAD_SIZE in H.
    apply Nat.ltb_lt in Hgt. rewrite Hgt in H.
    destruct Hstart as [-> | ->]; discriminate H. }
  rewrite (build_packet_encoded_frame _ _ _ _ _ Hstart Hlen) in H.
  injection H as <-. auto.
Qed.

Lemma encoded_frame_lookup (start cmd subcmd param : Z) (payload : bytes) :
  (length payload <= 52)%nat ->
  let frame := encoded_frame start cmd subcmd param payload in
  frame !!! 0%nat = start
  /\ frame !!! 1%nat = Z.land cmd 0xFF
  /\ frame !!! 2%nat = Z.land subcmd 0xFF
  /\ frame !!! 3%nat = Z.land param 0xFF
  /\ frame !!! 58%nat = 0xFF
  /\ frame !!! 59%nat = checksum_of start (frame_body start cmd subcmd param payload)
  /\ take 58 frame = frame_body start cmd subcmd param payload.
Proof.
  intros Hlen frame. subst frame. unfold encoded_frame.
  pose proof (length_frame_body start cmd subcmd param payload Hlen) as Hb.
  repeat split; try reflexivity.
  - rewrite lookup_total_app_r by lia. rewrite Hb. reflexivity.
  - rewrite lookup_total_app_r by lia. rewrite Hb. reflexivity.
  - apply take_app_length'. symmetry. exact Hb.
Qed.

Lemma is_bytes_frame_body (start cmd subcmd param : Z) (payload : bytes) :
  start = 0xAA \/ start = 0xBB -> is_bytes payload ->
  is_bytes (frame_body start cmd subcmd param payload).
Proof.
  intros Hstart Hp. unfold is_bytes, frame_body.
  repeat apply Forall_cons_2; try apply is_byte_land.
  - unfold is_byte. lia.
  - apply Forall_app_2; [exact Hp|].
    apply Forall_app_2; [apply Forall_replicate|repeat constructor]; unfold is_byte; lia.
Qed.

Lemma calculate_checksum_fst (d : bytes) :
  fst (CR30Packet.calculate_checksum (CR30Packet.mk d))
  = checksum_of (d !!! 0%nat) (take 58 d).
Proof.
  unfold CR30Packet.calculate_checksum, CR30Packet.start, checksum_of.
  cbn [CR30Packet._data]. destruct (d !!! 0%nat =? 187); reflexivity.
Qed.

(** Whatever the stored byte 59 is, [verify_checksum] overwrites it with the
    checksum it has just computed and then compares the two. *)
Lemma verify_checksum_always_true (d : bytes) :
  length d = 60%nat ->
  CR30Packet.verify_checksum (CR30Packet.mk d)
  = (true, CR30Packet.mk (<[59%nat := checksum_of (d !!! 0%nat) (take 58 d)]> d)).
Proof.
  intros Hlen.
  unfold CR30Packet.verify_checksum, CR30Packet.calculate_checksum,
    CR30Packet.start, checksum_of.
  cbn [CR30Packet._data]. f_equal.
  apply Z.eqb_eq. symmetry. apply list_lookup_total_correct.
  apply list_lookup_insert_eq. lia.
Qed.

(** C1 (defect of [verify_checksum]).  The frame of the name query built
    by [build_packet] verifies, and it still verifies after a change of any
    one of its bytes to any value.  With the command byte changed from
    [0x0A] to [0x0B] the stored byte 59 is [0xB4] and the checksum of the
    changed frame is [0xB5]: [verify_checksum] returns [True] and leaves
    [0xB5] in byte 59. *)
Theorem verify_checksum_accepts_every_changed_frame :
  exists frame : bytes,
    PacketBuilder.build_packet 0xAA 0x0A 0x00 0x00 None = Ok frame
    /\ fst (CR30Packet.verify_checksum (CR30Packet.mk frame)) = true
    /\ frame !!! 1%nat = 0x0A
    /\ frame !!! 59%nat = 0xB4
    /\ CR30Packet.verify_checksum (CR30Packet.mk (<[1%nat:=0x0B]> frame))
       = (true, CR30Packet.mk (<[59%nat:=0xB5]> (<[1%nat:=0x0B]> frame)))
    /\ forall (i : nat) (v : Z),
         fst (CR30Packet.verify_checksum (CR30Packet.mk (<[i:=v]> frame))) = true.
Proof.
  eexists. split; [reflexivity|]. repeat split.
  intros i v. rewrite verify_checksum_always_true; [reflexivity|].
  rewrite length_insert. reflexivity.
Qed.

(** C5 (defect of [calculate_checksum]).  The frame [build_packet] makes
    for the serial number query agrees with the captured frame on bytes 0
    to 58; the captured byte 59 is [0xB4], the sum of bytes 0 to 58 modulo
    256, and the built one is [0xB5].  [to_bytes] on the captured reply to
    the name query replaces its byte 59, [0x6E], which is the sum of its
    bytes 0 to 58 modulo 256, by [0x6F].  A captured frame with the start
    byte [0xBB] is returned by [to_bytes] as it is. *)
Theorem handshake_checksum_is_one_above_the_captured_one :
  (exists frame : bytes,
     PacketBuilder.build_packet 0xAA 0x0A 0x01 0x00 None = Ok frame
     /\ take 59 frame = take 59 serial_number_frame
     /\ sum (take 59 frame) mod 256 = 0xB4
     /\ serial_number_frame !!! 59%nat = 0xB4
     /\ frame !!! 59%nat = 0xB5)
  /\ sum (take 59 device_name_frame) mod 256 = 0x6E
  /\ device_name_frame !!! 59%nat = 0x6E
  /\ fst (CR30Packet.to_bytes (CR30Packet.mk device_name_frame))
     = <[59%nat:=0x6F]> device_name_frame
  /\ fst (CR30Packet.to_bytes (CR30Packet.mk chunk_0x10_frame)) = chunk_0x10_frame.
Proof.
  split; [eexists; split; [reflexivity|]|]; repeat split.
Qed.

(** C7 (defect of [verify_checksum]).  On the captured reply to the name
    query, whose byte 59 is [0x6E], [verify_checksum] returns [True] and
    leaves [0x6F] in byte 59 of the packet. *)
Lemma verify_checksum_overwrites_byte_59 :
  device_name_frame !!! 59%nat = 0x6E
  /\ CR30Packet.__init__ (Some device_name_frame) = Ok (CR30Packet.mk device_name_frame)
  /\ CR30Packet.verify_checksum (CR30Packet.mk device_name_frame)
     = (true, CR30Packet.mk (<[59%nat:=0x6F]> device_name_frame)).
Proof. repeat split. Qed.

(** C4.  Parsing a frame built from a start byte [0xAA] or [0xBB], three
    bytes [cmd], [subcmd], [param] and a payload of at most 52 bytes gives
    back the four fields and the payload padded with zeros to 52 bytes. *)
Theorem parse_packet_build_packet
    (start cmd subcmd param : Z) (data : option bytes) :
  start = 0xAA \/ start = 0xBB ->
  is_byte cmd -> is_byte subcmd -> is_byte param ->
  (length (payload_of data) <= 52)%nat ->
  exists (frame : bytes) (pkt : CR30Packet.t),
    PacketBuilder.build_packet start cmd subcmd param data = Ok frame
    /\ length frame = 60%nat
    /\ PacketParser.parse_packet frame = Ok pkt
    /\ CR30Packet.start pkt = start
    /\ CR30Packet.cmd pkt = cmd
    /\ CR30Packet.subcmd pkt = subcmd
    /\ CR30Packet.param pkt = param
    /\ CR30Packet.payload pkt
       = payload_of data ++ replicate (52 - length (payload_of data)) 0
    /\ length (CR30Packet.payload pkt) = 52%nat.
Proof.
  intros Hstart Hcmd Hsub Hpar Hlen.
  pose proof (encoded_frame_lookup start cmd subcmd param _ Hlen) as Hl.
  cbv zeta in Hl. destruct Hl as (H0 & H1 & H2 & H3 & H58 & _ & _).
  pose proof (length_encoded_frame start cmd subcmd param _ Hlen) as Hlen60.
  set (frame := encoded_frame start cmd subcmd param (payload_of data)) in *.
  exists frame, (CR30Packet.mk frame).
  assert (CR30Packet.payload (CR30Packet.mk frame)
          = payload_of data ++ replicate (52 - length (payload_of data)) 0) as Hpay.
  { unfold CR30Packet.payload, slice, CR30Packet.PAYLOAD_START, CR30Packet.PAYLOAD_END.
    cbn [CR30Packet._data]. subst frame. unfold encoded_frame, frame_body.
    cbn [app drop Nat.sub].
    rewrite !(assoc_L (++)). rewrite <- (assoc_L (++) _ [0; 0] _).
    apply take_app_length'. rewrite length_app, length_replicate. lia. }
  split; [apply build_packet_encoded_frame; assumption|].
  split; [exact Hlen60|].
  split.
  - unfold PacketParser.parse_packet, CR30Packet.__init__, CR30Packet.PACKET_SIZE.
    rewrite Hlen60. cbn [Nat.eqb negb].
    unfold CR30Packet.is_valid, CR30Packet.start, CR30Packet.marker,
      CR30Packet.PACKET_SIZE.
    cbn [CR30Packet._data]. rewrite Hlen60, H0, H58.
    destruct Hstart as [-> | ->]; reflexivity.
  - unfold CR30Packet.start, CR30Packet.cmd, CR30Packet.subcmd, CR30Packet.param.
    cbn [CR30Packet._data].
    rewrite H0, H1, H2, H3, !land_byte by assumption.
    repeat split; try exact Hpay.
    rewrite Hpay, length_app, length_replicate. lia.
Qed.

Lemma parse_packet_build_packet_witness :
  exists (frame : bytes) (pkt : CR30Packet.t),
    PacketBuilder.build_packet 0xBB 0x13 0x00 0x00 (Some [67; 104; 101; 99; 107])
    = Ok frame
    /\ length frame = 60%nat
    /\ PacketParser.parse_packet frame = Ok pkt
    /\ CR30Packet.start pkt = 0xBB
    /\ CR30Packet.cmd pkt = 0x13
    /\ CR30Packet.subcmd pkt = 0x00
    /\ CR30Packet.param pkt = 0x00
    /\ CR30Packet.payload pkt = [67; 104; 101; 99; 107] ++ replicate 47 0
    /\ length (CR30Packet.payload pkt) = 52%nat.
Proof.
  apply (parse_packet_build_packet 0xBB 0x13 0x00 0x00 (Some [67; 104; 101; 99; 107]));
    unfold is_byte; simpl; auto; lia.
Defined.

(** ** The reader task *)

Lemma is_valid_packet_structure (data : bytes) :
  PacketParser.is_valid_packet data = true <-> frame_structure_ok data.
Proof.
  unfold PacketParser.is_valid_packet, CR30Packet.__init__, CR30Packet.is_valid,
    CR30Packet.start, CR30Packet.marker, CR30Packet.PACKET_SIZE, frame_structure_ok.
  destruct (Nat.eqb_spec (length data) 60) as [Hlen|Hlen]; cbn [negb].
  - cbn [CR30Packet._data]. rewrite Hlen. cbn [Nat.eqb negb].
    destruct (Z.eqb_spec (data !!! 0%nat) 0xAA) as [Ha|Ha];
      destruct (Z.eqb_spec (data !!! 0%nat) 0xBB) as [Hb|Hb];
      destruct (Z.eqb_spec (data !!! 58%nat) 0xFF) as [Hf|Hf];
      destruct (Z.eqb_spec (data !!! 58%nat) 0x00) as [Hz|Hz];
      cbn [negb orb andb]; split; intros H; try discriminate H; try lia;
      try (split; [reflexivity|]; lia).
  - split; [discriminate|]. intros [H _]. contradiction.
Qed.

Lemma readexactly_app (n : nat) (chunk rest : bytes) :
  length chunk = n ->
  CR30Device.readexactly n (chunk ++ rest) = Ok (chunk, rest).
Proof.
  intros Hlen. unfold CR30Device.readexactly.
  destruct (Nat.ltb_spec (length (chunk ++ rest)) n) as [Hlt|_].
  - rewrite length_app in Hlt. lia.
  - rewrite take_app_length', drop_app_length' by (symmetry; exact Hlen).
    reflexivity.
Qed.

(** One iteration of the loop on a stream that starts with a whole chunk. *)
Lemma receive_loop_step cbs (chunk rest : bytes) (frames : list bytes) :
  length chunk = 60%nat ->
  CR30Device._receive_loop cbs (chunk ++ rest) frames
  = if PacketParser.is_valid_packet chunk then
      match CR30Device.run_raw_callbacks cbs chunk with
      | Ok _ => CR30Device._receive_loop cbs rest (frames ++ [chunk])
      | Raise _ => frames ++ [chunk]
      end
    else CR30Device._receive_loop cbs rest frames.
Proof.
  intros Hlen. pose proof (readexactly_app 60 chunk rest Hlen) as Hread.
  remember (chunk ++ rest) as reader eqn:Hreader.
  funelim (CR30Device._receive_loop cbs reader frames).
  - match goal with
    | H1 : CR30Device.readexactly 60 _ = Ok (data, reader'),
      H2 : CR30Device.readexactly 60 _ = Ok (chunk, rest) |- _ =>
        rewrite H1 in H2; injection H2 as -> ->
    end.
    reflexivity.
  - match goal with
    | H1 : CR30Device.readexactly 60 _ = Raise _,
      H2 : CR30Device.readexactly 60 _ = Ok _ |- _ =>
        rewrite H1 in H2; discriminate H2
    end.
Qed.

(** The frames the loop adds to the queue all pass [is_valid_packet]. *)
Lemma receive_loop_pushed cbs (reader : bytes) (frames : list bytes) :
  exists pushed : list bytes,
    CR30Device._receive_loop cbs reader frames = frames ++ pushed
    /\ Forall (fun f => PacketParser.is_valid_packet f = true) pushed.
Proof.
  funelim (CR30Device._receive_loop cbs reader frames).
  - destruct (PacketParser.is_valid_packet data) eqn:Hvalid.
    + destruct (CR30Device.run_raw_callbacks cbs data) as [[]|e].
      * match goal with
        | IH : unit -> exists _, _ |- _ => destruct (IH tt) as (pushed & -> & Hall)
        end.
        exists (data :: pushed). rewrite <- (assoc_L (++)). split; [reflexivity|].
        constructor; assumption.
      * exists [data]. split; [reflexivity|]. repeat constructor. exact Hvalid.
    + match goal with
      | IH : exists _, _ |- _ => exact IH
      end.
  - exists []. rewrite (right_id_L [] (++)). split; [reflexivity | constructor].
Qed.

(** C2 (amended).  The frames the receive loop adds to the queue are
    60 bytes long, start with [0xAA] or [0xBB] and carry the end marker
    that goes with the start byte; a 60-byte chunk that violates one of
    these is skipped and the loop goes on with the rest of the stream; a
    chunk with this structure is enqueued, whatever its byte 59 is, and
    the loop goes on when the observers return.  The stored checksum is
    not examined. *)
Theorem receive_loop_enqueues_structurally_valid_frames
    (cbs : list (bytes -> outcome unit)) (reader : bytes) (frames : list bytes) :
  (exists pushed : list bytes,
     CR30Device._receive_loop cbs reader frames = frames ++ pushed
     /\ Forall frame_structure_ok pushed)
  /\ (forall chunk rest : bytes,
        length chunk = 60%nat -> ~ frame_structure_ok chunk ->
        CR30Device._receive_loop cbs (chunk ++ rest) frames
        = CR30Device._receive_loop cbs rest frames)
  /\ (forall chunk rest : bytes,
        frame_structure_ok chunk ->
        CR30Device.run_raw_callbacks cbs chunk = Ok tt ->
        CR30Device._receive_loop cbs (chunk ++ rest) frames
        = CR30Device._receive_loop cbs rest (frames ++ [chunk])).
Proof.
  split; [|split].
  - destruct (receive_loop_pushed cbs reader frames) as (pushed & Heq & Hall).
    exists pushed. split; [exact Heq|].
    eapply Forall_impl; [exact Hall|]. intros f Hf.
    apply is_valid_packet_structure, Hf.
  - intros chunk rest Hlen Hbad. rewrite receive_loop_step by exact Hlen.
    destruct (PacketParser.is_valid_packet chunk) eqn:Hvalid; [|reflexivity].
    exfalso. apply Hbad, is_valid_packet_structure, Hvalid.
  - intros chunk rest Hok Hcbs.
    rewrite receive_loop_step by (destruct Hok as [Hlen _]; exact Hlen).
    rewrite (proj2 (is_valid_packet_structure chunk) Hok), Hcbs. reflexivity.
Qed.

Lemma receive_loop_enqueues_structurally_valid_frames_witness :
  CR30Device._receive_loop [] (replicate 60 0 ++ device_name_frame) []
  = CR30Device._receive_loop [] device_name_frame [].
Proof.
  apply (proj1 (proj2 (receive_loop_enqueues_structurally_valid_frames
                         [] device_name_frame []))).
  - reflexivity.
  - intros [_ [[H _] | [H _]]]; discriminate H.
Defined.

(** C2, as stated, fails on the checksum: a chunk with a well-formed
    structure is enqueued although its byte 59 matches neither the checksum
    over bytes 0 to 57 nor the one over bytes 0 to 58. *)
Lemma receive_loop_enqueues_bad_checksum :
  let chunk := <[59%nat:=0x00]> device_name_frame in
  CR30Device._receive_loop [] chunk [] = [chunk]
  /\ stored_checksum_matches 58 chunk = false
  /\ stored_checksum_matches 59 chunk = false.
Proof. repeat split. Qed.

(** ** The measurement session *)

Lemma parse_packet_Ok (packet : bytes) (pkt : CR30Packet.t) :
  PacketParser.parse_packet packet = Ok pkt ->
  pkt = CR30Packet.mk packet /\ length packet = 60%nat.
Proof.
  unfold PacketParser.parse_packet, CR30Packet.__init__, CR30Packet.PACKET_SIZE.
  destruct (Nat.eqb_spec (length packet) 60) as [Hlen|Hlen]; cbn [negb].
  - destruct (negb (CR30Packet.is_valid _)); [discriminate|].
    intros H. injection H as <-. auto.
  - discriminate.
Qed.

Lemma parse_packet_raises_ValueError (packet : bytes) (e : exn) :
  PacketParser.parse_packet packet = Raise e -> exists msg, e = ValueError msg.
Proof.
  unfold PacketParser.parse_packet, CR30Packet.__init__.
  destruct (negb (length packet =? CR30Packet.PACKET_SIZE)%nat).
  - intros H. injection H as <-. eauto.
  - destruct (negb (CR30Packet.is_valid _)); [|discriminate].
    intros H. injection H as <-. eauto.
Qed.

Lemma length_payload (d : bytes) :
  length d = 60%nat -> length (CR30Packet.payload (CR30Packet.mk d)) = 52%nat.
Proof.
  intros H. unfold CR30Packet.payload, slice, CR30Packet.PAYLOAD_START,
    CR30Packet.PAYLOAD_END. cbn [CR30Packet._data].
  rewrite length_take, length_drop. lia.
Qed.

Lemma struct_unpack_f_48 (d : bytes) :
  length d = 48%nat -> struct_unpack_f (length d / 4) d = Ok (le_words d).
Proof. intros H. unfold struct_unpack_f. rewrite H. reflexivity. Qed.

Lemma length_spd_data (d : bytes) :
  length d = 60%nat ->
  length (slice 2 50 (CR30Packet.payload (CR30Packet.mk d))) = 48%nat.
Proof.
  intros H. pose proof (length_payload d H) as Hp.
  unfold slice. rewrite length_take, length_drop. lia.
Qed.

(** A reply whose subcommand was consumed before: [ValueError], and the
    parser is left as it was. *)
Lemma parse_spd_chunk_already_received
    (packet : bytes) (pkt : CR30Packet.t) (self : PacketParser.t) :
  PacketParser.parse_packet packet = Ok pkt ->
  (CR30Packet.subcmd pkt ∈ PacketParser._chunks_received self) ->
  PacketParser.parse_spd_chunk packet self
  = (Raise (ValueError ("Chunk 0x" +:+ (format_02X (CR30Packet.subcmd pkt)
                                       +:+ " already received"))), self).
Proof.
  intros Hparse Hin. unfold PacketParser.parse_spd_chunk. rewrite Hparse.
  rewrite bool_decide_eq_true_2 by exact Hin. reflexivity.
Qed.

(** [parse_spd_chunk] either raises [ValueError] and leaves the parser
    unchanged, or records the chunk and extends the accumulator. *)
Lemma parse_spd_chunk_cases (packet : bytes) (self : PacketParser.t) :
  (exists msg, PacketParser.parse_spd_chunk packet self = (Raise (ValueError msg), self))
  \/ (exists (pkt : CR30Packet.t) (chunk_info : gmap string value),
        PacketParser.parse_packet packet = Ok pkt
        /\ (CR30Packet.subcmd pkt ∉ PacketParser._chunks_received self)
        /\ chunk_info !! "payload" = Some (VStr (hex (CR30Packet.payload pkt)))
        /\ PacketParser.parse_spd_chunk packet self
           = (Ok chunk_info,
              PacketParser.mk
                (PacketParser._spd_bytes self ++ spd_contribution pkt)
                ({[CR30Packet.subcmd pkt]} ∪ PacketParser._chunks_received self)
                (PacketParser._chunk_info_list self ++ [chunk_info]))).
Proof.
  unfold PacketParser.parse_spd_chunk.
  destruct (PacketParser.parse_packet packet) as [pkt|e] eqn:Hparse.
  2:{ left. destruct (parse_packet_raises_ValueError _ _ Hparse) as [msg ->]. eauto. }
  destruct (parse_packet_Ok _ _ Hparse) as [-> Hlen].
  pose proof (length_spd_data packet Hlen) as H48.
  case_bool_decide as Hin; [left; eauto|].
  unfold spd_contribution, PacketParser.record_chunk.
  destruct (CR30Packet.subcmd _ =? 0x10) eqn:E10; cbn [orb].
  { right. rewrite struct_unpack_f_48 by exact H48. cbn [PacketParser._spd_bytes
      PacketParser._chunks_received PacketParser._chunk_info_list].
    eexists _, _. split; [reflexivity|]. split; [exact Hin|].
    rewrite ?E10, ?E11, ?E12, ?E13; cbn [orb].
    split; [|reflexivity]. reflexivity. }
  destruct (CR30Packet.subcmd _ =? 0x11) eqn:E11; cbn [orb].
  { right. rewrite struct_unpack_f_48 by exact H48. cbn [PacketParser._spd_bytes
      PacketParser._chunks_received PacketParser._chunk_info_list].
    eexists _, _. split; [reflexivity|]. split; [exact Hin|].
    rewrite ?E10, ?E11, ?E12, ?E13; cbn [orb].
    split; [|reflexivity]. reflexivity. }
  destruct (CR30Packet.subcmd _ =? 0x12) eqn:E12; cbn [orb].
  { right. rewrite struct_unpack_f_48 by exact H48. cbn [PacketParser._spd_bytes
      PacketParser._chunks_received PacketParser._chunk_info_list].
    eexists _, _. split; [reflexivity|]. split; [exact Hin|].
    rewrite ?E10, ?E11, ?E12, ?E13; cbn [orb].
    split; [|reflexivity]. reflexivity. }
  destruct (CR30Packet.subcmd _ =? 0x13) eqn:E13.
  { right. eexists _, _. split; [reflexivity|]. split; [exact Hin|].
    rewrite E10, E11, E12; cbn [orb]. rewrite (right_id_L [] (++)).
    split; [|reflexivity]. reflexivity. }
  left. eauto.
Qed.

(** The request of a chunk is always built and written; what follows is
    the wait for the reply. *)
Lemma send_recv_chunk_request (subcmd : Z) (self : CR30Device.t) :
  CR30Device.send_recv 0xBB 0x01 subcmd 0x00 None self
  = CR30Device.recv
      (CR30Device.set_writer
         (CR30Device.writer self ++ [encoded_frame 0xBB 0x01 subcmd 0x00 []]) self).
Proof.
  unfold CR30Device.send_recv, CR30Device.send, CR30Device.build_packet.
  rewrite (build_packet_encoded_frame 0xBB 0x01 subcmd 0x00 None)
    by (simpl; auto; lia).
  reflexivity.
Qed.

Lemma recv_spec (self : CR30Device.t) :
  exists (r : option bytes) (self' : CR30Device.t),
    CR30Device.recv self = (Ok r, self')
    /\ CR30Device.writer self' = CR30Device.writer self
    /\ CR30Device._packet_parser self' = CR30Device._packet_parser self.
Proof.
  unfold CR30Device.recv.
  destruct (CR30Device._frames _ ++ _) as [|frame queue]; eauto.
Qed.

(** One chunk request: never an exception, one more packet written, and
    the spectral fields of [result] untouched. *)
Lemma read_chunk_spec (subcmd : Z) (result : CR30Protocol.measurement)
    (self : CR30Device.t) :
  exists (step : CR30Protocol.iteration CR30Protocol.measurement)
         (self' : CR30Device.t),
    CR30Protocol.read_chunk subcmd result self = (Ok step, self')
    /\ CR30Device.writer self'
       = CR30Device.writer self ++ [encoded_frame 0xBB 0x01 subcmd 0x00 []]
    /\ CR30Protocol.result_spd (CR30Protocol.iteration_result step)
       = CR30Protocol.result_spd result
    /\ CR30Protocol.result_spd_data (CR30Protocol.iteration_result step)
       = CR30Protocol.result_spd_data result.
Proof.
  unfold CR30Protocol.read_chunk, mbind, CR30Device.M_bind.
  rewrite send_recv_chunk_request.
  destruct (recv_spec (CR30Device.set_writer
              (CR30Device.writer self ++ [encoded_frame 0xBB 0x01 subcmd 0x00 []]) self))
    as (r & self1 & -> & Hw & Hp).
  cbn [CR30Device.writer CR30Device.set_writer] in Hw.
  destruct r as [[|b packet]|]; try (eexists _, _; split; [reflexivity|]; auto).
  unfold CR30Device.try_except_ValueError, CR30Device.on_parser.
  destruct (parse_spd_chunk_cases (b :: packet) (CR30Device._packet_parser self1))
    as [[msg ->] | (pkt & chunk_info & _ & _ & Hpayload & ->)].
  - eexists _, _. split; [reflexivity|]. auto.
  - rewrite Hpayload. eexists _, _. split; [reflexivity|]. auto.
Qed.

Lemma for_subcmd_spec (subcmds : list Z) (result : CR30Protocol.measurement)
    (self : CR30Device.t) :
  exists (step : CR30Protocol.iteration CR30Protocol.measurement)
         (self' : CR30Device.t),
    CR30Protocol.for_subcmd subcmds result self = (Ok step, self')
    /\ CR30Protocol.result_spd (CR30Protocol.iteration_result step)
       = CR30Protocol.result_spd result
    /\ CR30Protocol.result_spd_data (CR30Protocol.iteration_result step)
       = CR30Protocol.result_spd_data result.
Proof.
  revert result self. induction subcmds as [|subcmd subcmds IH]; intros result self.
  - eexists _, _. split; [reflexivity|]. auto.
  - cbn [CR30Protocol.for_subcmd]. unfold mbind, CR30Device.M_bind.
    destruct (read_chunk_spec subcmd result self)
      as (step & self1 & -> & _ & Hspd & Hdata).
    destruct step as [result1 | result1]; cbn [CR30Protocol.iteration_result] in *.
    + destruct (IH result1 self1) as (step & self2 & -> & Hspd2 & Hdata2).
      eexists _, _. split; [reflexivity|]. split; congruence.
    + eexists _, _. split; [reflexivity|]. auto.
Qed.

Lemma set_packet_parser_id (self : CR30Device.t) :
  CR30Device.set_packet_parser (CR30Device._packet_parser self) self = self.
Proof. destruct self. reflexivity. Qed.

Lemma for_subcmd_app (pre rest : list Z) (result res1 : CR30Protocol.measurement)
    (self self1 : CR30Device.t) :
  CR30Protocol.for_subcmd pre result self = (Ok (CR30Protocol.Next res1), self1) ->
  CR30Protocol.for_subcmd (pre ++ rest) result self
  = CR30Protocol.for_subcmd rest res1 self1.
Proof.
  revert result self. induction pre as [|subcmd pre IH]; intros result self H.
  - cbn in H. injection H as -> ->. reflexivity.
  - cbn [app CR30Protocol.for_subcmd] in *. unfold mbind, CR30Device.M_bind in *.
    destruct (CR30Protocol.read_chunk subcmd result self) as [[[r|r]|e] self0];
      try discriminate H.
    apply IH, H.
Qed.

(** No reply, or an empty one: the loop is left, nothing else changes. *)
Lemma read_chunk_no_reply (subcmd : Z) (result : CR30Protocol.measurement)
    (self : CR30Device.t) :
  fst (CR30Device.send_recv 0xBB 0x01 subcmd 0x00 None self) = Ok None
  \/ fst (CR30Device.send_recv 0xBB 0x01 subcmd 0x00 None self) = Ok (Some []) ->
  CR30Protocol.read_chunk subcmd result self
  = (Ok (CR30Protocol.Break result),
     snd (CR30Device.send_recv 0xBB 0x01 subcmd 0x00 None self)).
Proof.
  intros H. unfold CR30Protocol.read_chunk, mbind, CR30Device.M_bind.
  destruct (CR30Device.send_recv 0xBB 0x01 subcmd 0x00 None self) as [r self1].
  cbn [fst snd] in *. destruct H as [-> | ->]; reflexivity.
Qed.

(** A replayed chunk: the error is caught, recorded under the subcommand
    that was requested, and the loop goes on. *)
Lemma read_chunk_already_received (subcmd : Z) (result : CR30Protocol.measurement)
    (self self1 : CR30Device.t) (packet : bytes) (pkt : CR30Packet.t) :
  CR30Device.send_recv 0xBB 0x01 subcmd 0x00 None self = (Ok (Some packet), self1) ->
  PacketParser.parse_packet packet = Ok pkt ->
  (CR30Packet.subcmd pkt
   ∈ PacketParser._chunks_received (CR30Device._packet_parser self1)) ->
  CR30Protocol.read_chunk subcmd result self
  = (Ok (CR30Protocol.Next
           (append_chunk
              (error_entry subcmd
                 ("Chunk 0x" +:+ (format_02X (CR30Packet.subcmd pkt)
                                  +:+ " already received")))
              result)),
     self1).
Proof.
  intros Hsr Hparse Hin.
  unfold CR30Protocol.read_chunk, mbind, CR30Device.M_bind. rewrite Hsr.
  destruct packet as [|b packet].
  { destruct (parse_packet_Ok _ _ Hparse) as [_ Hlen]. discriminate Hlen. }
  unfold CR30Device.try_except_ValueError, CR30Device.on_parser.
  rewrite (parse_spd_chunk_already_received _ _ _ Hparse Hin).
  rewrite set_packet_parser_id. reflexivity.
Qed.

Lemma parse_spd_data_spec (result : CR30Protocol.measurement) (spd_bytes : bytes) :
  CR30Protocol.result_spd_bytes (CR30Protocol._parse_spd_data result spd_bytes)
  = CR30Protocol.result_spd_bytes result
  /\ CR30Protocol.result_chunks (CR30Protocol._parse_spd_data result spd_bytes)
     = CR30Protocol.result_chunks result
  /\ CR30Protocol.result_raw (CR30Protocol._parse_spd_data result spd_bytes)
     = CR30Protocol.result_raw result
  /\ ((length spd_bytes < 124)%nat ->
      CR30Protocol._parse_spd_data result spd_bytes = result).
Proof.
  unfold CR30Protocol._parse_spd_data.
  destruct (Nat.ltb_spec (length spd_bytes) 124) as [Hlt|Hge].
  - auto.
  - destruct (struct_unpack_f 31 _); repeat split; try reflexivity; lia.
Qed.

(** Unfolding of [_read_measurement] after a header that parses. *)
Lemma read_measurement_unfold cbs1 cbs2 (header : bytes) (hdr : CR30Packet.t)
    (self : CR30Device.t) :
  PacketParser.parse_packet header = Ok hdr ->
  CR30Protocol._read_measurement cbs1 cbs2 header self
  = match CR30Protocol.for_subcmd CR30Protocol.chunk_subcmds
            (measurement_start header hdr) (session_start self) with
    | (Ok step, self') =>
        let spd_bytes := PacketParser._spd_bytes (CR30Device._packet_parser self') in
        let result := CR30Protocol.iteration_result step in
        (Ok (CR30Protocol._parse_spd_data
               (CR30Protocol.mk_measurement
                  (CR30Protocol.result_header result)
                  (CR30Protocol.result_chunks result)
                  (CR30Protocol.result_spd result)
                  (CR30Protocol.result_raw result)
                  (Some (hex spd_bytes))
                  (CR30Protocol.result_spd_data result))
               spd_bytes),
         self')
    | (Raise e, self') => (Raise e, self')
    end.
Proof.
  intros Hparse.
  unfold CR30Protocol._read_measurement, CR30Protocol._read_all_chunks,
    CR30Protocol._trigger_callbacks.
  unfold mbind, CR30Device.M_bind, mret, CR30Device.M_ret, CR30Device.flush_recv,
    CR30Device.on_parser.
  rewrite Hparse. fold (session_start self). fold (measurement_start header hdr).
  destruct (CR30Protocol.for_subcmd _ _ _) as [[step|e] self']; [|reflexivity].
  cbv zeta. rewrite set_packet_parser_id. reflexivity.
Qed.

(** After a header that parses, a measurement returns a result whatever
    the replies to the chunk requests are.  The result carries the
    accumulated bytes; with fewer than 124 of them the curve stays empty. *)
Lemma read_measurement_returns cbs1 cbs2 (header : bytes) (hdr : CR30Packet.t)
    (self : CR30Device.t) :
  PacketParser.parse_packet header = Ok hdr ->
  exists (m : CR30Protocol.measurement) (self' : CR30Device.t),
    CR30Protocol._read_measurement cbs1 cbs2 header self = (Ok m, self')
    /\ CR30Protocol.result_spd_bytes m
       = Some (hex (PacketParser._spd_bytes (CR30Device._packet_parser self')))
    /\ ((length (PacketParser._spd_bytes (CR30Device._packet_parser self')) < 124)%nat ->
        CR30Protocol.result_spd m = [] /\ CR30Protocol.result_spd_data m = None).
Proof.
  intros Hparse. rewrite (read_measurement_unfold _ _ _ _ _ Hparse).
  destruct (for_subcmd_spec CR30Protocol.chunk_subcmds
              (measurement_start header hdr) (session_start self))
    as (step & self' & -> & Hspd & Hdata).
  cbv zeta. eexists _, _. split; [reflexivity|].
  match goal with
  | |- context [CR30Protocol._parse_spd_data ?r ?b] =>
      destruct (parse_spd_data_spec r b) as (Hb & _ & _ & Hshort)
  end.
  split; [rewrite Hb; reflexivity|].
  intros Hlt. rewrite (Hshort Hlt). cbn [CR30Protocol.result_spd
    CR30Protocol.result_spd_data]. rewrite Hspd, Hdata. auto.
Qed.

(** C3 (amended).  A chunk reply whose subcommand was already consumed
    makes [parse_spd_chunk] raise [ValueError] ("Chunk 0x.. already
    received") and leaves the accumulator unchanged.  [_read_all_chunks]
    catches the error, appends an entry with the requested subcommand and
    the message to the chunk diagnostics, and goes on with the next
    request; after a header that parses, the measurement returns a
    result. *)
Theorem replayed_chunk_is_recorded_and_measurement_returns
    cbs1 cbs2 (header : bytes) (hdr : CR30Packet.t) (self : CR30Device.t) :
  PacketParser.parse_packet header = Ok hdr ->
  (exists (m : CR30Protocol.measurement) (self' : CR30Device.t),
     CR30Protocol._read_measurement cbs1 cbs2 header self = (Ok m, self'))
  /\ (forall (packet : bytes) (pkt : CR30Packet.t) (parser : PacketParser.t),
        PacketParser.parse_packet packet = Ok pkt ->
        (CR30Packet.subcmd pkt ∈ PacketParser._chunks_received parser) ->
        PacketParser.parse_spd_chunk packet parser
        = (Raise (ValueError ("Chunk 0x" +:+ (format_02X (CR30Packet.subcmd pkt)
                                             +:+ " already received"))),
           parser))
  /\ (forall (subcmd : Z) (result : CR30Protocol.measurement)
             (self1 self2 : CR30Device.t) (packet : bytes) (pkt : CR30Packet.t),
        CR30Device.send_recv 0xBB 0x01 subcmd 0x00 None self1
        = (Ok (Some packet), self2) ->
        PacketParser.parse_packet packet = Ok pkt ->
        (CR30Packet.subcmd pkt
         ∈ PacketParser._chunks_received (CR30Device._packet_parser self2)) ->
        CR30Protocol.read_chunk subcmd result self1
        = (Ok (CR30Protocol.Next
                 (append_chunk
                    (error_entry subcmd
                       ("Chunk 0x" +:+ (format_02X (CR30Packet.subcmd pkt)
                                        +:+ " already received")))
                    result)),
           self2)).
Proof.
  intros Hparse. split; [|split].
  - destruct (read_measurement_returns cbs1 cbs2 header hdr self Hparse)
      as (m & self' & H & _).
    eauto.
  - intros packet pkt parser. apply parse_spd_chunk_already_received.
  - intros subcmd result self1 self2 packet pkt.
    apply read_chunk_already_received.
Qed.

Lemma replayed_chunk_is_recorded_and_measurement_returns_witness :
  exists (m : CR30Protocol.measurement) (self' : CR30Device.t),
    CR30Protocol._read_measurement [] [] measurement_header_frame
      (fresh_device [[chunk_0x10_frame]; [chunk_0x10_frame]; [chunk_0x12_frame]; []])
    = (Ok m, self').
Proof.
  apply (replayed_chunk_is_recorded_and_measurement_returns [] []
           measurement_header_frame (CR30Packet.mk measurement_header_frame)).
  reflexivity.
Defined.

(** C3, as stated, fails: when the reply to the request of chunk [0x11]
    is the reply to chunk [0x10] again, [measure] does not raise.  It
    returns a result whose second chunk entry carries the error, and all
    four requests have been written. *)
Lemma measure_returns_after_replayed_chunk :
  exists (m : CR30Protocol.measurement) (self' : CR30Device.t),
    CR30Protocol.measure [] []
      (fresh_device [[measurement_header_frame]; [chunk_0x10_frame];
                     [chunk_0x10_frame]; [chunk_0x12_frame]; []])
    = (Ok m, self')
    /\ CR30Protocol.result_chunks m !! 1%nat
       = Some (error_entry 0x11 "Chunk 0x10 already received")
    /\ length (CR30Protocol.result_chunks m) = 3%nat
    /\ length (CR30Device.writer self') = 5%nat.
Proof. eexists _, _. split; [vm_compute; reflexivity|]. repeat split. Qed.

(** C6.  When the request of a chunk gets no reply (or an empty one)
    after the requests before it were answered, the measurement returns a
    result and raises nothing; the device is left as it was right after
    that request, whose packet is the last one written; the chunk entries
    collected so far and the accumulated bytes are in the result; and with
    fewer than 124 accumulated bytes the curve is empty and no
    wavelength table is stored. *)
Theorem missing_reply_ends_chunk_requests
    cbs1 cbs2 (header : bytes) (hdr : CR30Packet.t) (self self1 : CR30Device.t)
    (pre post : list Z) (subcmd : Z) (res1 : CR30Protocol.measurement) :
  PacketParser.parse_packet header = Ok hdr ->
  CR30Protocol.chunk_subcmds = pre ++ subcmd :: post ->
  CR30Protocol.for_subcmd pre (measurement_start header hdr) (session_start self)
  = (Ok (CR30Protocol.Next res1), self1) ->
  fst (CR30Device.send_recv 0xBB 0x01 subcmd 0x00 None self1) = Ok None
  \/ fst (CR30Device.send_recv 0xBB 0x01 subcmd 0x00 None self1) = Ok (Some []) ->
  let self2 := snd (CR30Device.send_recv 0xBB 0x01 subcmd 0x00 None self1) in
  let accumulated := PacketParser._spd_bytes (CR30Device._packet_parser self1) in
  exists m : CR30Protocol.measurement,
    CR30Protocol._read_measurement cbs1 cbs2 header self = (Ok m, self2)
    /\ CR30Device.writer self2
       = CR30Device.writer self1 ++ [encoded_frame 0xBB 0x01 subcmd 0x00 []]
    /\ CR30Protocol.result_chunks m = CR30Protocol.result_chunks res1
    /\ CR30Protocol.result_raw m = CR30Protocol.result_raw res1
    /\ CR30Protocol.result_spd_bytes m = Some (hex accumulated)
    /\ ((length accumulated < 124)%nat ->
        CR30Protocol.result_spd m = [] /\ CR30Protocol.result_spd_data m = None).
Proof.
  intros Hparse Hsplit Hpre Hnone self2 accumulated.
  pose proof (read_chunk_no_reply subcmd res1 self1 Hnone) as Hbreak.
  fold self2 in Hbreak.
  assert (CR30Device.writer self2
          = CR30Device.writer self1 ++ [encoded_frame 0xBB 0x01 subcmd 0x00 []]
          /\ CR30Device._packet_parser self2 = CR30Device._packet_parser self1)
    as [Hw Hp].
  { subst self2. rewrite send_recv_chunk_request.
    destruct (recv_spec (CR30Device.set_writer
                (CR30Device.writer self1 ++ [encoded_frame 0xBB 0x01 subcmd 0x00 []])
                self1)) as (r & s & -> & Hw & Hp).
    auto. }
  assert (CR30Protocol.for_subcmd CR30Protocol.chunk_subcmds
            (measurement_start header hdr) (session_start self)
          = (Ok (CR30Protocol.Break res1), self2)) as Hloop.
  { rewrite Hsplit, (for_subcmd_app _ _ _ _ _ _ Hpre).
    cbn [CR30Protocol.for_subcmd]. unfold mbind, CR30Device.M_bind.
    rewrite Hbreak. reflexivity. }
  destruct (read_measurement_returns cbs1 cbs2 header hdr self Hparse)
    as (m & self' & Hm & Hbytes & Hshort).
  pose proof Hm as Hm'.
  rewrite (read_measurement_unfold _ _ _ _ _ Hparse), Hloop in Hm'.
  cbv zeta in Hm'. injection Hm' as Hmeq <-.
  exists m. rewrite Hp in *. fold accumulated in Hbytes, Hshort, Hmeq.
  split; [exact Hm|]. split; [exact Hw|].
  match type of Hmeq with
  | CR30Protocol._parse_spd_data ?r ?b = _ =>
      destruct (parse_spd_data_spec r b) as (_ & Hc & Hr & _)
  end.
  rewrite Hmeq in Hc, Hr. auto.
Qed.

Lemma missing_reply_ends_chunk_requests_witness :
  let self := fresh_device [[chunk_0x10_frame]; []] in
  let start := measurement_start measurement_header_frame
                 (CR30Packet.mk measurement_header_frame) in
  let after_0x10 := CR30Protocol.for_subcmd [0x10] start (session_start self) in
  let self2 := snd (CR30Device.send_recv 0xBB 0x01 0x11 0x00 None (snd after_0x10)) in
  exists m : CR30Protocol.measurement,
    CR30Protocol._read_measurement [] [] measurement_header_frame self = (Ok m, self2)
    /\ CR30Device.writer self2
       = [encoded_frame 0xBB 0x01 0x10 0x00 []; encoded_frame 0xBB 0x01 0x11 0x00 []]
    /\ length (CR30Protocol.result_chunks m) = 1%nat
    /\ CR30Protocol.result_spd m = []
    /\ CR30Protocol.result_spd_data m = None.
Proof.
  intros self start after_0x10 self2.
  assert (PacketParser.parse_packet measurement_header_frame
          = Ok (CR30Packet.mk measurement_header_frame)) as Hparse
    by (vm_compute; reflexivity).
  assert (exists res1, after_0x10 = (Ok (CR30Protocol.Next res1), snd after_0x10)
                       /\ length (CR30Protocol.result_chunks res1) = 1%nat)
    as (res1 & Hpre & Hlen1) by (eexists; split; vm_compute; reflexivity).
  assert (fst (CR30Device.send_recv 0xBB 0x01 0x11 0x00 None (snd after_0x10))
          = Ok None) as Hnone by (vm_compute; reflexivity).
  assert (length (PacketParser._spd_bytes
                    (CR30Device._packet_parser (snd after_0x10))) < 124)%nat
    as Hacc by (vm_compute; lia).
  destruct (missing_reply_ends_chunk_requests [] [] measurement_header_frame
              (CR30Packet.mk measurement_header_frame) self (snd after_0x10)
              [0x10] [0x12; 0x13] 0x11 res1 Hparse eq_refl Hpre
              (or_introl Hnone))
    as (m & Hm & Hw & Hc & _ & _ & Hshort).
  exists m. split; [exact Hm|].
  split; [subst self2; rewrite Hw; vm_compute; reflexivity|].
  split; [rewrite Hc; exact Hlen1 | exact (Hshort Hacc)].
Defined.

(** ** The colorimetric engine *)

Lemma CAT_MATRICES_lookup_None (method : string) :
  method <> "bradford"%string -> method <> "cat02"%string ->
  method <> "kries"%string ->
  ColorScience._CAT_MATRICES !! method = None.
Proof.
  intros Hb Hc Hk. unfold ColorScience._CAT_MATRICES.
  rewrite !lookup_insert_ne by congruence. apply lookup_empty.
Qed.

(** The three fixed matrices are regular, and [linalg_inv] gives their
    two-sided inverses. *)
Lemma CAT_MATRICES_inverse (method : string) (M : ColorScience.mat3) :
  ColorScience._CAT_MATRICES !! method = Some M ->
  exists M_inv : ColorScience.mat3,
    ColorScience.linalg_inv M = Ok M_inv
    /\ mat_eq (ColorScience.matmul M_inv M) identity3
    /\ mat_eq (ColorScience.matmul M M_inv) identity3.
Proof.
  intros Hlookup.
  destruct (decide (method = "kries"%string)) as [-> | Hk];
    [|destruct (decide (method = "cat02"%string)) as [-> | Hc];
      [|destruct (decide (method = "bradford"%string)) as [-> | Hb]]].
  4:{ rewrite CAT_MATRICES_lookup_None in Hlookup by assumption. discriminate. }
  all: vm_compute in Hlookup; injection Hlookup as <-;
    eexists; split; [vm_compute; reflexivity|]; vm_compute; intuition discriminate.
Qed.

(** C8 (amended).  [adapt_xyz] lower-cases the method name.  For the
    names [bradford], [cat02] and [kries] (the von Kries model) it returns
    the adaptation through the cone space of the fixed matrix of that name
    and its inverse; for any other name, [vonKries] and [unknown] among
    them, it raises [ValueError]. *)
Theorem adapt_xyz_methods (X Y Z : Q) (Ws Wd : ColorScience.vec3) (method : string) :
  (ColorScience.lower method = "bradford"%string
   \/ ColorScience.lower method = "cat02"%string
   \/ ColorScience.lower method = "kries"%string ->
   exists M M_inv : ColorScience.mat3,
     ColorScience._CAT_MATRICES !! ColorScience.lower method = Some M
     /\ ColorScience.linalg_inv M = Ok M_inv
     /\ mat_eq (ColorScience.matmul M_inv M) identity3
     /\ mat_eq (ColorScience.matmul M M_inv) identity3
     /\ ColorScience.adapt_xyz X Y Z Ws Wd method
        = Ok (cone_adaptation M M_inv (X, Y, Z) Ws Wd))
  /\ (ColorScience.lower method <> "bradford"%string ->
      ColorScience.lower method <> "cat02"%string ->
      ColorScience.lower method <> "kries"%string ->
      ColorScience.adapt_xyz X Y Z Ws Wd method
      = Raise (ValueError ("Unknown adaptation method '"
                           +:+ (ColorScience.lower method
                                +:+ "'. Use 'bradford', 'cat02', or 'kries'.")))).
Proof.
  split.
  - intros Hmethod.
    assert (exists M, ColorScience._CAT_MATRICES !! ColorScience.lower method = Some M)
      as [M HM].
    { destruct Hmethod as [-> | [-> | ->]]; eexists; vm_compute; reflexivity. }
    destruct (CAT_MATRICES_inverse _ _ HM) as (M_inv & Hinv & Hl & Hr).
    exists M, M_inv. repeat (split; [assumption|]).
    unfold ColorScience.adapt_xyz. rewrite HM.
    cbn [mbind outcome_bind]. rewrite Hinv. reflexivity.
  - intros Hb Hc Hk. unfold ColorScience.adapt_xyz.
    rewrite CAT_MATRICES_lookup_None by assumption. reflexivity.
Qed.

Lemma adapt_xyz_methods_witness :
  (exists M M_inv : ColorScience.mat3,
     ColorScience._CAT_MATRICES !! "cat02"%string = Some M
     /\ ColorScience.linalg_inv M = Ok M_inv
     /\ ColorScience.adapt_xyz 81.48 87.12 93.35
          (94.81, 100, 107.32)%Q (96.72, 100, 81.43)%Q "CAT02"
        = Ok (cone_adaptation M M_inv (81.48, 87.12, 93.35)%Q
                (94.81, 100, 107.32)%Q (96.72, 100, 81.43)%Q))
  /\ ColorScience.adapt_xyz 81.48 87.12 93.35
       (94.81, 100, 107.32)%Q (96.72, 100, 81.43)%Q "invalid"
     = Raise (ValueError
                "Unknown adaptation method 'invalid'. Use 'bradford', 'cat02', or 'kries'.").
Proof.
  destruct (adapt_xyz_methods 81.48 87.12 93.35
              (94.81, 100, 107.32)%Q (96.72, 100, 81.43)%Q "CAT02") as [Hok _].
  destruct (adapt_xyz_methods 81.48 87.12 93.35
              (94.81, 100, 107.32)%Q (96.72, 100, 81.43)%Q "invalid") as [_ Herr].
  split.
  - destruct (Hok (or_intror (or_introl eq_refl))) as (M & M_inv & HM & Hinv & _ & _ & H).
    exists M, M_inv. auto.
  - apply Herr; discriminate.
Defined.

(** C8, as stated, fails on the third name: the von Kries matrix is
    stored under [kries], so the method [vonKries] is rejected, while
    [kries], a name outside the claim's set, is accepted. *)
Lemma adapt_xyz_rejects_vonKries :
  ColorScience.adapt_xyz 81.48 87.12 93.35
    (94.81, 100, 107.32)%Q (96.72, 100, 81.43)%Q "vonKries"
  = Raise (ValueError
             "Unknown adaptation method 'vonkries'. Use 'bradford', 'cat02', or 'kries'.")
  /\ exists XYZ : ColorScience.vec3,
       ColorScience.adapt_xyz 81.48 87.12 93.35
         (94.81, 100, 107.32)%Q (96.72, 100, 81.43)%Q "kries" = Ok XYZ.
Proof. split; [reflexivity|]. eexists. vm_compute. reflexivity. Qed.

Section RgbToXyzFacts.
Local Open Scope R_scope.

Lemma rgb_max_le (r g b m : R) :
  ColorScience.rgb_max r g b <= m <-> r <= m /\ g <= m /\ b <= m.
Proof.
  unfold ColorScience.rgb_max. split.
  - intros H. pose proof (Rmax_l r (Rmax g b)). pose proof (Rmax_r r (Rmax g b)).
    pose proof (Rmax_l g b). pose proof (Rmax_r g b). lra.
  - intros (Hr & Hg & Hb). repeat apply Rmax_lub; assumption.
Qed.

Lemma rgb_to_xyz_scaled (r g b : R) :
  ColorScience.rgb_max r g b > 1 ->
  ColorScience.rgb_to_xyz r g b
  = ColorScience.gamma_decoded_to_xyz (r / 255, g / 255, b / 255).
Proof.
  intros H. unfold ColorScience.rgb_to_xyz.
  destruct (Rgt_dec (ColorScience.rgb_max r g b) 1.0) as [_|Hn].
  - repeat f_equal; lra.
  - exfalso. apply Hn. lra.
Qed.

Lemma rgb_to_xyz_unscaled (r g b : R) :
  ~ ColorScience.rgb_max r g b > 1 ->
  ColorScience.rgb_to_xyz r g b = ColorScience.gamma_decoded_to_xyz (r, g, b).
Proof.
  intros H. unfold ColorScience.rgb_to_xyz.
  destruct (Rgt_dec (ColorScience.rgb_max r g b) 1.0) as [Hy|_].
  - exfalso. apply H. lra.
  - reflexivity.
Qed.

(** Below 1 the power law with exponent 2.4 stays above the cube. *)
Lemma Rpower_ge_cube (x : R) : 0 < x <= 1 -> x * x * x <= Rpower x 2.4.
Proof.
  intros [H0 H1]. replace (x * x * x) with (x ^ 3) by ring.
  rewrite <- (Rpower_pow 3 x H0). unfold Rpower.
  assert (ln x <= 0) as Hln.
  { destruct (Rle_lt_or_eq_dec x 1 H1) as [Hlt | ->].
    - left. rewrite <- ln_1. apply ln_increasing; assumption.
    - rewrite ln_1. lra. }
  assert (INR 3 * ln x <= 2.4 * ln x) as [Hlt | Heq] by (simpl INR; nra).
  - left. apply exp_increasing. exact Hlt.
  - rewrite Heq. right. reflexivity.
Qed.

(** A component that the factor 255 keeps within the unit range decodes to
    the same linear value before and after scaling only if it is zero. *)
Lemma inv_gamma_scaled_eq (c : R) :
  255 * c <= 1 ->
  ColorScience.inv_gamma (255 * c) = ColorScience.inv_gamma c -> c = 0.
Proof.
  intros Hc. unfold ColorScience.inv_gamma.
  destruct (Rle_dec c 0.04045) as [_|Hc']; [|lra].
  destruct (Rle_dec (255 * c) 0.04045) as [Hlo|Hhi].
  - lra.
  - intros Heq. exfalso.
    pose proof (Rpower_ge_cube ((255 * c + 0.055) / 1.055) ltac:(lra)) as Hcube.
    rewrite Heq in Hcube.
    assert (0.0904 <= (255 * c + 0.055) / 1.055) as Hx by lra.
    assert (0.0904 * 0.0904 * 0.0904
            <= (255 * c + 0.055) / 1.055 * ((255 * c + 0.055) / 1.055)
               * ((255 * c + 0.055) / 1.055)) as Hx3.
    { set (x := (255 * c + 0.055) / 1.055) in *.
      assert (0.0904 * 0.0904 <= x * x) by nra. nra. }
    lra.
Qed.

(** The decoding matrix is regular. *)
Lemma rgb_matrix_injective (r g b r' g' b' : R) :
  0.4124564 * r + 0.3575761 * g + 0.1804375 * b
  = 0.4124564 * r' + 0.3575761 * g' + 0.1804375 * b' ->
  0.2126729 * r + 0.7151522 * g + 0.0721750 * b
  = 0.2126729 * r' + 0.7151522 * g' + 0.0721750 * b' ->
  0.0193339 * r + 0.1191920 * g + 0.9503041 * b
  = 0.0193339 * r' + 0.1191920 * g' + 0.9503041 * b' ->
  r = r' /\ g = g' /\ b = b'.
Proof. intros H1 H2 H3. repeat split; lra. Qed.

(** C10.  [rgb_to_xyz] divides the three components by 255 exactly when
    their maximum exceeds 1; a triple with all components in the unit
    range is decoded as it is.  Two triples that differ by the factor 255
    give the same XYZ when the larger one has a component above 1 and the
    smaller one has none, and only if the larger one has a component
    above 1. *)
Theorem rgb_to_xyz_divides_by_255_above_1 :
  (forall r g b : R,
     ColorScience.rgb_max r g b > 1 ->
     ColorScience.rgb_to_xyz r g b
     = ColorScience.gamma_decoded_to_xyz (r / 255, g / 255, b / 255))
  /\ (forall r g b : R,
        ~ ColorScience.rgb_max r g b > 1 ->
        ColorScience.rgb_to_xyz r g b = ColorScience.gamma_decoded_to_xyz (r, g, b))
  /\ (forall r g b : R,
        0 <= r <= 1 -> 0 <= g <= 1 -> 0 <= b <= 1 ->
        ColorScience.rgb_to_xyz r g b = ColorScience.gamma_decoded_to_xyz (r, g, b))
  /\ (forall r g b : R,
        ColorScience.rgb_max (255 * r) (255 * g) (255 * b) > 1 ->
        ~ ColorScience.rgb_max r g b > 1 ->
        ColorScience.rgb_to_xyz (255 * r) (255 * g) (255 * b)
        = ColorScience.rgb_to_xyz r g b)
  /\ (forall r g b : R,
        (r, g, b) <> (0, 0, 0) ->
        ColorScience.rgb_to_xyz (255 * r) (255 * g) (255 * b)
        = ColorScience.rgb_to_xyz r g b ->
        ColorScience.rgb_max (255 * r) (255 * g) (255 * b) > 1).
Proof.
  split; [exact rgb_to_xyz_scaled|]. split; [exact rgb_to_xyz_unscaled|].
  split; [|split].
  - intros r g b Hr Hg Hb. apply rgb_to_xyz_unscaled.
    pose proof (proj2 (rgb_max_le r g b 1) ltac:(lra)). lra.
  - intros r g b Hbig Hsmall.
    rewrite (rgb_to_xyz_scaled _ _ _ Hbig), (rgb_to_xyz_unscaled _ _ _ Hsmall).
    repeat f_equal; field.
  - intros r g b Hne Heq.
    destruct (Rgt_dec (ColorScience.rgb_max (255 * r) (255 * g) (255 * b)) 1)
      as [Hgt|Hle]; [exact Hgt|exfalso].
    assert (ColorScience.rgb_max (255 * r) (255 * g) (255 * b) <= 1) as Hmax by lra.
    apply rgb_max_le in Hmax. destruct Hmax as (Hr & Hg & Hb).
    assert (~ ColorScience.rgb_max r g b > 1) as Hsmall.
    { pose proof (proj2 (rgb_max_le r g b 1) ltac:(lra)). lra. }
    rewrite (rgb_to_xyz_unscaled _ _ _ Hle), (rgb_to_xyz_unscaled _ _ _ Hsmall) in Heq.
    unfold ColorScience.gamma_decoded_to_xyz in Heq.
    injection Heq as H1 H2 H3.
    destruct (rgb_matrix_injective _ _ _ _ _ _ H1 H2 H3) as (Er & Eg & Eb).
    apply inv_gamma_scaled_eq in Er, Eg, Eb; try assumption.
    apply Hne. congruence.
Qed.

Lemma rgb_to_xyz_divides_by_255_above_1_witness :
  ColorScience.rgb_to_xyz 255 255 255
  = ColorScience.gamma_decoded_to_xyz (255 / 255, 255 / 255, 255 / 255)
  /\ ColorScience.rgb_to_xyz 1 1 1 = ColorScience.gamma_decoded_to_xyz (1, 1, 1)
  /\ ColorScience.rgb_max (255 * 1) (255 * 1) (255 * 1) > 1.
Proof.
  destruct rgb_to_xyz_divides_by_255_above_1 as (Hscaled & _ & Hunit & _ & Honly).
  assert (ColorScience.rgb_max 255 255 255 > 1) as Hmax.
  { unfold ColorScience.rgb_max. pose proof (Rmax_l 255 (Rmax 255 255)). lra. }
  split; [exact (Hscaled 255 255 255 Hmax)|].
  split; [apply Hunit; lra|].
  apply Honly.
  - intros H. injection H as H _ _. lra.
  - replace (255 * 1) with 255 by lra.
    rewrite (Hscaled 255 255 255 Hmax), (Hunit 1 1 1) by lra.
    repeat f_equal; lra.
Defined.

End RgbToXyzFacts.

Section LabFacts.
Local Open Scope R_scope.

Lemma cbrt_cube (x : R) : 0 < x -> ColorScience.cbrt (x ^ 3) = x.
Proof.
  intros Hx. unfold ColorScience.cbrt.
  assert (0 < x ^ 3) as Hx3 by (apply pow_lt; exact Hx).
  destruct (Rlt_dec 0 (x ^ 3)) as [_|Hn]; [|contradiction].
  rewrite <- (Rpower_pow 3 x Hx), Rpower_mult.
  replace (INR 3 * (1 / 3)) with 1 by (simpl INR; field).
  apply Rpower_1, Hx.
Qed.

Lemma cube_cbrt (t : R) : 0 < t -> ColorScience.cbrt t ^ 3 = t.
Proof.
  intros Ht. unfold ColorScience.cbrt.
  destruct (Rlt_dec 0 t) as [_|Hn]; [|contradiction].
  assert (0 < Rpower t (1 / 3)) as Hpos by (unfold Rpower; apply exp_pos).
  rewrite <- (Rpower_pow 3 _ Hpos), Rpower_mult.
  replace (1 / 3 * INR 3) with 1 by (simpl INR; field).
  apply Rpower_1, Ht.
Qed.

Lemma cbrt_increasing (s t : R) :
  0 < s < t -> ColorScience.cbrt s < ColorScience.cbrt t.
Proof.
  intros [Hs Hst]. unfold ColorScience.cbrt.
  destruct (Rlt_dec 0 s) as [_|Hn]; [|contradiction].
  destruct (Rlt_dec 0 t) as [_|Hn]; [|lra].
  apply Rlt_Rpower_l; lra.
Qed.

Lemma xyz_to_lab_f_inv_l (ft : R) :
  ColorScience.xyz_to_lab_f (ColorScience.lab_to_xyz_f_inv ft) = ft.
Proof.
  unfold ColorScience.xyz_to_lab_f, ColorScience.lab_to_xyz_f_inv. cbv zeta.
  destruct (Rgt_dec ft (6 / 29)) as [Hgt|Hle].
  - assert (ft ^ 3 > (6 / 29) ^ 3) as Hcube.
    { assert (0 < ft - 6 / 29) by lra. simpl. nra. }
    destruct (Rgt_dec (ft ^ 3) ((6 / 29) ^ 3)) as [_|Hn]; [|contradiction].
    apply cbrt_cube. lra.
  - destruct (Rgt_dec (3 * (6 / 29) ^ 2 * (ft - 4 / 29)) ((6 / 29) ^ 3)) as [Hgt|_].
    + exfalso. simpl in Hgt. lra.
    + field.
Qed.

Lemma xyz_to_lab_f_inv_r (t : R) :
  ColorScience.lab_to_xyz_f_inv (ColorScience.xyz_to_lab_f t) = t.
Proof.
  unfold ColorScience.xyz_to_lab_f, ColorScience.lab_to_xyz_f_inv. cbv zeta.
  destruct (Rgt_dec t ((6 / 29) ^ 3)) as [Hgt|Hle].
  - assert (0 < (6 / 29) ^ 3) as Hpos by (simpl; lra).
    assert (ColorScience.cbrt t > 6 / 29) as Hroot.
    { rewrite <- (cbrt_cube (6 / 29)) by lra. apply cbrt_increasing. lra. }
    destruct (Rgt_dec (ColorScience.cbrt t) (6 / 29)) as [_|Hn]; [|contradiction].
    apply cube_cbrt. lra.
  - destruct (Rgt_dec (t / (3 * (6 / 29) ^ 2) + 4 / 29) (6 / 29)) as [Hgt|_].
    + exfalso. simpl in Hgt, Hle. lra.
    + field.
Qed.

(** X1.  In exact arithmetic the piecewise function of [xyz_to_lab] and the one
    of [lab_to_xyz] are inverse to each other, and converting a Lab triple
    to XYZ and back gives the triple again, for the default white point
    and for any white point without a zero component. *)
Theorem xyz_to_lab_lab_to_xyz :
  (forall ft : R, ColorScience.xyz_to_lab_f (ColorScience.lab_to_xyz_f_inv ft) = ft)
  /\ (forall t : R, ColorScience.lab_to_xyz_f_inv (ColorScience.xyz_to_lab_f t) = t)
  /\ (forall L a b : R,
        let '(X, Y, Z) := ColorScience.lab_to_xyz L a b None in
        ColorScience.xyz_to_lab X Y Z None = (L, a, b))
  /\ (forall L a b Xn Yn Zn : R,
        Xn <> 0 -> Yn <> 0 -> Zn <> 0 ->
        let '(X, Y, Z) := ColorScience.lab_to_xyz L a b (Some (Xn, Yn, Zn)) in
        ColorScience.xyz_to_lab X Y Z (Some (Xn, Yn, Zn)) = (L, a, b)).
Proof.
  split; [exact xyz_to_lab_f_inv_l|]. split; [exact xyz_to_lab_f_inv_r|].
  assert (forall L a b Xn Yn Zn : R,
            Xn <> 0 -> Yn <> 0 -> Zn <> 0 ->
            let '(X, Y, Z) := ColorScience.lab_to_xyz L a b (Some (Xn, Yn, Zn)) in
            ColorScience.xyz_to_lab X Y Z (Some (Xn, Yn, Zn)) = (L, a, b)) as Hwhite.
  { intros L a b Xn Yn Zn HX HY HZ.
    unfold ColorScience.lab_to_xyz, ColorScience.xyz_to_lab. cbv zeta.
    replace (ColorScience.lab_to_xyz_f_inv ((L + 16) / 116 + a / 500) * Xn / Xn)
      with (ColorScience.lab_to_xyz_f_inv ((L + 16) / 116 + a / 500)) by (field; exact HX).
    replace (ColorScience.lab_to_xyz_f_inv ((L + 16) / 116) * Yn / Yn)
      with (ColorScience.lab_to_xyz_f_inv ((L + 16) / 116)) by (field; exact HY).
    replace (ColorScience.lab_to_xyz_f_inv ((L + 16) / 116 - b / 200) * Zn / Zn)
      with (ColorScience.lab_to_xyz_f_inv ((L + 16) / 116 - b / 200)) by (field; exact HZ).
    rewrite !xyz_to_lab_f_inv_l. repeat f_equal; field. }
  split; [|exact Hwhite].
  intros L a b. apply (Hwhite L a b 94.81 100.000 107.32); lra.
Qed.

Lemma xyz_to_lab_lab_to_xyz_witness :
  let '(X, Y, Z) := ColorScience.lab_to_xyz 50 10 (-10) (Some (96.72, 100, 81.43)) in
  ColorScience.xyz_to_lab X Y Z (Some (96.72, 100, 81.43)) = (50, 10, -10).
Proof.
  apply (proj2 (proj2 (proj2 xyz_to_lab_lab_to_xyz))); lra.
Defined.

End LabFacts.

(** X2.  [_parse_spd_data] decodes the first 124 accumulated bytes into the 31
    values of the curve as soon as at least 124 bytes were accumulated: a
    measurement whose three data chunks arrived holds 144 bytes. *)
Theorem parse_spd_data_decodes_first_124_bytes
    (result : CR30Protocol.measurement) (spd_bytes : bytes) :
  (124 <= length spd_bytes)%nat ->
  CR30Protocol.result_spd (CR30Protocol._parse_spd_data result spd_bytes)
  = le_words (take 124 spd_bytes)
  /\ length (CR30Protocol.result_spd (CR30Protocol._parse_spd_data result spd_bytes))
     = 31%nat
  /\ CR30Protocol.result_spd_data (CR30Protocol._parse_spd_data result spd_bytes)
     = Some (CR30Protocol.dict_zip CR30Protocol.wavelengths
               (le_words (take 124 spd_bytes))).
Proof.
  intros Hlen. unfold CR30Protocol._parse_spd_data.
  destruct (Nat.ltb_spec (length spd_bytes) 124) as [Hlt|_]; [lia|].
  change (slice 0 124 spd_bytes) with (take 124 spd_bytes).
  assert (length (take 124 spd_bytes) = 124%nat) as H124
    by (rewrite length_take; lia).
  unfold struct_unpack_f. rewrite H124. cbn [Nat.mul Nat.add Nat.eqb].
  cbn [CR30Protocol.result_spd CR30Protocol.result_spd_data].
  split; [reflexivity|]. split; [|reflexivity].
  clear Hlen. revert H124. generalize (take 124 spd_bytes) as l. intros l H124.
  do 31 (destruct l as [|? [|? [|? [|? l]]]]; try discriminate H124;
         cbn [le_words length]; f_equal;
         apply eq_add_S, eq_add_S, eq_add_S, eq_add_S in H124).
  destruct l; [reflexivity | discriminate H124].
Qed.

Lemma parse_spd_data_decodes_first_124_bytes_witness :
  let spd_bytes := replicate 144 0 in
  let result := CR30Protocol.mk_measurement None [] [] ∅ None None in
  length (CR30Protocol.result_spd (CR30Protocol._parse_spd_data result spd_bytes))
  = 31%nat.
Proof.
  intros spd_bytes result.
  apply (parse_spd_data_decodes_first_124_bytes result spd_bytes).
  vm_compute. lia.
Defined.

(** * Further properties of the driver and of the colorimetric engine *)

(** X3.  [build_packet] raises [ValueError] for a start byte other than
    [0xAA] and [0xBB], and, the start byte being one of the two, for a
    payload of more than 52 bytes; in every other case it returns a frame
    of 60 bytes that [is_valid_packet] accepts.  The start byte is checked
    first, and no value of [cmd], [subcmd] or [param] is refused. *)
Theorem build_packet_rejects_bad_start_and_long_payload
    (start cmd subcmd param : Z) (data : option bytes) :
  (start <> 0xAA /\ start <> 0xBB ->
   PacketBuilder.build_packet start cmd subcmd param data
   = Raise (ValueError "Start byte must be 0xAA or 0xBB"))
  /\ ((start = 0xAA \/ start = 0xBB) /\ (52 < length (payload_of data))%nat ->
      PacketBuilder.build_packet start cmd subcmd param data
      = Raise (ValueError ("Payload must be at most 52 bytes, got "
                           +:+ str_nat (length (payload_of data)))))
  /\ ((start = 0xAA \/ start = 0xBB) /\ (length (payload_of data) <= 52)%nat ->
      exists frame : bytes,
        PacketBuilder.build_packet start cmd subcmd param data = Ok frame
        /\ length frame = 60%nat
        /\ PacketParser.is_valid_packet frame = true).
Proof.
  split; [|split].
  - intros [Ha Hb]. unfold PacketBuilder.build_packet, CR30Packet.set_start.
    cbn [CR30Packet.__init__ mbind outcome_bind].
    apply Z.eqb_neq in Ha, Hb. rewrite Ha, Hb. reflexivity.
  - intros [Hstart Hlen].
    destruct data as [[|b value]|]; cbn [payload_of] in Hlen;
      try (simpl in Hlen; lia).
    unfold PacketBuilder.build_packet.
    cbn [CR30Packet.__init__ mbind outcome_bind payload_of].
    assert (exists p, CR30Packet.set_start start
              (CR30Packet.mk (<[58%nat:=0xFF]> (replicate CR30Packet.PACKET_SIZE 0)))
            = Ok p) as [p ->].
    { destruct Hstart as [-> | ->]; eexists; reflexivity. }
    cbn [mbind outcome_bind]. unfold CR30Packet.set_payload, CR30Packet.PAYLOAD_SIZE.
    apply Nat.ltb_lt in Hlen. rewrite Hlen. reflexivity.
  - intros [Hstart Hlen].
    exists (encoded_frame start cmd subcmd param (payload_of data)).
    split; [apply build_packet_encoded_frame; assumption|].
    split; [apply length_encoded_frame, Hlen|].
    apply is_valid_packet_structure. unfold frame_structure_ok.
    pose proof (encoded_frame_lookup start cmd subcmd param _ Hlen) as Hl.
    cbv zeta in Hl. destruct Hl as (H0 & _ & _ & _ & H58 & _ & _).
    rewrite H0, H58. split; [apply length_encoded_frame, Hlen|].
    destruct Hstart; auto.
Qed.

Lemma build_packet_rejects_bad_start_and_long_payload_witness :
  PacketBuilder.build_packet 0xCC 0x01 0x00 0x00 (Some (replicate 53 0))
  = Raise (ValueError "Start byte must be 0xAA or 0xBB")
  /\ PacketBuilder.build_packet 0xBB 0x01 0x00 0x00 (Some (replicate 53 0))
     = Raise (ValueError "Payload must be at most 52 bytes, got 53")
  /\ exists frame : bytes,
       PacketBuilder.build_packet 0xBB 0x101 0x00 0x00 (Some (replicate 52 7)) = Ok frame
       /\ length frame = 60%nat
       /\ PacketParser.is_valid_packet frame = true.
Proof.
  split; [|split].
  - apply (proj1 (build_packet_rejects_bad_start_and_long_payload
                    0xCC 0x01 0x00 0x00 (Some (replicate 53 0)))).
    split; discriminate.
  - apply (proj1 (proj2 (build_packet_rejects_bad_start_and_long_payload
                    0xBB 0x01 0x00 0x00 (Some (replicate 53 0))))).
    split; [right; reflexivity | simpl; lia].
  - apply (proj2 (proj2 (build_packet_rejects_bad_start_and_long_payload
                    0xBB 0x101 0x00 0x00 (Some (replicate 52 7))))).
    split; [right; reflexivity | simpl; lia].
Defined.

Lemma is_valid_mk (d : bytes) :
  CR30Packet.is_valid (CR30Packet.mk d) = PacketParser.is_valid_packet d.
Proof.
  unfold PacketParser.is_valid_packet, CR30Packet.__init__, CR30Packet.is_valid.
  cbn [CR30Packet._data].
  destruct (negb (length d =? CR30Packet.PACKET_SIZE)%nat) eqn:E; [reflexivity|].
  unfold CR30Packet.is_valid. cbn [CR30Packet._data]. rewrite E. reflexivity.
Qed.

Lemma is_valid_structure (p : CR30Packet.t) :
  CR30Packet.is_valid p = true <-> frame_structure_ok (CR30Packet._data p).
Proof. destruct p as [d]. rewrite is_valid_mk. apply is_valid_packet_structure. Qed.

Lemma frame_structure_ok_insert (d : bytes) (i : nat) (v : Z) :
  i <> 0%nat -> i <> 58%nat ->
  frame_structure_ok d -> frame_structure_ok (<[i:=v]> d).
Proof.
  intros H0 H58 [Hlen H]. unfold frame_structure_ok.
  rewrite length_insert, !list_lookup_total_insert_ne by congruence. auto.
Qed.

Lemma set_marker_cases (d : bytes) (v : Z) :
  frame_structure_ok d ->
  (frame_structure_ok (<[58%nat:=v]> d)
   /\ CR30Packet.set_marker v (CR30Packet.mk d) = Ok (CR30Packet.mk (<[58%nat:=v]> d)))
  \/ (~ frame_structure_ok (<[58%nat:=v]> d)
      /\ exists msg, CR30Packet.set_marker v (CR30Packet.mk d) = Raise (ValueError msg)).
Proof.
  intros [Hlen Hsm]. unfold frame_structure_ok, CR30Packet.set_marker, CR30Packet.start.
  cbn [CR30Packet._data].
  rewrite length_insert, list_lookup_total_insert_ne by lia.
  rewrite list_lookup_total_insert_eq by lia.
  destruct Hsm as [[-> _] | [-> _]]; cbn [Z.eqb Pos.eqb andb];
    destruct (Z.eqb_spec v 0xFF) as [-> | Hf]; cbn [negb orb];
    try destruct (Z.eqb_spec v 0x00) as [-> | Hz]; cbn [negb orb];
    try (left; split; [split; [exact Hlen|]; auto | reflexivity]);
    right; (split; [|eexists; reflexivity]); intros [_ [[H1 H2] | [H1 H2]]]; lia.
Qed.

(** X4.  The setters keep a packet structurally valid.  The setter of
    [start] makes any 60-byte packet valid when it returns, the freshly
    created packet included.  On a valid packet the setters of [cmd],
    [subcmd], [param], [payload] and [marker], [calculate_checksum],
    [verify_checksum] and [to_bytes] leave a valid packet, and the setter
    of [marker] accepts exactly the values that do. *)
Theorem setters_keep_packet_valid :
  (forall (p p' : CR30Packet.t) (v : Z),
     length (CR30Packet._data p) = 60%nat ->
     CR30Packet.set_start v p = Ok p' -> CR30Packet.is_valid p' = true)
  /\ (forall p : CR30Packet.t,
        CR30Packet.is_valid p = true ->
        (forall v : Z,
           CR30Packet.is_valid (CR30Packet.set_cmd v p) = true
           /\ CR30Packet.is_valid (CR30Packet.set_subcmd v p) = true
           /\ CR30Packet.is_valid (CR30Packet.set_param v p) = true)
        /\ (forall (v : bytes) (p' : CR30Packet.t),
              CR30Packet.set_payload v p = Ok p' -> CR30Packet.is_valid p' = true)
        /\ (forall (v : Z) (p' : CR30Packet.t),
              CR30Packet.set_marker v p = Ok p' -> CR30Packet.is_valid p' = true)
        /\ (forall v : Z,
              (exists p' : CR30Packet.t, CR30Packet.set_marker v p = Ok p')
              <-> CR30Packet.is_valid
                    (CR30Packet.mk (<[58%nat:=v]> (CR30Packet._data p))) = true)
        /\ CR30Packet.is_valid (snd (CR30Packet.calculate_checksum p)) = true
        /\ CR30Packet.is_valid (snd (CR30Packet.verify_checksum p)) = true
        /\ CR30Packet.is_valid (snd (CR30Packet.to_bytes p)) = true).
Proof.
  split.
  { intros [d] p' v Hlen H. cbn [CR30Packet._data] in Hlen.
    unfold CR30Packet.set_start in H. cbn [CR30Packet._data] in H.
    apply is_valid_structure.
    destruct (Z.eqb_spec v 0xAA) as [-> | Ha]; cbn [orb negb] in H.
    { injection H as <-. cbn [CR30Packet._data]. unfold frame_structure_ok.
      rewrite !length_insert, list_lookup_total_insert_ne by lia.
      rewrite !list_lookup_total_insert_eq by (rewrite ?length_insert; lia). auto. }
    destruct (Z.eqb_spec v 0xBB) as [-> | Hb]; cbn [orb negb] in H; [|discriminate].
    destruct (negb _) eqn:E in H; injection H as <-; cbn [CR30Packet._data];
      unfold frame_structure_ok.
    + rewrite !length_insert, list_lookup_total_insert_ne by lia.
      rewrite !list_lookup_total_insert_eq by (rewrite ?length_insert; lia). auto.
    + apply negb_false_iff, orb_true_iff in E.
      rewrite length_insert, list_lookup_total_insert_eq by lia.
      split; [exact Hlen|]. right. split; [reflexivity|].
      destruct E as [E|E]; apply Z.eqb_eq in E; auto. }
  intros p Hvalid. apply is_valid_structure in Hvalid. destruct p as [d].
  cbn [CR30Packet._data] in *. pose proof Hvalid as [Hlen Hsm].
  repeat split.
  - apply is_valid_structure. apply frame_structure_ok_insert; auto.
  - apply is_valid_structure. apply frame_structure_ok_insert; auto.
  - apply is_valid_structure. apply frame_structure_ok_insert; auto.
  - intros v p' H. destruct (Nat.le_gt_cases (length v) 52) as [E|E].
    + rewrite (set_payload_spec v d E Hlen) in H. injection H as <-.
      apply is_valid_structure. cbn [CR30Packet._data]. unfold frame_structure_ok.
      assert (length (take 4 d) = 4%nat) as Ht by (rewrite length_take; lia).
      assert ((take 4 d ++ v ++ replicate (52 - length v) 0 ++ drop 56 d) !!! 0%nat
              = d !!! 0%nat) as ->.
      { rewrite lookup_total_app_l by lia. rewrite lookup_total_take. reflexivity. }
      assert ((take 4 d ++ v ++ replicate (52 - length v) 0 ++ drop 56 d) !!! 58%nat
              = d !!! 58%nat) as ->.
      { rewrite (assoc_L (++) v), (assoc_L (++) (take 4 d)).
        rewrite lookup_total_app_r
          by (rewrite !length_app, length_replicate; lia).
        rewrite !length_app, length_replicate, Ht, lookup_total_drop.
        f_equal. lia. }
      split; [|exact Hsm].
      rewrite !length_app, length_replicate, length_drop. lia.
    + unfold CR30Packet.set_payload, CR30Packet.PAYLOAD_SIZE in H.
      rewrite (proj2 (Nat.ltb_lt _ _) E) in H. discriminate.
  - intros v p' H. apply is_valid_structure.
    destruct (set_marker_cases d v Hvalid) as [[Hok Heq] | [_ [msg Heq]]];
      rewrite Heq in H; [|discriminate].
    injection H as <-. exact Hok.
  - intros [p' H].
    destruct (set_marker_cases d v Hvalid) as [[Hok Heq] | [_ [msg Heq]]];
      rewrite Heq in H; [|discriminate].
    apply is_valid_structure, Hok.
  - intros H. apply is_valid_structure in H. cbn [CR30Packet._data] in H.
    destruct (set_marker_cases d v Hvalid) as [[Hok Heq] | [Hbad _]];
      [eauto | contradiction].
  - apply is_valid_structure. apply frame_structure_ok_insert; auto.
  - apply is_valid_structure. rewrite verify_checksum_always_true by exact Hlen.
    apply frame_structure_ok_insert; auto.
  - apply is_valid_structure. apply frame_structure_ok_insert; auto.
Qed.

Lemma setters_keep_packet_valid_witness :
  (exists p p' : CR30Packet.t,
     CR30Packet.__init__ None = Ok p /\ CR30Packet.is_valid p = false
     /\ CR30Packet.set_start 0xBB p = Ok p' /\ CR30Packet.is_valid p' = true)
  /\ CR30Packet.is_valid (CR30Packet.set_cmd 0x1FF (CR30Packet.mk device_name_frame))
     = true
  /\ CR30Packet.is_valid
       (snd (CR30Packet.verify_checksum (CR30Packet.mk device_name_frame))) = true.
Proof.
  destruct setters_keep_packet_valid as [Hstart Hvalid].
  split.
  - exists (CR30Packet.mk (<[58%nat:=0xFF]> (replicate 60 0))). eexists.
    split; [reflexivity|]. split; [reflexivity|]. split; [reflexivity|].
    apply (Hstart (CR30Packet.mk (<[58%nat:=0xFF]> (replicate 60 0))) _ 0xBB);
      reflexivity.
  - destruct (Hvalid (CR30Packet.mk device_name_frame) eq_refl)
      as (Hbyte & _ & _ & _ & _ & Hverify & _).
    split; [exact (proj1 (Hbyte 0x1FF)) | exact Hverify].
Defined.

Lemma parse_packet_valid (packet : bytes) :
  PacketParser.is_valid_packet packet = true ->
  PacketParser.parse_packet packet = Ok (CR30Packet.mk packet).
Proof.
  unfold PacketParser.is_valid_packet, PacketParser.parse_packet, CR30Packet.__init__.
  destruct (negb (length packet =? CR30Packet.PACKET_SIZE)%nat); [discriminate|].
  intros ->. reflexivity.
Qed.

Lemma parse_packet_invalid (packet : bytes) :
  PacketParser.is_valid_packet packet = false ->
  exists msg : string,
    PacketParser.parse_packet packet
    = Raise (ValueError ("Failed to parse packet: " +:+ msg)).
Proof.
  unfold PacketParser.is_valid_packet, PacketParser.parse_packet, CR30Packet.__init__.
  destruct (negb (length packet =? CR30Packet.PACKET_SIZE)%nat).
  - intros _. eexists. reflexivity.
  - intros ->. eexists. reflexivity.
Qed.

(** X5.  The entry points of the parser agree with [is_valid_packet].
    On a frame it accepts, [parse_packet] and [parse_header] return the
    frame as a packet, [extract_payload] returns its bytes 4 to 55,
    [verify_checksum] returns [True], [parse_device_info] returns a
    dictionary, and [parse_measurement_header] returns the packet when
    byte 2 is [0x09] and raises [ValueError] otherwise.  On a frame it
    refuses, all of them, and [parse_spd_chunk], raise the same
    [ValueError], whose message starts with "Failed to parse packet: ",
    and the parser is unchanged. *)
Theorem parser_entry_points_agree_with_is_valid_packet (packet : bytes) :
  (PacketParser.is_valid_packet packet = true ->
   PacketParser.parse_packet packet = Ok (CR30Packet.mk packet)
   /\ PacketParser.parse_header packet = Ok (CR30Packet.mk packet)
   /\ PacketParser.extract_payload packet = Ok (slice 4 56 packet)
   /\ length (slice 4 56 packet) = 52%nat
   /\ PacketParser.verify_checksum packet = Ok true
   /\ (exists info : gmap string value,
         PacketParser.parse_device_info packet = Ok info)
   /\ (packet !!! 2%nat = 0x09 ->
       PacketParser.parse_measurement_header packet = Ok (CR30Packet.mk packet))
   /\ (packet !!! 2%nat <> 0x09 ->
       PacketParser.parse_measurement_header packet
       = Raise (ValueError ("Not a measurement header packet: subcmd=0x"
                            +:+ format_02X (packet !!! 2%nat) +:+ ", expected 0x09"))))
  /\ (PacketParser.is_valid_packet packet = false ->
      exists msg : string,
        let e := ValueError ("Failed to parse packet: " +:+ msg) in
        PacketParser.parse_packet packet = Raise e
        /\ PacketParser.parse_header packet = Raise e
        /\ PacketParser.extract_payload packet = Raise e
        /\ PacketParser.verify_checksum packet = Raise e
        /\ PacketParser.parse_device_info packet = Raise e
        /\ PacketParser.parse_measurement_header packet = Raise e
        /\ forall self : PacketParser.t,
             PacketParser.parse_spd_chunk packet self = (Raise e, self)).
Proof.
  split.
  - intros Hvalid. pose proof (parse_packet_valid packet Hvalid) as Hparse.
    pose proof (proj1 (is_valid_packet_structure packet) Hvalid) as [Hlen _].
    unfold PacketParser.parse_header, PacketParser.extract_payload,
      PacketParser.verify_checksum, PacketParser.parse_device_info,
      PacketParser.parse_measurement_header.
    rewrite Hparse. cbn [mbind outcome_bind].
    split; [reflexivity|]. split; [reflexivity|]. split; [reflexivity|].
    split; [exact (length_payload packet Hlen)|].
    split; [rewrite verify_checksum_always_true by exact Hlen; reflexivity|].
    split.
    { destruct (CR30Packet.cmd _ =? 0x0A); [|eauto].
      destruct (CR30Packet.subcmd _ =? 0x00); [eauto|].
      destruct (CR30Packet.subcmd _ =? 0x01); [eauto|].
      destruct (CR30Packet.subcmd _ =? 0x02); [eauto|].
      destruct (CR30Packet.subcmd _ =? 0x03); eauto. }
    unfold CR30Packet.subcmd. cbn [CR30Packet._data].
    split; intros H.
    + rewrite H. reflexivity.
    + apply Z.eqb_neq in H. rewrite H. reflexivity.
  - intros Hinvalid. destruct (parse_packet_invalid packet Hinvalid) as [msg Hparse].
    exists msg. cbv zeta.
    unfold PacketParser.parse_header, PacketParser.extract_payload,
      PacketParser.verify_checksum, PacketParser.parse_device_info,
      PacketParser.parse_measurement_header, PacketParser.parse_spd_chunk.
    rewrite Hparse. cbn [mbind outcome_bind]. repeat split.
Qed.

Lemma parser_entry_points_agree_with_is_valid_packet_witness :
  PacketParser.extract_payload device_name_frame = Ok (slice 4 56 device_name_frame)
  /\ (exists msg : string,
        PacketParser.parse_measurement_header device_name_frame
        = Raise (ValueError msg))
  /\ PacketParser.parse_measurement_header measurement_header_frame
     = Ok (CR30Packet.mk measurement_header_frame)
  /\ exists msg : string,
       PacketParser.extract_payload (replicate 60 0)
       = Raise (ValueError ("Failed to parse packet: " +:+ msg)).
Proof.
  destruct (parser_entry_points_agree_with_is_valid_packet device_name_frame)
    as [Hname _].
  destruct (parser_entry_points_agree_with_is_valid_packet measurement_header_frame)
    as [Hheader _].
  destruct (parser_entry_points_agree_with_is_valid_packet (replicate 60 0))
    as [_ Hzero].
  destruct (Hname eq_refl) as (_ & _ & Hpayload & _ & _ & _ & _ & Hnot).
  destruct (Hheader eq_refl) as (_ & _ & _ & _ & _ & _ & His & _).
  destruct (Hzero eq_refl) as (msg & _ & _ & Hraise & _).
  split; [exact Hpayload|]. split.
  - eexists. apply Hnot. discriminate.
  - split; [apply His; reflexivity|]. exists msg. exact Hraise.
Defined.

(** The spectral bytes of a chunk reply are bytes 6 to 53 of the frame. *)
Lemma spd_data_offsets (d : bytes) :
  slice 2 50 (CR30Packet.payload (CR30Packet.mk d)) = slice 6 54 d.
Proof.
  unfold CR30Packet.payload, slice, CR30Packet.PAYLOAD_START, CR30Packet.PAYLOAD_END.
  cbn [CR30Packet._data Nat.sub].
  rewrite skipn_firstn_comm, take_take, drop_drop. reflexivity.
Qed.

(** A reply that is structurally valid, carries one of the four chunk
    subcommands and was not consumed before is recorded. *)
Lemma parse_spd_chunk_accepts (packet : bytes) (self : PacketParser.t) :
  PacketParser.is_valid_packet packet = true ->
  packet !!! 2%nat ∈ CR30Protocol.chunk_subcmds ->
  packet !!! 2%nat ∉ PacketParser._chunks_received self ->
  exists chunk_info : gmap string value,
    chunk_info !! "payload" = Some (VStr (hex (slice 4 56 packet)))
    /\ chunk_info !! "subcmd" = Some (VInt (packet !!! 2%nat))
    /\ PacketParser.parse_spd_chunk packet self
       = (Ok chunk_info,
          PacketParser.mk
            (PacketParser._spd_bytes self
             ++ (if packet !!! 2%nat =? 0x13 then [] else slice 6 54 packet))
            ({[packet !!! 2%nat]} ∪ PacketParser._chunks_received self)
            (PacketParser._chunk_info_list self ++ [chunk_info])).
Proof.
  intros Hvalid Hsub Hnew.
  pose proof (proj1 (is_valid_packet_structure packet) Hvalid) as [Hlen _].
  pose proof (length_spd_data packet Hlen) as H48.
  unfold PacketParser.parse_spd_chunk.
  rewrite (parse_packet_valid packet Hvalid).
  change (CR30Packet.subcmd (CR30Packet.mk packet)) with (packet !!! 2%nat).
  rewrite bool_decide_eq_false_2 by exact Hnew.
  rewrite struct_unpack_f_48 by exact H48.
  rewrite spd_data_offsets.
  unfold PacketParser.record_chunk.
  cbn [PacketParser._spd_bytes PacketParser._chunks_received
       PacketParser._chunk_info_list].
  unfold CR30Protocol.chunk_subcmds in Hsub.
  repeat (apply elem_of_cons in Hsub; destruct Hsub as [-> | Hsub]);
    [| | | |apply elem_of_nil in Hsub; contradiction];
    cbn [Z.eqb Pos.eqb orb]; rewrite ?app_nil_r;
    eexists; (split; [|split; [|reflexivity]]); reflexivity.
Qed.

(** Any other reply is refused with [ValueError], and the parser is left
    as it was. *)
Lemma parse_spd_chunk_refuses (packet : bytes) (self : PacketParser.t) :
  PacketParser.is_valid_packet packet = false
  \/ packet !!! 2%nat ∉ CR30Protocol.chunk_subcmds
  \/ packet !!! 2%nat ∈ PacketParser._chunks_received self ->
  exists msg : string,
    PacketParser.parse_spd_chunk packet self = (Raise (ValueError msg), self).
Proof.
  intros H.
  destruct (PacketParser.is_valid_packet packet) eqn:Hvalid.
  2:{ destruct (parse_packet_invalid packet Hvalid) as [msg Hparse].
      unfold PacketParser.parse_spd_chunk. rewrite Hparse. eauto. }
  destruct H as [H | H]; [discriminate|].
  unfold PacketParser.parse_spd_chunk.
  rewrite (parse_packet_valid packet Hvalid).
  change (CR30Packet.subcmd (CR30Packet.mk packet)) with (packet !!! 2%nat).
  case_bool_decide as Hin; [eauto|].
  destruct H as [Hsub | Hin']; [|contradiction].
  unfold CR30Protocol.chunk_subcmds in Hsub.
  destruct (Z.eqb_spec (packet !!! 2%nat) 0x10) as [E|_];
    [exfalso; apply Hsub; rewrite E; set_solver|].
  destruct (Z.eqb_spec (packet !!! 2%nat) 0x11) as [E|_];
    [exfalso; apply Hsub; rewrite E; set_solver|].
  destruct (Z.eqb_spec (packet !!! 2%nat) 0x12) as [E|_];
    [exfalso; apply Hsub; rewrite E; set_solver|].
  destruct (Z.eqb_spec (packet !!! 2%nat) 0x13) as [E|_];
    [exfalso; apply Hsub; rewrite E; set_solver|].
  cbn [orb]. eauto.
Qed.

(** X6.  [parse_spd_chunk] records a reply exactly when it is structurally
    valid, its subcommand (byte 2) is one of [0x10] to [0x13] and that
    subcommand was not consumed before; the accumulator then grows by
    bytes 6 to 53 of the frame, by nothing for [0x13].  In every other case
    it raises [ValueError] and leaves the parser as it was: [struct.error]
    cannot occur. *)
Theorem parse_spd_chunk_raises_exactly (packet : bytes) (self : PacketParser.t) :
  (PacketParser.is_valid_packet packet = true
   /\ packet !!! 2%nat ∈ CR30Protocol.chunk_subcmds
   /\ packet !!! 2%nat ∉ PacketParser._chunks_received self ->
   exists chunk_info : gmap string value,
     PacketParser.parse_spd_chunk packet self
     = (Ok chunk_info,
        PacketParser.mk
          (PacketParser._spd_bytes self
           ++ (if packet !!! 2%nat =? 0x13 then [] else slice 6 54 packet))
          ({[packet !!! 2%nat]} ∪ PacketParser._chunks_received self)
          (PacketParser._chunk_info_list self ++ [chunk_info])))
  /\ (PacketParser.is_valid_packet packet = false
      \/ packet !!! 2%nat ∉ CR30Protocol.chunk_subcmds
      \/ packet !!! 2%nat ∈ PacketParser._chunks_received self ->
      exists msg : string,
        PacketParser.parse_spd_chunk packet self = (Raise (ValueError msg), self)).
Proof.
  split.
  - intros (Hvalid & Hsub & Hnew).
    destruct (parse_spd_chunk_accepts packet self Hvalid Hsub Hnew)
      as (chunk_info & _ & _ & H).
    eauto.
  - apply parse_spd_chunk_refuses.
Qed.

Lemma parse_spd_chunk_raises_exactly_witness :
  (exists chunk_info : gmap string value,
     PacketParser.parse_spd_chunk chunk_0x10_frame PacketParser.__init__
     = (Ok chunk_info,
        PacketParser.mk (slice 6 54 chunk_0x10_frame) {[0x10]} [chunk_info]))
  /\ exists msg : string,
       PacketParser.parse_spd_chunk measurement_header_frame PacketParser.__init__
       = (Raise (ValueError msg), PacketParser.__init__).
Proof.
  split.
  - destruct (proj1 (parse_spd_chunk_raises_exactly chunk_0x10_frame
                       PacketParser.__init__)) as [chunk_info H].
    + split; [reflexivity|]. change (chunk_0x10_frame !!! 2%nat) with 0x10.
      unfold CR30Protocol.chunk_subcmds. split; set_solver.
    + exists chunk_info. rewrite H. repeat f_equal; set_solver.
  - apply (proj2 (parse_spd_chunk_raises_exactly measurement_header_frame
                    PacketParser.__init__)).
    right. left. change (measurement_header_frame !!! 2%nat) with 0x09.
    unfold CR30Protocol.chunk_subcmds. rewrite !not_elem_of_cons.
    repeat split; try discriminate. apply not_elem_of_nil.
Defined.

Lemma received_union (x s : Z) (self : PacketParser.t) (spd : bytes)
    (infos : list (gmap string value)) :
  received x (PacketParser.mk spd ({[s]} ∪ PacketParser._chunks_received self) infos)
  = if bool_decide (x = s) then 1%nat else received x self.
Proof.
  unfold received. cbn [PacketParser._chunks_received].
  destruct (decide (x = s)) as [-> | Hne].
  - rewrite !bool_decide_eq_true_2;
      [reflexivity | reflexivity | apply elem_of_union_l, elem_of_singleton; reflexivity].
  - rewrite (bool_decide_eq_false_2 (x = s)) by exact Hne.
    rewrite (bool_decide_ext (x ∈ {[s]} ∪ PacketParser._chunks_received self)
               (x ∈ PacketParser._chunks_received self)); [reflexivity|].
    rewrite elem_of_union, elem_of_singleton. tauto.
Qed.

Lemma received_0 (s : Z) (self : PacketParser.t) :
  s ∉ PacketParser._chunks_received self -> received s self = 0%nat.
Proof. intros H. unfold received. rewrite bool_decide_eq_false_2 by exact H. reflexivity. Qed.

Lemma parse_spd_chunk_consistent (packet : bytes) (self : PacketParser.t) :
  accumulator_consistent self ->
  accumulator_consistent (snd (PacketParser.parse_spd_chunk packet self)).
Proof.
  intros Hinv.
  destruct (PacketParser.is_valid_packet packet) eqn:Hvalid.
  2:{ destruct (parse_spd_chunk_refuses packet self (or_introl Hvalid)) as [msg ->].
      exact Hinv. }
  destruct (decide (packet !!! 2%nat ∈ CR30Protocol.chunk_subcmds)) as [Hsub|Hsub].
  2:{ destruct (parse_spd_chunk_refuses packet self (or_intror (or_introl Hsub)))
        as [msg ->].
      exact Hinv. }
  destruct (decide (packet !!! 2%nat ∈ PacketParser._chunks_received self))
    as [Hin|Hnew].
  { destruct (parse_spd_chunk_refuses packet self (or_intror (or_intror Hin)))
      as [msg ->].
    exact Hinv. }
  destruct (parse_spd_chunk_accepts packet self Hvalid Hsub Hnew)
    as (chunk_info & _ & _ & ->).
  cbn [snd]. destruct Hinv as (Hsubset & Hspd & Hinfo).
  pose proof (proj1 (is_valid_packet_structure packet) Hvalid) as [Hlen _].
  assert (length (slice 6 54 packet) = 48%nat) as H48.
  { rewrite <- spd_data_offsets. apply length_spd_data, Hlen. }
  pose proof (received_0 _ _ Hnew) as Hzero.
  unfold accumulator_consistent.
  cbn [PacketParser._chunks_received PacketParser._spd_bytes
       PacketParser._chunk_info_list].
  rewrite !received_union, !length_app. cbn [length].
  unfold CR30Protocol.chunk_subcmds in Hsub.
  repeat (apply elem_of_cons in Hsub; destruct Hsub as [E | Hsub]);
    [| | | |apply elem_of_nil in Hsub; contradiction];
    rewrite E in *; cbn [Z.eqb Pos.eqb];
    (split;
       [apply union_subseteq; split; [|exact Hsubset];
        apply singleton_subseteq_l;
        rewrite !elem_of_union, !elem_of_singleton; tauto|]);
    rewrite ?H48; cbn [length];
    repeat case_bool_decide; lia.
Qed.

Lemma feed_chunks_consistent (packets : list bytes) (self : PacketParser.t) :
  accumulator_consistent self -> accumulator_consistent (feed_chunks packets self).
Proof.
  revert self. induction packets as [|packet packets IH]; intros self Hinv.
  - exact Hinv.
  - apply IH, parse_spd_chunk_consistent, Hinv.
Qed.

Lemma received_le_1 (s : Z) (self : PacketParser.t) : (received s self <= 1)%nat.
Proof. unfold received. case_bool_decide; lia. Qed.

Lemma is_spd_complete_received (self : PacketParser.t) :
  PacketParser.is_spd_complete self = true
  <-> (received 0x10 self + received 0x11 self + received 0x12 self
       + received 0x13 self = 4)%nat.
Proof.
  unfold PacketParser.is_spd_complete, received.
  rewrite bool_decide_eq_true.
  assert (({[0x10; 0x11; 0x12; 0x13]} : gset Z) ⊆ PacketParser._chunks_received self
          <-> 0x10 ∈ PacketParser._chunks_received self
              /\ 0x11 ∈ PacketParser._chunks_received self
              /\ 0x12 ∈ PacketParser._chunks_received self
              /\ 0x13 ∈ PacketParser._chunks_received self) as ->.
  { rewrite !union_subseteq, !singleton_subseteq_l. tauto. }
  repeat case_bool_decide; split; intros Hgoal; try lia; tauto.
Qed.

(** X7.  Whatever packets are fed to [parse_spd_chunk] after
    [reset_spd_collection], only the four chunk subcommands are marked as
    received, the accumulator holds 48 bytes for each of the chunks [0x10],
    [0x11], [0x12] that was received, so at most 144, and there is one
    diagnostic entry per received chunk; [is_spd_complete] holds exactly
    when there are four entries, and then 144 bytes are accumulated. *)
Theorem chunk_accumulator_invariant (packets : list bytes) (parser : PacketParser.t) :
  let self := feed_chunks packets (PacketParser.reset_spd_collection parser) in
  PacketParser._chunks_received self ⊆ {[0x10; 0x11; 0x12; 0x13]}
  /\ length (PacketParser.get_accumulated_spd self)
     = (48 * (received 0x10 self + received 0x11 self + received 0x12 self))%nat
  /\ length (PacketParser.get_chunks_info self)
     = (received 0x10 self + received 0x11 self + received 0x12 self
        + received 0x13 self)%nat
  /\ (length (PacketParser.get_accumulated_spd self) <= 144)%nat
  /\ (PacketParser.is_spd_complete self = true
      <-> length (PacketParser.get_chunks_info self) = 4%nat)
  /\ (PacketParser.is_spd_complete self = true ->
      length (PacketParser.get_accumulated_spd self) = 144%nat).
Proof.
  intros self.
  assert (accumulator_consistent self) as (Hsubset & Hspd & Hinfo).
  { apply feed_chunks_consistent. unfold accumulator_consistent. cbn.
    split; [apply empty_subseteq|]. split; reflexivity. }
  unfold PacketParser.get_accumulated_spd, PacketParser.get_chunks_info.
  pose proof (received_le_1 0x10 self) as H10.
  pose proof (received_le_1 0x11 self) as H11.
  pose proof (received_le_1 0x12 self) as H12.
  pose proof (received_le_1 0x13 self) as H13.
  pose proof (is_spd_complete_received self) as Hcomplete.
  split; [exact Hsubset|]. split; [exact Hspd|]. split; [exact Hinfo|].
  split; [lia|]. split; [rewrite Hinfo; exact Hcomplete|].
  intros H. apply Hcomplete in H. lia.
Qed.

(** ** Identification strings *)

Lemma slice_payload (lo hi : nat) (d : bytes) :
  (hi <= 52)%nat ->
  slice lo hi (CR30Packet.payload (CR30Packet.mk d)) = slice (4 + lo) (4 + hi) d.
Proof.
  intros Hhi.
  unfold CR30Packet.payload, slice, CR30Packet.PAYLOAD_START, CR30Packet.PAYLOAD_END.
  cbn [CR30Packet._data].
  rewrite skipn_firstn_comm, take_take, drop_drop.
  f_equal. lia.
Qed.

Lemma length_decode_ascii_ignore (bs : bytes) :
  (String.length (decode_ascii_ignore bs) <= length bs)%nat.
Proof.
  unfold decode_ascii_ignore.
  assert (forall l : list ascii, String.length (string_of_list_ascii l) = length l) as ->.
  { induction l as [|a l IH]; simpl; congruence. }
  rewrite length_map. apply length_filter.
Qed.

Lemma length_lstrip (c : ascii) (s : string) :
  (String.length (lstrip c s) <= String.length s)%nat.
Proof.
  induction s as [|a s IH]; simpl; [lia|].
  destruct (Ascii.eqb a c); simpl; lia.
Qed.

Lemma length_rstrip (c : ascii) (s : string) :
  (String.length (rstrip c s) <= String.length s)%nat.
Proof.
  induction s as [|a s IH]; simpl; [lia|].
  destruct (rstrip c s); [destruct (Ascii.eqb a c)|]; simpl in *; lia.
Qed.

Lemma length_strip (c : ascii) (s : string) :
  (String.length (strip c s) <= String.length s)%nat.
Proof.
  unfold strip. pose proof (length_rstrip c (lstrip c s)).
  pose proof (length_lstrip c s). lia.
Qed.

Lemma lstrip_head (c : ascii) (s t : string) : lstrip c s <> String c t.
Proof.
  induction s as [|a s IH]; simpl; [discriminate|].
  destruct (Ascii.eqb_spec a c) as [->|Hne]; [exact IH|].
  intros H. injection H as H _. contradiction.
Qed.

Lemma rstrip_head (c : ascii) (s : string) :
  (forall t, s <> String c t) -> forall t, rstrip c s <> String c t.
Proof.
  destruct s as [|a s]; simpl; [discriminate|].
  intros H t. assert (a <> c) as Hne by (intros ->; exact (H s eq_refl)).
  destruct (rstrip c s); [rewrite (proj2 (Ascii.eqb_neq a c) Hne)|];
    intros E; injection E as E _; contradiction.
Qed.

Lemma rstrip_last (c : ascii) (s t : string) :
  rstrip c s <> (t +:+ String c EmptyString)%string.
Proof.
  revert t. induction s as [|a s IH]; intros t; simpl.
  - destruct t; discriminate.
  - destruct (rstrip c s) as [|b r] eqn:E.
    + destruct (Ascii.eqb_spec a c) as [->|Hne].
      * destruct t; discriminate.
      * destruct t as [|x [|y t]]; simpl; try discriminate.
        intros H. injection H as H. contradiction.
    + destruct t as [|x t]; simpl; [discriminate|].
      intros H. injection H as _ H. exact (IH t H).
Qed.

(** A stripped string neither starts nor ends with the stripped
    character, and is no longer than the string it comes from. *)
Lemma strip_spec (c : ascii) (s : string) :
  (forall t, strip c s <> String c t)
  /\ (forall t, strip c s <> (t +:+ String c EmptyString)%string)
  /\ (String.length (strip c s) <= String.length s)%nat.
Proof.
  split; [|split].
  - apply rstrip_head. apply lstrip_head.
  - intros t. apply rstrip_last.
  - apply length_strip.
Qed.

Lemma length_info_string (field : bytes) :
  (String.length (PacketParser.info_string field) <= length field)%nat.
Proof.
  unfold PacketParser.info_string.
  pose proof (length_strip NUL (decode_ascii_ignore field)).
  pose proof (length_decode_ascii_ignore field). lia.
Qed.

(** X8.  For a structurally valid reply to the name query ([cmd 0x0A],
    [subcmd 0x00]), [parse_device_info] and the handshake's [_parse_name]
    read the same strings: the name from bytes 9 to 33 of the frame and the
    model from bytes 39 to 48, bytes above 127 dropped and [NUL]s stripped
    at both ends.  The name has at most 25 characters, the model at most
    10, and the name neither starts nor ends with [NUL]. *)
Theorem name_reply_is_read_from_bytes_9_to_33_and_39_to_48
    (packet : bytes) (i : CR30Device.info) :
  PacketParser.is_valid_packet packet = true ->
  packet !!! 1%nat = 0x0A -> packet !!! 2%nat = 0x00 ->
  let name := PacketParser.info_string (slice 9 34 packet) in
  let model := PacketParser.info_string (slice 39 49 packet) in
  exists (info : gmap string value) (payload : bytes),
    PacketParser.parse_device_info packet = Ok info
    /\ info !! "name" = Some (VStr name)
    /\ info !! "model" = Some (VStr model)
    /\ PacketParser.extract_payload packet = Ok payload
    /\ CR30Device._device_name (CR30Device._parse_name payload i) = Some name
    /\ CR30Device._device_model (CR30Device._parse_name payload i) = Some model
    /\ (String.length name <= 25)%nat
    /\ (String.length model <= 10)%nat
    /\ (forall t, name <> String NUL t)
    /\ (forall t, name <> (t +:+ String NUL EmptyString)%string).
Proof.
  intros Hvalid Hcmd Hsub name model.
  pose proof (proj1 (is_valid_packet_structure packet) Hvalid) as [Hlen _].
  pose proof (slice_payload 5 30 packet ltac:(lia)) as Hname.
  pose proof (slice_payload 35 45 packet ltac:(lia)) as Hmodel.
  unfold PacketParser.parse_device_info, PacketParser.extract_payload.
  rewrite (parse_packet_valid packet Hvalid). cbn [mbind outcome_bind].
  change (CR30Packet.cmd (CR30Packet.mk packet)) with (packet !!! 1%nat).
  change (CR30Packet.subcmd (CR30Packet.mk packet)) with (packet !!! 2%nat).
  rewrite Hcmd, Hsub. cbn [Z.eqb Pos.eqb].
  eexists _, (CR30Packet.payload (CR30Packet.mk packet)). split; [reflexivity|].
  unfold CR30Device._parse_name.
  cbn [CR30Device._device_name CR30Device._device_model].
  rewrite Hname, Hmodel. change (4 + 5)%nat with 9%nat.
  change (4 + 30)%nat with 34%nat. change (4 + 35)%nat with 39%nat.
  change (4 + 45)%nat with 49%nat. fold name. fold model.
  split; [rewrite lookup_insert_ne by discriminate; apply lookup_insert_eq|].
  split; [apply lookup_insert_eq|].
  split; [reflexivity|]. split; [reflexivity|]. split; [reflexivity|].
  assert (length (slice 9 34 packet) = 25%nat) as H25
    by (unfold slice; rewrite length_take, length_drop; lia).
  assert (length (slice 39 49 packet) = 10%nat) as H10
    by (unfold slice; rewrite length_take, length_drop; lia).
  pose proof (length_info_string (slice 9 34 packet)) as Hn.
  pose proof (length_info_string (slice 39 49 packet)) as Hm.
  destruct (strip_spec NUL (decode_ascii_ignore (slice 9 34 packet)))
    as (Hhead & Hlast & _).
  split; [subst name; lia|]. split; [subst model; lia|].
  split; [exact Hhead | exact Hlast].
Qed.

Lemma name_reply_is_read_from_bytes_9_to_33_and_39_to_48_witness :
  exists (info : gmap string value) (payload : bytes),
    PacketParser.parse_device_info device_name_frame = Ok info
    /\ info !! "name" = Some (VStr "SD6870B667")
    /\ info !! "model" = Some (VStr "CR30")
    /\ PacketParser.extract_payload device_name_frame = Ok payload
    /\ CR30Device.name
         (CR30Device._parse_name payload (CR30Device.mk_info None None None None None))
       = "SD6870B667"%string
    /\ CR30Device.model
         (CR30Device._parse_name payload (CR30Device.mk_info None None None None None))
       = "CR30"%string.
Proof.
  destruct (name_reply_is_read_from_bytes_9_to_33_and_39_to_48 device_name_frame
              (CR30Device.mk_info None None None None None) eq_refl eq_refl eq_refl)
    as (info & payload & Hinfo & Hname & Hmodel & Hpayload & Hn & Hm & _).
  exists info, payload. unfold CR30Device.name, CR30Device.model. rewrite Hn, Hm.
  repeat split; assumption.
Defined.

(** ** The reader task, in full *)

Lemma receive_loop_short cbs (reader : bytes) (frames : list bytes) :
  (length reader < 60)%nat -> CR30Device._receive_loop cbs reader frames = frames.
Proof.
  intros Hshort. funelim (CR30Device._receive_loop cbs reader frames).
  - match goal with
    | H : CR30Device.readexactly 60 _ = Ok _ |- _ =>
        pose proof H as Hread'; unfold CR30Device.readexactly in Hread';
        rewrite (proj2 (Nat.ltb_lt _ _) Hshort) in Hread'; discriminate Hread'
    end.
  - reflexivity.
Qed.

Lemma chunks60_short (reader : bytes) :
  (length reader < 60)%nat -> chunks60 reader = [].
Proof.
  intros H. unfold chunks60. rewrite Nat.div_small by exact H. reflexivity.
Qed.

Lemma chunks60_app (chunk rest : bytes) :
  length chunk = 60%nat -> chunks60 (chunk ++ rest) = chunk :: chunks60 rest.
Proof.
  intros H. unfold chunks60. rewrite length_app, H.
  replace ((60 + length rest) / 60)%nat with (S (length rest / 60)).
  - cbn [replicate reshape].
    rewrite take_app_length', drop_app_length' by (symmetry; exact H). reflexivity.
  - change 60%nat with (1 * 60)%nat at 2. rewrite Nat.div_add_l by lia. lia.
Qed.

Lemma receive_loop_filter cbs (n : nat) :
  forall (reader : bytes) (frames : list bytes),
    (length reader < 60 * S n)%nat ->
    Forall (fun chunk => CR30Device.run_raw_callbacks cbs chunk = Ok tt)
           (filter (fun chunk => PacketParser.is_valid_packet chunk = true)
                   (chunks60 reader)) ->
    CR30Device._receive_loop cbs reader frames
    = frames ++ filter (fun chunk => PacketParser.is_valid_packet chunk = true)
                       (chunks60 reader).
Proof.
  induction n as [|n IH]; intros reader frames Hlen Hcbs.
  - rewrite receive_loop_short, chunks60_short by lia.
    rewrite filter_nil, app_nil_r. reflexivity.
  - destruct (Nat.lt_ge_cases (length reader) 60) as [Hshort|Hlong].
    { rewrite receive_loop_short, chunks60_short by lia.
      rewrite filter_nil, app_nil_r. reflexivity. }
    rewrite <- (take_drop 60 reader) in Hcbs |- *.
    assert (length (take 60 reader) = 60%nat) as H60 by (rewrite length_take; lia).
    rewrite chunks60_app in Hcbs |- * by exact H60.
    rewrite receive_loop_step by exact H60.
    rewrite filter_cons in Hcbs |- *.
    assert (length (drop 60 reader) < 60 * S n)%nat as Hrest
      by (rewrite length_drop; lia).
    destruct (decide (PacketParser.is_valid_packet (take 60 reader) = true))
      as [Hvalid|Hinvalid].
    + rewrite Hvalid. apply Forall_cons in Hcbs as [Hcb Hcbs]. rewrite Hcb.
      rewrite (IH _ _ Hrest Hcbs), <- (assoc_L (++)). reflexivity.
    + apply not_true_is_false in Hinvalid. rewrite Hinvalid.
      apply (IH _ _ Hrest Hcbs).
Qed.

(** X9.  While the observers return, the receive loop enqueues exactly the
    60-byte chunks of the stream that [is_valid_packet] accepts, in the
    order of the stream; a rest shorter than 60 bytes is dropped.  When an
    observer raises on a valid chunk, that chunk is still enqueued and the
    loop ends: nothing of the rest of the stream is enqueued. *)
Theorem receive_loop_enqueues_the_valid_chunks_in_order
    (cbs : list (bytes -> outcome unit)) (frames : list bytes) :
  (forall reader : bytes,
     Forall (fun chunk => CR30Device.run_raw_callbacks cbs chunk = Ok tt)
            (filter (fun chunk => PacketParser.is_valid_packet chunk = true)
                    (chunks60 reader)) ->
     CR30Device._receive_loop cbs reader frames
     = frames ++ filter (fun chunk => PacketParser.is_valid_packet chunk = true)
                        (chunks60 reader))
  /\ (forall (chunk rest : bytes) (e : exn),
        PacketParser.is_valid_packet chunk = true ->
        CR30Device.run_raw_callbacks cbs chunk = Raise e ->
        CR30Device._receive_loop cbs (chunk ++ rest) frames = frames ++ [chunk]).
Proof.
  split.
  - intros reader Hcbs. apply (receive_loop_filter cbs (length reader)); [lia | exact Hcbs].
  - intros chunk rest e Hvalid Hraise.
    pose proof (proj1 (is_valid_packet_structure chunk) Hvalid) as [Hlen _].
    rewrite receive_loop_step by exact Hlen. rewrite Hvalid, Hraise. reflexivity.
Qed.

Lemma receive_loop_enqueues_the_valid_chunks_in_order_witness :
  CR30Device._receive_loop [] (device_name_frame ++ replicate 60 0
                               ++ chunk_0x10_frame ++ [0xBB; 0x01]) []
  = [device_name_frame; chunk_0x10_frame]
  /\ CR30Device._receive_loop [fun _ => Raise (ValueError "observer")]
       (device_name_frame ++ chunk_0x10_frame) []
     = [device_name_frame].
Proof.
  destruct (receive_loop_enqueues_the_valid_chunks_in_order [] []) as [Hall _].
  destruct (receive_loop_enqueues_the_valid_chunks_in_order
              [fun _ => Raise (ValueError "observer")] []) as [_ Hraise].
  split.
  - rewrite Hall; [reflexivity|]. apply Forall_forall. reflexivity.
  - apply (Hraise device_name_frame chunk_0x10_frame (ValueError "observer"));
      reflexivity.
Defined.

(** ** Requests and replies *)

(** A request is built and written, then the oldest frame of the queue,
    extended by what arrives during the wait, is taken. *)
Lemma send_recv_spec (start cmd subcmd param : Z) (data : option bytes)
    (self : CR30Device.t) :
  start = 0xAA \/ start = 0xBB ->
  (length (payload_of data) <= 52)%nat ->
  let queue := CR30Device._frames self ++ hd [] (CR30Device.arrivals self) in
  CR30Device.send_recv start cmd subcmd param data self
  = (Ok (head queue),
     CR30Device.mk
       (CR30Device.writer self
        ++ [encoded_frame start cmd subcmd param (payload_of data)])
       (tail queue) (tl (CR30Device.arrivals self))
       (CR30Device._packet_parser self)).
Proof.
  intros Hstart Hlen queue.
  unfold CR30Device.send_recv, CR30Device.send, CR30Device.build_packet.
  rewrite (build_packet_encoded_frame _ _ _ _ _ Hstart Hlen).
  unfold mbind, CR30Device.M_bind, CR30Device.send_raw, CR30Device.recv.
  cbn [CR30Device.arrivals CR30Device.set_writer CR30Device._frames
       CR30Device.set_arrivals CR30Device.writer CR30Device._packet_parser].
  fold queue. destruct queue; reflexivity.
Qed.

Lemma valid_frames_queue (self : CR30Device.t) :
  valid_frames (CR30Device._frames self) ->
  Forall valid_frames (CR30Device.arrivals self) ->
  valid_frames (CR30Device._frames self ++ hd [] (CR30Device.arrivals self))
  /\ Forall valid_frames (tl (CR30Device.arrivals self)).
Proof.
  intros Hq Ha. destruct (CR30Device.arrivals self) as [|batch rest]; cbn [hd tl].
  - split; [rewrite app_nil_r; exact Hq | constructor].
  - apply Forall_cons in Ha as [Hb Hrest]. split; [|exact Hrest].
    apply Forall_app; auto.
Qed.

Lemma drop_tl {A} (n : nat) (a : list A) : drop n (tl a) = drop (S n) a.
Proof. destruct a; [cbn [tl]; rewrite !drop_nil|]; reflexivity. Qed.

Lemma quiet_arrivals (n : nat) (a : list (list bytes)) :
  Forall (eq []) (take (S n) a) -> hd [] a = [] /\ Forall (eq []) (take n (tl a)).
Proof.
  destruct a as [|batch rest]; cbn [take hd tl].
  - intros _. rewrite take_nil. split; [reflexivity | constructor].
  - intros H. apply Forall_cons in H as [<- H]. auto.
Qed.

Lemma for_aa_commands_spec
    (commands : list (Z * option (bytes -> CR30Device.info -> CR30Device.info))) :
  forall (i : CR30Device.info) (self : CR30Device.t),
    valid_frames (CR30Device._frames self) ->
    Forall valid_frames (CR30Device.arrivals self) ->
    exists (i' : CR30Device.info) (self' : CR30Device.t),
      CR30Device.for_aa_commands commands i self = (Ok i', self')
      /\ CR30Device.writer self'
         = CR30Device.writer self
           ++ map (fun command => encoded_frame 0xAA 0x0A (fst command) 0x00 []) commands
      /\ CR30Device.arrivals self'
         = drop (length commands) (CR30Device.arrivals self)
      /\ CR30Device._packet_parser self' = CR30Device._packet_parser self
      /\ (CR30Device._frames self = [] ->
          Forall (eq []) (take (length commands) (CR30Device.arrivals self)) ->
          i' = i /\ CR30Device._frames self' = []).
Proof.
  induction commands as [|[subcmd parse] commands IH]; intros i self Hq Ha.
  - exists i, self. cbn [CR30Device.for_aa_commands map length drop take].
    rewrite app_nil_r. repeat split; auto.
  - cbn [CR30Device.for_aa_commands]. unfold mbind at 1, CR30Device.M_bind at 1.
    rewrite (send_recv_spec 0xAA 0x0A subcmd 0x00 None self)
      by (simpl; auto; lia).
    cbv zeta. cbn [payload_of].
    destruct (valid_frames_queue self Hq Ha) as [Hqueue Hrest].
    destruct self as [w q a p].
    cbn [CR30Device.writer CR30Device._frames CR30Device.arrivals
         CR30Device._packet_parser] in *.
    assert (forall (i1 : CR30Device.info) (queue : list bytes),
              valid_frames queue ->
              (q = [] -> Forall (eq []) (take (S (length commands)) a) ->
               i1 = i /\ queue = []) ->
              exists (i' : CR30Device.info) (self' : CR30Device.t),
                CR30Device.for_aa_commands commands i1
                  (CR30Device.mk (w ++ [encoded_frame 0xAA 0x0A subcmd 0x00 []])
                     queue (tl a) p)
                = (Ok i', self')
                /\ CR30Device.writer self'
                   = w ++ map (fun command => encoded_frame 0xAA 0x0A (fst command) 0x00 [])
                              ((subcmd, parse) :: commands)
                /\ CR30Device.arrivals self' = drop (S (length commands)) a
                /\ CR30Device._packet_parser self' = p
                /\ (q = [] -> Forall (eq []) (take (S (length commands)) a) ->
                    i' = i /\ CR30Device._frames self' = [])) as Hnext.
    { intros i1 queue Hvq Hi1.
      destruct (IH i1 (CR30Device.mk (w ++ [encoded_frame 0xAA 0x0A subcmd 0x00 []])
                         queue (tl a) p) Hvq Hrest)
        as (i' & self' & Heq & Hw & Harr & Hp & Hsilent).
      cbn [CR30Device.writer CR30Device._frames CR30Device.arrivals
           CR30Device._packet_parser] in *.
      exists i', self'. split; [exact Heq|].
      split; [rewrite Hw; cbn [map fst]; rewrite <- (assoc_L (++)); reflexivity|].
      split; [rewrite Harr; apply drop_tl|]. split; [exact Hp|].
      intros Hempty Hquiet. destruct (Hi1 Hempty Hquiet) as [-> Hqe].
      destruct (quiet_arrivals _ _ Hquiet) as [_ Hquiet'].
      exact (Hsilent Hqe Hquiet'). }
    cbn [length].
    destruct (q ++ hd [] a) as [|response queue] eqn:Equeue; cbn [head tail].
    { apply Hnext; [constructor | auto]. }
    apply Forall_cons in Hqueue as [Hvalid Hqueue].
    assert (q = [] -> Forall (eq []) (take (S (length commands)) a) ->
            forall i1 : CR30Device.info, i1 = i /\ queue = []) as Hcontra.
    { intros -> Hquiet. destruct (quiet_arrivals _ _ Hquiet) as [Hb _].
      rewrite Hb in Equeue. discriminate Equeue. }
    pose proof (proj1 (is_valid_packet_structure response) Hvalid) as [Hlen _].
    rewrite Hlen. cbn [Nat.ltb Nat.leb].
    unfold mbind, CR30Device.M_bind, CR30Device._extract_payload_bytes,
      PacketParser.extract_payload.
    rewrite (parse_packet_valid response Hvalid). cbn [mbind outcome_bind].
    destruct parse as [parse|]; apply Hnext; auto.
Qed.

Lemma for_idx_spec (idxs : list Z) :
  forall self : CR30Device.t,
    exists self' : CR30Device.t,
      CR30Device.for_idx idxs self = (Ok tt, self')
      /\ CR30Device.writer self'
         = CR30Device.writer self
           ++ map (fun idx => encoded_frame 0xBB 0x28 0x00 idx []) idxs
      /\ CR30Device.arrivals self' = drop (length idxs) (CR30Device.arrivals self)
      /\ CR30Device._packet_parser self' = CR30Device._packet_parser self.
Proof.
  induction idxs as [|idx idxs IH]; intros self.
  - exists self. cbn. rewrite app_nil_r. auto.
  - cbn [CR30Device.for_idx]. unfold mbind at 1, CR30Device.M_bind at 1.
    rewrite (send_recv_spec 0xBB 0x28 0x00 idx None self) by (simpl; auto; lia).
    cbv zeta. cbn [payload_of].
    match goal with
    | |- context [CR30Device.for_idx idxs ?s] => destruct (IH s) as (self' & -> & Hw & Ha & Hp)
    end.
    exists self'. split; [reflexivity|]. cbn [CR30Device.writer CR30Device.arrivals
      CR30Device._packet_parser] in *.
    split; [rewrite Hw, <- (assoc_L (++)); reflexivity|].
    split; [rewrite Ha; cbn [length]; apply drop_tl | exact Hp].
Qed.

(** X10.  When the frames that arrive are structurally valid, the
    handshake raises nothing, whatever the replies are and whether they
    come or not.  It writes the same eleven requests in the same order,
    waits once for each, leaves the parser alone, and changes no attribute
    of the device when the four information queries stay unanswered. *)
Theorem handshake_sends_eleven_requests (i : CR30Device.info) (self : CR30Device.t) :
  Forall valid_frames (CR30Device.arrivals self) ->
  exists (i' : CR30Device.info) (self' : CR30Device.t),
    CR30Device.handshake i self = (Ok i', self')
    /\ CR30Device.writer self' = CR30Device.writer self ++ handshake_requests
    /\ CR30Device.arrivals self' = drop 11 (CR30Device.arrivals self)
    /\ CR30Device._packet_parser self' = CR30Device._packet_parser self
    /\ (Forall (eq []) (take 4 (CR30Device.arrivals self)) -> i' = i).
Proof.
  intros Ha. unfold CR30Device.handshake.
  unfold mbind at 1, CR30Device.M_bind at 1, CR30Device.flush_recv.
  unfold mbind at 1, CR30Device.M_bind at 1.
  destruct (for_aa_commands_spec CR30Device.aa_commands i
              (CR30Device.set_frames [] self) ltac:(constructor) Ha)
    as (i' & self1 & -> & Hw1 & Ha1 & Hp1 & Hsilent).
  cbn [CR30Device.set_frames CR30Device.writer CR30Device.arrivals
       CR30Device._frames CR30Device._packet_parser] in *.
  unfold mbind at 1, CR30Device.M_bind at 1.
  rewrite (send_recv_spec 0xBB 0x17 0x00 0x00 None self1) by (simpl; auto; lia).
  cbv zeta. cbn [payload_of].
  unfold mbind at 1, CR30Device.M_bind at 1.
  rewrite (send_recv_spec 0xBB 0x13 0x00 0x00 (Some CR30Device.Check_data))
    by (simpl; auto; lia).
  cbv zeta. cbn [payload_of CR30Device.writer CR30Device.arrivals
                 CR30Device._frames CR30Device._packet_parser].
  unfold mbind at 1, CR30Device.M_bind at 1.
  match goal with
  | |- context [CR30Device.for_idx ?idxs ?s] =>
      destruct (for_idx_spec idxs s) as (self' & -> & Hw & Harr & Hp)
  end.
  cbn [CR30Device.writer CR30Device.arrivals CR30Device._packet_parser] in *.
  exists i', self'. split; [reflexivity|].
  split.
  { rewrite Hw, Hw1. unfold handshake_requests, CR30Device.aa_commands.
    cbn [map fst]. rewrite <- !(assoc_L (++)). reflexivity. }
  split.
  { rewrite Harr, !drop_tl, Ha1, drop_drop. reflexivity. }
  split; [rewrite Hp; exact Hp1|].
  intros Hquiet. exact (proj1 (Hsilent eq_refl Hquiet)).
Qed.

Lemma handshake_sends_eleven_requests_witness :
  let unknown := CR30Device.mk_info None None None None None in
  (exists (i' : CR30Device.info) (self' : CR30Device.t),
     CR30Device.handshake unknown (fresh_device [[device_name_frame]]) = (Ok i', self')
     /\ CR30Device.writer self' = handshake_requests
     /\ CR30Device.name i' = "SD6870B667"%string
     /\ CR30Device.model i' = "CR30"%string
     /\ CR30Device.serial_number i' = "Unknown"%string)
  /\ exists self' : CR30Device.t,
       CR30Device.handshake unknown (fresh_device []) = (Ok unknown, self')
       /\ length (CR30Device.writer self') = 11%nat
       /\ CR30Device.name unknown = "Unknown"%string.
Proof.
  intros unknown. split.
  - destruct (handshake_sends_eleven_requests unknown (fresh_device [[device_name_frame]]))
      as (i' & self' & Heq & Hw & _).
    { repeat constructor. }
    exists i', self'. split; [exact Heq|]. split; [exact Hw|].
    assert (CR30Device.handshake unknown (fresh_device [[device_name_frame]])
            = (Ok (CR30Device._parse_name (slice 4 56 device_name_frame) unknown), self'))
      as Hcompute.
    { rewrite Heq. f_equal. f_equal. symmetry.
      assert (fst (CR30Device.handshake unknown (fresh_device [[device_name_frame]]))
              = Ok (CR30Device._parse_name (slice 4 56 device_name_frame) unknown))
        as Hfst by (vm_compute; reflexivity).
      rewrite Heq in Hfst. injection Hfst as ->. reflexivity. }
    rewrite Heq in Hcompute. injection Hcompute as ->.
    repeat split.
  - destruct (handshake_sends_eleven_requests unknown (fresh_device []))
      as (i' & self' & Heq & Hw & _ & _ & Hquiet).
    { constructor. }
    rewrite (Hquiet ltac:(constructor)) in Heq.
    exists self'. split; [exact Heq|]. split; [rewrite Hw; reflexivity | reflexivity].
Defined.

(** X11.  [calibrate] writes one request, [BB 11] for white and [BB 10]
    for black, and takes the oldest frame of the queue as the reply.
    Without a frame it raises [TimeoutError]; on a structurally valid
    frame it returns the status read from byte 5 of the frame, with
    [success] exactly when that byte is [0x01]; on any other frame it
    raises [ValueError]. *)
Theorem calibrate_reads_status_from_byte_5 (white : bool) (self : CR30Device.t) :
  let request := encoded_frame 0xBB (if white then 0x11 else 0x10) 0x00 0x00 [] in
  let queue := CR30Device._frames self ++ hd [] (CR30Device.arrivals self) in
  let self' :=
    CR30Device.mk (CR30Device.writer self ++ [request]) (tail queue)
      (tl (CR30Device.arrivals self)) (CR30Device._packet_parser self) in
  (head queue = None \/ head queue = Some [] ->
   CR30Protocol.calibrate white self
   = (Raise (TimeoutError "No response from calibration command"), self'))
  /\ (forall response : bytes,
        head queue = Some response ->
        PacketParser.is_valid_packet response = true ->
        CR30Protocol.calibrate white self
        = (Ok (CR30Protocol.mk_calibration (response !!! 5%nat =? 0x01)
                 (response !!! 5%nat) (hex response)),
           self'))
  /\ (forall response : bytes,
        head queue = Some response -> response <> [] ->
        PacketParser.is_valid_packet response = false ->
        exists msg : string,
          CR30Protocol.calibrate white self
          = (Raise (ValueError ("Invalid calibration response packet: "
                                +:+ "Failed to parse packet: " +:+ msg)),
             self')).
Proof.
  intros request queue self'.
  assert (CR30Device.send_recv 0xBB (if white then 17 else 16) 0 0 None self
          = (Ok (head queue), self')) as Hsr.
  { apply (send_recv_spec 0xBB (if white then 0x11 else 0x10) 0x00 0x00 None self);
      simpl; auto; lia. }
  unfold CR30Protocol.calibrate, mbind, CR30Device.M_bind. rewrite Hsr.
  split; [|split].
  - intros [-> | ->]; reflexivity.
  - intros response -> Hvalid.
    pose proof (proj1 (is_valid_packet_structure response) Hvalid) as [Hlen _].
    destruct response as [|b response]; [discriminate Hlen|].
    unfold PacketParser.extract_payload.
    rewrite (parse_packet_valid _ Hvalid). cbn [mbind outcome_bind].
    rewrite (length_payload _ Hlen). cbn [Nat.ltb Nat.leb].
    assert (CR30Packet.payload (CR30Packet.mk (b :: response)) !!! 1%nat
            = (b :: response) !!! 5%nat) as ->.
    { unfold CR30Packet.payload, slice, CR30Packet.PAYLOAD_START, CR30Packet.PAYLOAD_END.
      cbn [CR30Packet._data].
      rewrite lookup_total_take, lookup_total_drop. reflexivity. }
    reflexivity.
  - intros response -> Hne Hinvalid.
    destruct response as [|b response]; [contradiction|].
    destruct (parse_packet_invalid _ Hinvalid) as [msg Hparse].
    unfold PacketParser.extract_payload. rewrite Hparse. cbn [mbind outcome_bind].
    exists msg. reflexivity.
Qed.

Lemma calibrate_reads_status_from_byte_5_witness :
  let reply := encoded_frame 0xBB 0x11 0x00 0x00 [0; 1] in
  (exists self' : CR30Device.t,
     CR30Protocol.calibrate true (fresh_device [[reply]])
     = (Ok (CR30Protocol.mk_calibration true 1 (hex reply)), self')
     /\ CR30Device.writer self' = [encoded_frame 0xBB 0x11 0x00 0x00 []])
  /\ (exists self' : CR30Device.t,
        CR30Protocol.calibrate false (fresh_device [[]])
        = (Raise (TimeoutError "No response from calibration command"), self')
        /\ CR30Device.writer self' = [encoded_frame 0xBB 0x10 0x00 0x00 []]).
Proof.
  intros reply. split.
  - destruct (calibrate_reads_status_from_byte_5 true (fresh_device [[reply]]))
      as (_ & Hok & _).
    eexists. split; [apply (Hok reply); reflexivity | reflexivity].
  - destruct (calibrate_reads_status_from_byte_5 false (fresh_device [[]]))
      as (Htimeout & _).
    eexists. split; [apply Htimeout; left; reflexivity | reflexivity].
Defined.

(** X12.  [measure] writes the trigger [BB 01 00 00] and [wait_measurement]
    writes nothing; both then take the oldest frame of the queue as the
    header.  Without a frame they raise [TimeoutError]; on a frame that is
    not structurally valid they raise [ValueError] after the queue was
    emptied; on a structurally valid frame, whatever its command bytes
    are, they return a result. *)
Theorem measure_raises_or_returns
    (cbs1 cbs2 : list (CR30Protocol.measurement -> outcome unit))
    (self : CR30Device.t) :
  let trigger := encoded_frame 0xBB 0x01 0x00 0x00 [] in
  let queue := CR30Device._frames self ++ hd [] (CR30Device.arrivals self) in
  let waited :=
    CR30Device.mk (CR30Device.writer self) (tail queue)
      (tl (CR30Device.arrivals self)) (CR30Device._packet_parser self) in
  let triggered := CR30Device.set_writer (CR30Device.writer self ++ [trigger]) waited in
  (head queue = None \/ head queue = Some [] ->
   CR30Protocol.measure cbs1 cbs2 self
   = (Raise (TimeoutError "No header response after trigger (BB 01 00)."), triggered)
   /\ CR30Protocol.wait_measurement cbs1 cbs2 self
      = (Raise (TimeoutError "No button press detected"), waited))
  /\ (forall header : bytes,
        head queue = Some header -> header <> [] ->
        PacketParser.is_valid_packet header = false ->
        exists msg : string,
          let e := ValueError ("Invalid measurement header packet: "
                               +:+ "Failed to parse packet: " +:+ msg) in
          CR30Protocol.measure cbs1 cbs2 self
          = (Raise e, CR30Device.set_frames [] triggered)
          /\ CR30Protocol.wait_measurement cbs1 cbs2 self
             = (Raise e, CR30Device.set_frames [] waited))
  /\ (forall header : bytes,
        head queue = Some header ->
        PacketParser.is_valid_packet header = true ->
        exists (m m' : CR30Protocol.measurement) (self' self'' : CR30Device.t),
          CR30Protocol.measure cbs1 cbs2 self = (Ok m, self')
          /\ CR30Protocol.wait_measurement cbs1 cbs2 self = (Ok m', self'')).
Proof.
  intros trigger queue waited triggered.
  assert (CR30Device.send_recv 0xBB 0x01 0x00 0x00 None self
          = (Ok (head queue), triggered)) as Hsr.
  { apply (send_recv_spec 0xBB 0x01 0x00 0x00 None self); simpl; auto; lia. }
  assert (CR30Device.recv self = (Ok (head queue), waited)) as Hrecv.
  { unfold CR30Device.recv. cbn [CR30Device.set_arrivals CR30Device._frames
      CR30Device.arrivals]. fold queue. destruct queue; reflexivity. }
  unfold CR30Protocol.measure, CR30Protocol.wait_measurement, mbind, CR30Device.M_bind.
  rewrite Hsr, Hrecv.
  split; [|split].
  - intros [-> | ->]; split; reflexivity.
  - intros header -> Hne Hinvalid.
    destruct header as [|b header]; [contradiction|].
    destruct (parse_packet_invalid _ Hinvalid) as [msg Hparse].
    exists msg. cbv zeta.
    unfold CR30Protocol._read_measurement, mbind, CR30Device.M_bind,
      CR30Device.flush_recv.
    rewrite Hparse. split; reflexivity.
  - intros header -> Hvalid.
    pose proof (proj1 (is_valid_packet_structure header) Hvalid) as [Hlen _].
    destruct header as [|b header]; [discriminate Hlen|].
    pose proof (parse_packet_valid _ Hvalid) as Hparse.
    destruct (read_measurement_returns cbs1 cbs2 _ _ triggered Hparse)
      as (m & self' & Hm & _).
    destruct (read_measurement_returns cbs1 cbs2 _ _ waited Hparse)
      as (m' & self'' & Hm' & _).
    exists m, m', self', self''. split; assumption.
Qed.

Lemma measure_raises_or_returns_witness :
  (exists self' : CR30Device.t,
     CR30Protocol.measure [] [] (fresh_device [[]])
     = (Raise (TimeoutError "No header response after trigger (BB 01 00)."), self')
     /\ CR30Device.writer self' = [encoded_frame 0xBB 0x01 0x00 0x00 []])
  /\ (exists (msg : string) (self' : CR30Device.t),
        CR30Protocol.wait_measurement [] [] (fresh_device [[replicate 60 0]])
        = (Raise (ValueError msg), self'))
  /\ exists (m : CR30Protocol.measurement) (self' : CR30Device.t),
       CR30Protocol.wait_measurement [] [] (fresh_device [[chunk_0x10_frame]])
       = (Ok m, self').
Proof.
  split; [|split].
  - destruct (measure_raises_or_returns [] [] (fresh_device [[]])) as (Htimeout & _).
    destruct (Htimeout (or_introl eq_refl)) as [H _].
    eexists. split; [exact H | reflexivity].
  - destruct (measure_raises_or_returns [] [] (fresh_device [[replicate 60 0]]))
      as (_ & Hinvalid & _).
    destruct (Hinvalid (replicate 60 0) eq_refl ltac:(discriminate) eq_refl)
      as (msg & _ & H).
    eexists _, _. exact H.
  - destruct (measure_raises_or_returns [] [] (fresh_device [[chunk_0x10_frame]]))
      as (_ & _ & Hvalid).
    destruct (Hvalid chunk_0x10_frame eq_refl eq_refl) as (_ & m' & _ & self'' & _ & H).
    exists m', self''. exact H.
Defined.

(** One chunk request answered by a reply that the parser accepts. *)
Lemma read_chunk_accepts (subcmd : Z) (result : CR30Protocol.measurement)
    (self : CR30Device.t) (reply : bytes) (rest : list (list bytes)) :
  CR30Device._frames self = [] ->
  CR30Device.arrivals self = [reply] :: rest ->
  PacketParser.is_valid_packet reply = true ->
  reply !!! 2%nat ∈ CR30Protocol.chunk_subcmds ->
  reply !!! 2%nat ∉ PacketParser._chunks_received (CR30Device._packet_parser self) ->
  exists chunk_info : gmap string value,
    CR30Protocol.read_chunk subcmd result self
    = (Ok (CR30Protocol.Next
             (CR30Protocol.mk_measurement
                (CR30Protocol.result_header result)
                (CR30Protocol.result_chunks result ++ [chunk_info])
                (CR30Protocol.result_spd result)
                (<["0x" +:+ format_02X subcmd := hex (slice 4 56 reply)]>
                   (CR30Protocol.result_raw result))
                (CR30Protocol.result_spd_bytes result)
                (CR30Protocol.result_spd_data result))),
       CR30Device.mk
         (CR30Device.writer self ++ [encoded_frame 0xBB 0x01 subcmd 0x00 []])
         [] rest
         (PacketParser.mk
            (PacketParser._spd_bytes (CR30Device._packet_parser self)
             ++ (if reply !!! 2%nat =? 0x13 then [] else slice 6 54 reply))
            ({[reply !!! 2%nat]}
             ∪ PacketParser._chunks_received (CR30Device._packet_parser self))
            (PacketParser._chunk_info_list (CR30Device._packet_parser self)
             ++ [chunk_info]))).
Proof.
  intros Hq Ha Hvalid Hsub Hnew.
  destruct (parse_spd_chunk_accepts reply _ Hvalid Hsub Hnew)
    as (chunk_info & Hpayload & _ & Hparse).
  exists chunk_info.
  unfold CR30Protocol.read_chunk, mbind, CR30Device.M_bind.
  rewrite (send_recv_spec 0xBB 0x01 subcmd 0x00 None self) by (simpl; auto; lia).
  cbv zeta. rewrite Hq, Ha. cbn [hd tl app head tail payload_of].
  pose proof (proj1 (is_valid_packet_structure reply) Hvalid) as [Hlen _].
  destruct reply as [|b reply]; [discriminate Hlen|].
  unfold CR30Device.try_except_ValueError, CR30Device.on_parser.
  cbn [CR30Device._packet_parser]. rewrite Hparse.
  cbn [CR30Device.set_packet_parser CR30Device.writer CR30Device._frames
       CR30Device.arrivals].
  rewrite Hpayload. reflexivity.
Qed.

Lemma parse_spd_data_at_least_124 (result : CR30Protocol.measurement) (spd_bytes : bytes) :
  (124 <= length spd_bytes)%nat ->
  CR30Protocol._parse_spd_data result spd_bytes
  = CR30Protocol.mk_measurement
      (CR30Protocol.result_header result) (CR30Protocol.result_chunks result)
      (le_words (take 124 spd_bytes)) (CR30Protocol.result_raw result)
      (CR30Protocol.result_spd_bytes result)
      (Some (CR30Protocol.dict_zip CR30Protocol.wavelengths
               (le_words (take 124 spd_bytes)))).
Proof.
  intros Hlen. unfold CR30Protocol._parse_spd_data.
  destruct (Nat.ltb_spec (length spd_bytes) 124) as [Hlt|_]; [lia|].
  change (slice 0 124 spd_bytes) with (take 124 spd_bytes).
  unfold struct_unpack_f. rewrite length_take, Nat.min_l by exact Hlen.
  reflexivity.
Qed.

Lemma length_le_words (n : nat) :
  forall bs : bytes, length bs = (4 * n)%nat -> length (le_words bs) = n.
Proof.
  induction n as [|n IH]; intros bs Hlen.
  - destruct bs; [reflexivity | discriminate Hlen].
  - destruct bs as [|b0 [|b1 [|b2 [|b3 bs]]]]; cbn [length] in Hlen; try lia.
    cbn [le_words length]. f_equal. apply IH. lia.
Qed.

(** X13.  When the header and the four chunk replies arrive one after
    the other, each structurally valid and with the subcommand that was
    requested, [measure] returns the 31 values decoded from the first 124
    of the 144 bytes made of bytes 6 to 53 of the replies [0x10], [0x11]
    and [0x12]; the result has four chunk entries, five requests were
    written in order, and the parser has all four chunks. *)
Theorem measure_decodes_curve_from_data_chunks
    (cbs1 cbs2 : list (CR30Protocol.measurement -> outcome unit))
    (self : CR30Device.t) (header c10 c11 c12 c13 : bytes) (rest : list (list bytes)) :
  CR30Device._frames self = [] ->
  CR30Device.arrivals self = [header] :: [c10] :: [c11] :: [c12] :: [c13] :: rest ->
  valid_frames [header; c10; c11; c12; c13] ->
  c10 !!! 2%nat = 0x10 -> c11 !!! 2%nat = 0x11 ->
  c12 !!! 2%nat = 0x12 -> c13 !!! 2%nat = 0x13 ->
  let spd_bytes := slice 6 54 c10 ++ slice 6 54 c11 ++ slice 6 54 c12 in
  exists (m : CR30Protocol.measurement) (self' : CR30Device.t),
    CR30Protocol.measure cbs1 cbs2 self = (Ok m, self')
    /\ CR30Protocol.result_spd m = le_words (take 124 spd_bytes)
    /\ length (CR30Protocol.result_spd m) = 31%nat
    /\ CR30Protocol.result_spd_data m
       = Some (CR30Protocol.dict_zip CR30Protocol.wavelengths
                 (le_words (take 124 spd_bytes)))
    /\ CR30Protocol.result_spd_bytes m = Some (hex spd_bytes)
    /\ length (CR30Protocol.result_chunks m) = 4%nat
    /\ CR30Device.writer self'
       = CR30Device.writer self
         ++ [encoded_frame 0xBB 0x01 0x00 0x00 []; encoded_frame 0xBB 0x01 0x10 0x00 [];
             encoded_frame 0xBB 0x01 0x11 0x00 []; encoded_frame 0xBB 0x01 0x12 0x00 [];
             encoded_frame 0xBB 0x01 0x13 0x00 []]
    /\ CR30Device.arrivals self' = rest
    /\ PacketParser.is_spd_complete (CR30Device._packet_parser self') = true.
Proof.
  intros Hq Ha Hvalid H10 H11 H12 H13 spd_bytes.
  apply Forall_cons in Hvalid as [Vh Hvalid].
  apply Forall_cons in Hvalid as [V10 Hvalid].
  apply Forall_cons in Hvalid as [V11 Hvalid].
  apply Forall_cons in Hvalid as [V12 Hvalid].
  apply Forall_cons in Hvalid as [V13 _].
  pose proof (proj1 (is_valid_packet_structure header) Vh) as [Lh _].
  pose proof (proj1 (is_valid_packet_structure c10) V10) as [L10 _].
  pose proof (proj1 (is_valid_packet_structure c11) V11) as [L11 _].
  pose proof (proj1 (is_valid_packet_structure c12) V12) as [L12 _].
  assert (length spd_bytes = 144%nat) as Hlen.
  { subst spd_bytes. unfold slice. rewrite !length_app, !length_take, !length_drop. lia. }
  unfold CR30Protocol.measure, mbind, CR30Device.M_bind.
  rewrite (send_recv_spec 0xBB 0x01 0x00 0x00 None self) by (simpl; auto; lia).
  cbv zeta. rewrite Hq, Ha. cbn [hd tl app head tail payload_of].
  destruct header as [|b header]; [discriminate Lh|].
  rewrite (read_measurement_unfold _ _ _ _ _ (parse_packet_valid _ Vh)).
  unfold session_start, CR30Protocol.chunk_subcmds, CR30Device.set_packet_parser,
    CR30Device.set_frames, PacketParser.reset_spd_collection.
  cbn [CR30Device.writer CR30Device._frames CR30Device.arrivals
       CR30Device._packet_parser].
  set (result0 := measurement_start _ _).
  cbn [CR30Protocol.for_subcmd]. unfold mbind, CR30Device.M_bind.
  edestruct (read_chunk_accepts 0x10 result0) as [info10 ->];
    [reflexivity | reflexivity | exact V10
     | rewrite H10; unfold CR30Protocol.chunk_subcmds;
       repeat (first [apply list_elem_of_here | apply list_elem_of_further])
     | rewrite H10; apply not_elem_of_empty |].
  cbn [CR30Device.writer CR30Device._frames CR30Device.arrivals
       CR30Device._packet_parser PacketParser._spd_bytes
       PacketParser._chunks_received PacketParser._chunk_info_list
       CR30Protocol.result_header CR30Protocol.result_chunks CR30Protocol.result_spd
       CR30Protocol.result_raw CR30Protocol.result_spd_data
       CR30Protocol.result_spd_bytes].
  rewrite H10.
  edestruct (read_chunk_accepts 0x11) as [info11 ->];
    [reflexivity | reflexivity | exact V11
     | rewrite H11; unfold CR30Protocol.chunk_subcmds;
       repeat (first [apply list_elem_of_here | apply list_elem_of_further])
     | rewrite H11; cbn [CR30Device._packet_parser PacketParser._chunks_received];
       rewrite not_elem_of_union, not_elem_of_singleton;
       split; [discriminate | apply not_elem_of_empty] |].
  cbn [CR30Device.writer CR30Device._frames CR30Device.arrivals
       CR30Device._packet_parser PacketParser._spd_bytes
       PacketParser._chunks_received PacketParser._chunk_info_list
       CR30Protocol.result_header CR30Protocol.result_chunks CR30Protocol.result_spd
       CR30Protocol.result_raw CR30Protocol.result_spd_data
       CR30Protocol.result_spd_bytes].
  rewrite H11.
  edestruct (read_chunk_accepts 0x12) as [info12 ->];
    [reflexivity | reflexivity | exact V12
     | rewrite H12; unfold CR30Protocol.chunk_subcmds;
       repeat (first [apply list_elem_of_here | apply list_elem_of_further])
     | rewrite H12; cbn [CR30Device._packet_parser PacketParser._chunks_received];
       rewrite !not_elem_of_union, !not_elem_of_singleton;
       repeat split; try discriminate; apply not_elem_of_empty |].
  cbn [CR30Device.writer CR30Device._frames CR30Device.arrivals
       CR30Device._packet_parser PacketParser._spd_bytes
       PacketParser._chunks_received PacketParser._chunk_info_list
       CR30Protocol.result_header CR30Protocol.result_chunks CR30Protocol.result_spd
       CR30Protocol.result_raw CR30Protocol.result_spd_data
       CR30Protocol.result_spd_bytes].
  rewrite H12.
  edestruct (read_chunk_accepts 0x13) as [info13 ->];
    [reflexivity | reflexivity | exact V13
     | rewrite H13; unfold CR30Protocol.chunk_subcmds;
       repeat (first [apply list_elem_of_here | apply list_elem_of_further])
     | rewrite H13; cbn [CR30Device._packet_parser PacketParser._chunks_received];
       rewrite !not_elem_of_union, !not_elem_of_singleton;
       repeat split; try discriminate; apply not_elem_of_empty |].
  unfold mret, CR30Device.M_ret. cbv beta iota zeta.
  cbn [CR30Device.writer CR30Device._frames CR30Device.arrivals
       CR30Device._packet_parser PacketParser._spd_bytes
       PacketParser._chunks_received PacketParser._chunk_info_list
       CR30Protocol.iteration_result
       CR30Protocol.result_header CR30Protocol.result_chunks CR30Protocol.result_spd
       CR30Protocol.result_raw CR30Protocol.result_spd_data
       CR30Protocol.result_spd_bytes].
  rewrite H13. cbn [Z.eqb Pos.eqb app].
  rewrite app_nil_r, <- !(assoc_L (++)). fold spd_bytes.
  rewrite parse_spd_data_at_least_124 by lia.
  eexists _, _. split; [reflexivity|].
  cbn [CR30Protocol.result_spd CR30Protocol.result_spd_data
       CR30Protocol.result_spd_bytes CR30Protocol.result_chunks
       CR30Device.writer CR30Device.arrivals CR30Device._packet_parser].
  split; [reflexivity|].
  split; [apply (length_le_words 31); rewrite length_take; lia|].
  split; [reflexivity|]. split; [reflexivity|].
  split; [subst result0; unfold measurement_start;
          cbn [CR30Protocol.result_chunks app length]; reflexivity|].
  split; [reflexivity|]. split; [reflexivity|].
  unfold PacketParser.is_spd_complete. cbn [PacketParser._chunks_received].
  apply bool_decide_eq_true_2.
  rewrite !union_subseteq, !singleton_subseteq_l, !elem_of_union, !elem_of_singleton.
  tauto.
Qed.

Lemma measure_decodes_curve_from_data_chunks_witness :
  let self :=
    fresh_device [[measurement_header_frame]; [chunk_0x10_frame]; [chunk_0x11_frame];
                  [chunk_0x12_frame]; [encoded_frame 0xBB 0x01 0x13 0x00 []]] in
  exists (m : CR30Protocol.measurement) (self' : CR30Device.t),
    CR30Protocol.measure [] [] self = (Ok m, self')
    /\ length (CR30Protocol.result_spd m) = 31%nat
    /\ CR30Protocol.result_spd m !! 0%nat = Some 0x40B068A4
    /\ length (CR30Device.writer self') = 5%nat
    /\ PacketParser.is_spd_complete (CR30Device._packet_parser self') = true.
Proof.
  intros self.
  destruct (measure_decodes_curve_from_data_chunks [] [] self
              measurement_header_frame chunk_0x10_frame chunk_0x11_frame
              chunk_0x12_frame (encoded_frame 0xBB 0x01 0x13 0x00 []) [])
    as (m & self' & Hm & Hspd & Hlen & _ & _ & _ & Hw & _ & Hcomplete);
    try reflexivity.
  { repeat constructor. }
  exists m, self'. split; [exact Hm|]. split; [exact Hlen|].
  split; [rewrite Hspd; reflexivity|]. split; [rewrite Hw; reflexivity | exact Hcomplete].
Defined.

(** ** The Kubelka-Munk function *)

Section KubelkaMunkFacts.
Local Open Scope Q_scope.

Lemma Qclip_bounds (x : Q) :
  0.01 <= ColorScience.Qclip x 0.01 0.99 <= 0.99.
Proof.
  unfold ColorScience.Qclip. split.
  - apply Q.min_glb; [Lqa.lra | apply Q.le_max_r].
  - apply Q.le_min_l.
Qed.

Lemma Qclip_monotone (x y : Q) :
  x <= y -> ColorScience.Qclip x 0.01 0.99 <= ColorScience.Qclip y 0.01 0.99.
Proof.
  intros H. unfold ColorScience.Qclip.
  apply Q.min_le_compat_l, Q.max_le_compat_r, H.
Qed.

Lemma Qclip_inside (x : Q) :
  0.01 <= x <= 0.99 -> ColorScience.Qclip x 0.01 0.99 == x.
Proof.
  intros [H1 H2]. unfold ColorScience.Qclip.
  rewrite (Q.max_l x 0.01) by exact H1. apply Q.min_r. exact H2.
Qed.

Lemma Qclip_below (x : Q) : x <= 0.01 -> ColorScience.Qclip x 0.01 0.99 == 0.01.
Proof.
  intros H. unfold ColorScience.Qclip.
  rewrite (Q.max_r x 0.01) by exact H. apply Q.min_r. Lqa.lra.
Qed.

Lemma Qclip_above (x : Q) : 0.99 <= x -> ColorScience.Qclip x 0.01 0.99 == 0.99.
Proof.
  intros H. unfold ColorScience.Qclip.
  rewrite (Q.max_l x 0.01) by Lqa.lra. apply Q.min_l. exact H.
Qed.

Lemma kubelka_munk_upper (x : Q) :
  0.01 <= x -> x <= 0.99 -> (1 - x) ^ 2 / (2 * x) <= 9801 / 200.
Proof.
  intros H1 H2.
  apply Qle_shift_div_r; [Lqa.lra|].
  change ((1 - x) ^ 2) with ((1 - x) * (1 - x)).
  assert (0 <= (x - 0.01) * (100 - x)) as H by (apply Qmult_le_0_compat; Lqa.lra).
  apply Qle_minus_iff.
  assert (9801 / 200 * (2 * x) + - ((1 - x) * (1 - x)) == (x - 0.01) * (100 - x)) as ->
    by field.
  exact H.
Qed.

Lemma kubelka_munk_lower (x : Q) :
  0.01 <= x -> x <= 0.99 -> 1 / 19800 <= (1 - x) ^ 2 / (2 * x).
Proof.
  intros H1 H2.
  apply Qle_shift_div_l; [Lqa.lra|].
  change ((1 - x) ^ 2) with ((1 - x) * (1 - x)).
  assert (0 <= (0.99 - x) * ((100 # 99) - x)) as H
    by (apply Qmult_le_0_compat; Lqa.lra).
  apply Qle_minus_iff.
  assert ((1 - x) * (1 - x) + - (1 / 19800 * (2 * x)) == (0.99 - x) * ((100 # 99) - x))
    as -> by field.
  exact H.
Qed.

Lemma kubelka_munk_decreasing (x y : Q) :
  0.01 <= x -> x <= y -> y <= 0.99 ->
  (1 - y) ^ 2 / (2 * y) <= (1 - x) ^ 2 / (2 * x).
Proof.
  intros H1 H2 H3.
  apply Qle_shift_div_l; [Lqa.lra|].
  change ((1 - x) ^ 2) with ((1 - x) * (1 - x)).
  change ((1 - y) ^ 2) with ((1 - y) * (1 - y)).
  assert ((1 - y) * (1 - y) / (2 * y) * (2 * x) == (1 - y) * (1 - y) * x / y) as ->
    by (field; Lqa.lra).
  apply Qle_shift_div_r; [Lqa.lra|].
  assert (0 <= (y - x) * (1 - x * y)) as H.
  { apply Qmult_le_0_compat; [Lqa.lra|].
    assert (x * y <= 1 * 1); [|Lqa.lra].
    apply Qmult_le_compat_nonneg; split; Lqa.lra. }
  apply Qle_minus_iff.
  assert ((1 - x) * (1 - x) * y + - ((1 - y) * (1 - y) * x) == (y - x) * (1 - x * y))
    as -> by ring.
  exact H.
Qed.

(** X14.  Every value of [calculate_k_s] lies between 1/19800 and
    49.005.  For a reflectance between 1 and 99 percent it is
    [(1 - R)^2 / (2 R)] with [R] the reflectance divided by 100; at or
    below 1 percent it is 49.005 and at or above 99 percent it is 1/19800.
    A larger reflectance never gives a larger value. *)
Theorem calculate_k_s_is_bounded_and_decreasing :
  (forall reflectance : list Q,
     Forall2 (fun r k =>
                1 / 19800 <= k <= 9801 / 200
                /\ (1 <= r <= 99 -> k == (1 - r / 100) ^ 2 / (2 * (r / 100)))
                /\ (r <= 1 -> k == 9801 / 200)
                /\ (99 <= r -> k == 1 / 19800))
             reflectance (ColorScience.calculate_k_s reflectance))
  /\ (forall rs1 rs2 : list Q,
        Forall2 Qle rs1 rs2 ->
        Forall2 (fun k1 k2 => k2 <= k1)
                (ColorScience.calculate_k_s rs1) (ColorScience.calculate_k_s rs2)).
Proof.
  split.
  - intros reflectance. unfold ColorScience.calculate_k_s.
    induction reflectance as [|r reflectance IH]; [constructor|].
    cbn [map]. constructor; [|exact IH].
    cbv beta zeta.
    destruct (Qclip_bounds (r / 100)) as [Hlo Hhi].
    split; [split; [apply kubelka_munk_lower | apply kubelka_munk_upper]; assumption|].
    split; [|split].
    + intros [H1 H99].
      assert (0.01 <= r / 100 <= 0.99) as Hin.
      { split; [apply Qle_shift_div_l | apply Qle_shift_div_r]; Lqa.lra. }
      rewrite (Qclip_inside _ Hin). reflexivity.
    + intros H1.
      assert (r / 100 <= 0.01) as Hb by (apply Qle_shift_div_r; Lqa.lra).
      rewrite (Qclip_below _ Hb). reflexivity.
    + intros H99.
      assert (0.99 <= r / 100) as Ha by (apply Qle_shift_div_l; Lqa.lra).
      rewrite (Qclip_above _ Ha). reflexivity.
  - intros rs1 rs2 Hle. unfold ColorScience.calculate_k_s.
    induction Hle as [|r1 r2 rs1 rs2 Hr Hrs IH]; [constructor|].
    cbn [map]. constructor; [|exact IH].
    cbv beta zeta.
    destruct (Qclip_bounds (r1 / 100)) as [Hlo1 Hhi1].
    destruct (Qclip_bounds (r2 / 100)) as [Hlo2 Hhi2].
    apply kubelka_munk_decreasing; try assumption.
    apply Qclip_monotone. apply Qmult_le_compat_r; [exact Hr | discriminate].
Qed.

Lemma calculate_k_s_is_bounded_and_decreasing_witness :
  Forall2 (fun k1 k2 => k2 <= k1)
          (ColorScience.calculate_k_s [0; 20; 50])
          (ColorScience.calculate_k_s [10; 60; 150]).
Proof.
  apply (proj2 calculate_k_s_is_bounded_and_decreasing).
  repeat constructor; discriminate.
Defined.

End KubelkaMunkFacts.

(** ** XYZ to sRGB *)

Section XyzToRgbFacts.
Local Open Scope R_scope.

Lemma clip_unit (x : R) : 0 <= ColorScience.clip x 0 1 <= 1.
Proof.
  unfold ColorScience.clip. split.
  - apply Rmin_glb; [lra | apply Rmax_r].
  - apply Rmin_l.
Qed.

Lemma floor_spec (x : R) :
  IZR (ColorScience.floor x) <= x < IZR (ColorScience.floor x) + 1.
Proof.
  unfold ColorScience.floor. rewrite minus_IZR.
  destruct (archimed x) as [H1 H2]. lra.
Qed.

(** [np_round] picks an integer at distance at most one half. *)
Lemma np_round_nearest (x : R) :
  - (1 / 2) <= IZR (ColorScience.np_round x) - x <= 1 / 2.
Proof.
  unfold ColorScience.np_round. cbv zeta.
  pose proof (floor_spec x) as [Hlo Hhi].
  destruct (Rlt_dec (x - IZR (ColorScience.floor x)) (1 / 2)) as [Hd|Hd]; [lra|].
  destruct (Rlt_dec (1 / 2) (x - IZR (ColorScience.floor x))) as [Hu|Hu].
  { rewrite plus_IZR. lra. }
  destruct (Z.even (ColorScience.floor x)); [|rewrite plus_IZR]; lra.
Qed.

Lemma np_round_255 (x : R) :
  0 <= x <= 1 -> (0 <= ColorScience.np_round (x * 255) <= 255)%Z.
Proof.
  intros [H0 H1]. pose proof (np_round_nearest (x * 255)) as [Hn1 Hn2].
  assert (IZR (-1) < IZR (ColorScience.np_round (x * 255))) as Hlo by lra.
  assert (IZR (ColorScience.np_round (x * 255)) < IZR 256) as Hhi by lra.
  apply lt_IZR in Hlo, Hhi. lia.
Qed.

Lemma clip_gamma_saturates (c : R) :
  (c <= 0 -> ColorScience.clip (ColorScience.gamma c) 0 1 = 0)
  /\ (1 <= c -> ColorScience.clip (ColorScience.gamma c) 0 1 = 1).
Proof.
  unfold ColorScience.clip, ColorScience.gamma. split; intros Hc.
  - destruct (Rle_dec c 0.0031308) as [_|Hn]; [|lra].
    rewrite Rmax_right by lra. apply Rmin_right. lra.
  - destruct (Rle_dec c 0.0031308) as [Hy|_]; [lra|].
    assert (1 <= Rpower c (1 / 2.4)) as Hpow.
    { unfold Rpower. rewrite <- exp_0 at 1.
      assert (0 <= ln c) as Hln.
      { destruct (Rle_lt_or_eq_dec 1 c Hc) as [Hlt | <-].
        - left. rewrite <- ln_1. apply ln_increasing; lra.
        - rewrite ln_1. lra. }
      assert (0 <= 1 / 2.4 * ln c) as [Hlt | <-] by nra.
      - left. apply exp_increasing, Hlt.
      - right. reflexivity. }
    rewrite Rmax_left by lra. apply Rmin_left. lra.
Qed.

(** X15.  The components [xyz_to_rgb] returns are in the unit range
    without [out_255]; with [out_255] they are integers between 0 and 255,
    each at most one half away from 255 times the component of the unit
    range.  A linear component at or below 0 gives 0 and one at or above 1
    gives 1. *)
Theorem xyz_to_rgb_is_in_range (x y z : R) :
  (let '(r, g, b) := ColorScience.xyz_to_rgb x y z false in
   0 <= r <= 1 /\ 0 <= g <= 1 /\ 0 <= b <= 1)
  /\ (let '(r, g, b) := ColorScience.xyz_to_rgb x y z false in
      exists r255 g255 b255 : Z,
        ColorScience.xyz_to_rgb x y z true = (IZR r255, IZR g255, IZR b255)
        /\ (0 <= r255 <= 255)%Z /\ (0 <= g255 <= 255)%Z /\ (0 <= b255 <= 255)%Z
        /\ Rabs (IZR r255 - r * 255) <= 1 / 2
        /\ Rabs (IZR g255 - g * 255) <= 1 / 2
        /\ Rabs (IZR b255 - b * 255) <= 1 / 2)
  /\ (let '(r, g, b) := ColorScience.xyz_to_rgb x y z false in
      let r_lin :=  3.2404542 * x + -1.5371385 * y + -0.4985314 * z in
      let g_lin := -0.9692660 * x +  1.8760108 * y +  0.0415560 * z in
      let b_lin :=  0.0556434 * x + -0.2040259 * y +  1.0572252 * z in
      (r_lin <= 0 -> r = 0) /\ (1 <= r_lin -> r = 1)
      /\ (g_lin <= 0 -> g = 0) /\ (1 <= g_lin -> g = 1)
      /\ (b_lin <= 0 -> b = 0) /\ (1 <= b_lin -> b = 1)).
Proof.
  unfold ColorScience.xyz_to_rgb. cbv zeta.
  set (r := ColorScience.clip (ColorScience.gamma _) 0 1).
  set (g := ColorScience.clip (ColorScience.gamma _) 0 1).
  set (b := ColorScience.clip (ColorScience.gamma _) 0 1).
  pose proof (clip_unit (ColorScience.gamma
    (3.2404542 * x + -1.5371385 * y + -0.4985314 * z))) as Hr.
  pose proof (clip_unit (ColorScience.gamma
    (-0.9692660 * x + 1.8760108 * y + 0.0415560 * z))) as Hg.
  pose proof (clip_unit (ColorScience.gamma
    (0.0556434 * x + -0.2040259 * y + 1.0572252 * z))) as Hb.
  fold r in Hr. fold g in Hg. fold b in Hb.
  split; [auto|]. split.
  - exists (ColorScience.np_round (r * 255)), (ColorScience.np_round (g * 255)),
      (ColorScience.np_round (b * 255)).
    split; [reflexivity|].
    repeat split; try apply np_round_255; try (apply Rabs_le, np_round_nearest);
      assumption.
  - repeat split; apply clip_gamma_saturates.
Qed.

End XyzToRgbFacts.

(** ** sRGB and back *)

Section RgbRoundTripFacts.
Local Open Scope R_scope.

Lemma floor_IZR (n : Z) : ColorScience.floor (IZR n) = n.
Proof.
  unfold ColorScience.floor.
  assert ((n + 1)%Z = up (IZR n)) as <-.
  { apply tech_up; rewrite plus_IZR; lra. }
  lia.
Qed.

Lemma np_round_IZR (n : Z) : ColorScience.np_round (IZR n) = n.
Proof.
  unfold ColorScience.np_round. cbv zeta. rewrite floor_IZR.
  destruct (Rlt_dec (IZR n - IZR n) (1 / 2)) as [_|H]; [reflexivity | lra].
Qed.

Lemma inv_gamma_1 : ColorScience.inv_gamma 1 = 1.
Proof.
  unfold ColorScience.inv_gamma.
  destruct (Rle_dec 1 0.04045) as [H|_]; [lra|].
  replace ((1 + 0.055) / 1.055) with 1 by lra.
  unfold Rpower. rewrite ln_1, Rmult_0_r. apply exp_0.
Qed.

Lemma rgb_to_xyz_white_1 :
  ColorScience.rgb_to_xyz 1 1 1 = (0.95047, 1.0000001, 1.08883).
Proof.
  unfold ColorScience.rgb_to_xyz, ColorScience.rgb_max.
  rewrite (Rmax_left 1 1), (Rmax_left 1 1) by lra.
  destruct (Rgt_dec 1 1.0) as [H|_]; [lra|].
  unfold ColorScience.gamma_decoded_to_xyz. rewrite inv_gamma_1.
  repeat f_equal; lra.
Qed.

Lemma rgb_to_xyz_white_255 :
  ColorScience.rgb_to_xyz 255 255 255 = (0.95047, 1.0000001, 1.08883).
Proof.
  unfold ColorScience.rgb_to_xyz, ColorScience.rgb_max.
  rewrite (Rmax_left 255 255), (Rmax_left 255 255) by lra.
  destruct (Rgt_dec 255 1.0) as [_|H]; [|lra].
  replace (255 / 255.0) with 1 by lra.
  unfold ColorScience.gamma_decoded_to_xyz. rewrite inv_gamma_1.
  repeat f_equal; lra.
Qed.

(** C9 (defect of the sRGB conversions).  On the D65 white
    [(95.047, 100, 108.883)] of [test_xyz_to_rgb], [xyz_to_rgb] returns
    [(255, 255, 255)], and [(1, 1, 1)] without [out_255]; [rgb_to_xyz]
    turns either into [(0.95047, 1.0000001, 1.08883)].  The round trip
    misses each component by more than [1e-3], and the [X] and [Z] that
    [rgb_to_xyz] returns for white are not above 80. *)
Theorem rgb_to_xyz_xyz_to_rgb_misses_white :
  ColorScience.xyz_to_rgb 95.047 100.0 108.883 true = (255, 255, 255)
  /\ ColorScience.xyz_to_rgb 95.047 100.0 108.883 false = (1, 1, 1)
  /\ ColorScience.rgb_to_xyz 255 255 255 = (0.95047, 1.0000001, 1.08883)
  /\ ColorScience.rgb_to_xyz 1 1 1 = (0.95047, 1.0000001, 1.08883)
  /\ 1e-3 < Rabs (0.95047 - 95.047)
  /\ 1e-3 < Rabs (1.0000001 - 100.0)
  /\ 1e-3 < Rabs (1.08883 - 108.883)
  /\ 0.95047 <= 80 /\ 1.08883 <= 80.
Proof.
  assert (forall c, 1 <= c -> ColorScience.clip (ColorScience.gamma c) 0 1 = 1) as Hsat
    by (intros c; apply (clip_gamma_saturates c)).
  assert (ColorScience.xyz_to_rgb 95.047 100.0 108.883 false = (1, 1, 1)) as Hunit.
  { unfold ColorScience.xyz_to_rgb. cbv zeta.
    rewrite !Hsat by lra. reflexivity. }
  split; [|split; [exact Hunit|]].
  - unfold ColorScience.xyz_to_rgb in *. cbv zeta in *.
    rewrite !Hsat by lra. rewrite !Rmult_1_l, np_round_IZR. reflexivity.
  - split; [apply rgb_to_xyz_white_255|]. split; [apply rgb_to_xyz_white_1|].
    repeat split; try (rewrite Rabs_left by lra); lra.
Qed.

End RgbRoundTripFacts.

(** ** Conversions chained through XYZ *)

Section LabRgbFacts.
Local Open Scope R_scope.

Lemma lab_to_xyz_xyz_to_lab_white (X Y Z Xn Yn Zn : R) :
  Xn <> 0 -> Yn <> 0 -> Zn <> 0 ->
  let '(L, a, b) := ColorScience.xyz_to_lab X Y Z (Some (Xn, Yn, Zn)) in
  ColorScience.lab_to_xyz L a b (Some (Xn, Yn, Zn)) = (X, Y, Z).
Proof.
  intros HX HY HZ. unfold ColorScience.xyz_to_lab, ColorScience.lab_to_xyz. cbv zeta.
  set (fx := ColorScience.xyz_to_lab_f (X / Xn)).
  set (fy := ColorScience.xyz_to_lab_f (Y / Yn)).
  set (fz := ColorScience.xyz_to_lab_f (Z / Zn)).
  replace ((116 * fy - 16 + 16) / 116) with fy by field.
  replace (fy + 500 * (fx - fy) / 500) with fx by field.
  replace (fy - 200 * (fy - fz) / 200) with fz by field.
  subst fx fy fz. rewrite !xyz_to_lab_f_inv_r.
  repeat f_equal; field; assumption.
Qed.

(** X16.  In exact arithmetic converting XYZ to Lab and back gives the
    XYZ triple again, for the default white point and for any white point
    without a zero component; hence [lab_to_rgb] after [rgb_to_lab] is
    [xyz_to_rgb] after [rgb_to_xyz]. *)
Theorem lab_to_xyz_xyz_to_lab :
  (forall X Y Z : R,
     let '(L, a, b) := ColorScience.xyz_to_lab X Y Z None in
     ColorScience.lab_to_xyz L a b None = (X, Y, Z))
  /\ (forall X Y Z Xn Yn Zn : R,
        Xn <> 0 -> Yn <> 0 -> Zn <> 0 ->
        let '(L, a, b) := ColorScience.xyz_to_lab X Y Z (Some (Xn, Yn, Zn)) in
        ColorScience.lab_to_xyz L a b (Some (Xn, Yn, Zn)) = (X, Y, Z))
  /\ (forall (r g b : R) (out_255 : bool),
        let '(L, a, b') := ColorScience.rgb_to_lab r g b None in
        ColorScience.lab_to_rgb L a b' None out_255
        = let '(X, Y, Z) := ColorScience.rgb_to_xyz r g b in
          ColorScience.xyz_to_rgb X Y Z out_255)
  /\ (forall (r g b Xn Yn Zn : R) (out_255 : bool),
        Xn <> 0 -> Yn <> 0 -> Zn <> 0 ->
        let '(L, a, b') := ColorScience.rgb_to_lab r g b (Some (Xn, Yn, Zn)) in
        ColorScience.lab_to_rgb L a b' (Some (Xn, Yn, Zn)) out_255
        = let '(X, Y, Z) := ColorScience.rgb_to_xyz r g b in
          ColorScience.xyz_to_rgb X Y Z out_255).
Proof.
  assert (forall X Y Z : R,
            let '(L, a, b) := ColorScience.xyz_to_lab X Y Z None in
            ColorScience.lab_to_xyz L a b None = (X, Y, Z)) as Hdefault.
  { intros X Y Z. apply (lab_to_xyz_xyz_to_lab_white X Y Z 94.81 100.000 107.32); lra. }
  split; [exact Hdefault|]. split; [exact lab_to_xyz_xyz_to_lab_white|].
  split.
  - intros r g b out_255. unfold ColorScience.rgb_to_lab, ColorScience.lab_to_rgb.
    destruct (ColorScience.rgb_to_xyz r g b) as [[X Y] Z].
    pose proof (Hdefault X Y Z) as H.
    destruct (ColorScience.xyz_to_lab X Y Z None) as [[L a] b'].
    rewrite H. reflexivity.
  - intros r g b Xn Yn Zn out_255 HX HY HZ.
    unfold ColorScience.rgb_to_lab, ColorScience.lab_to_rgb.
    destruct (ColorScience.rgb_to_xyz r g b) as [[X Y] Z].
    pose proof (lab_to_xyz_xyz_to_lab_white X Y Z Xn Yn Zn HX HY HZ) as H.
    destruct (ColorScience.xyz_to_lab X Y Z (Some (Xn, Yn, Zn))) as [[L a] b'].
    rewrite H. reflexivity.
Qed.

Lemma lab_to_xyz_xyz_to_lab_witness :
  let '(L, a, b) := ColorScience.xyz_to_lab 41.24 21.26 1.93 (Some (96.72, 100, 81.43)) in
  ColorScience.lab_to_xyz L a b (Some (96.72, 100, 81.43)) = (41.24, 21.26, 1.93).
Proof.
  apply (proj1 (proj2 lab_to_xyz_xyz_to_lab)); lra.
Defined.

End LabRgbFacts.

(** ** Resampling of the reference tables *)

Section ResamplingFacts.
Local Open Scope Q_scope.





Lemma fold_left_Qmin_spec (l : list Q) :
  forall x : Q,
    (exists a : Q, a ∈ x :: l /\ a == fold_left Qmin l x)
    /\ (forall a : Q, a ∈ x :: l -> fold_left Qmin l x <= a).
Proof.
  induction l as [|y l IH]; intros x.
  - split; [exists x; split; [apply list_elem_of_here | reflexivity]|].
    intros a Ha. apply list_elem_of_singleton in Ha as ->. apply Qle_refl.
  - cbn [fold_left]. destruct (IH (Qmin x y)) as [(a & Ha & Heq) Hle]. split.
    + apply elem_of_cons in Ha as [-> | Ha].
      * destruct (Q.min_spec x y) as [[_ Hm] | [_ Hm]].
        -- exists x. split; [apply list_elem_of_here|]. rewrite <- Heq, Hm. reflexivity.
        -- exists y. split; [apply list_elem_of_further, list_elem_of_here|].
           rewrite <- Heq, Hm. reflexivity.
      * exists a. split; [do 2 apply list_elem_of_further; exact Ha | exact Heq].
    + intros b Hb. apply elem_of_cons in Hb as [-> | Hb].
      * eapply Qle_trans; [apply Hle, list_elem_of_here | apply Q.le_min_l].
      * apply elem_of_cons in Hb as [-> | Hb].
        -- eapply Qle_trans; [apply Hle, list_elem_of_here | apply Q.le_min_r].
        -- apply Hle, list_elem_of_further, Hb.
Qed.

Lemma fold_left_Qmax_spec (l : list Q) :
  forall x : Q,
    (exists a : Q, a ∈ x :: l /\ a == fold_left Qmax l x)
    /\ (forall a : Q, a ∈ x :: l -> a <= fold_left Qmax l x).
Proof.
  induction l as [|y l IH]; intros x.
  - split; [exists x; split; [apply list_elem_of_here | reflexivity]|].
    intros a Ha. apply list_elem_of_singleton in Ha as ->. apply Qle_refl.
  - cbn [fold_left]. destruct (IH (Qmax x y)) as [(a & Ha & Heq) Hle]. split.
    + apply elem_of_cons in Ha as [-> | Ha].
      * destruct (Q.max_spec x y) as [[_ Hm] | [_ Hm]].
        -- exists y. split; [apply list_elem_of_further, list_elem_of_here|].
           rewrite <- Heq, Hm. reflexivity.
        -- exists x. split; [apply list_elem_of_here|]. rewrite <- Heq, Hm. reflexivity.
      * exists a. split; [do 2 apply list_elem_of_further; exact Ha | exact Heq].
    + intros b Hb. apply elem_of_cons in Hb as [-> | Hb].
      * eapply Qle_trans; [apply Q.le_max_l | apply Hle, list_elem_of_here].
      * apply elem_of_cons in Hb as [-> | Hb].
        -- eapply Qle_trans; [apply Q.le_max_r | apply Hle, list_elem_of_here].
        -- apply Hle, list_elem_of_further, Hb.
Qed.

(** Selecting from two arrays with a mask computed from the first keeps
    the pairs whose first component passes the test. *)
Lemma select_zip (f : Q -> bool) (Xp : list Q) :
  forall Yp : list Q,
    length Yp = length Xp ->
    length (SpectrumDataLoader.select (map f Xp) Xp)
    = length (SpectrumDataLoader.select (map f Xp) Yp)
    /\ zip (SpectrumDataLoader.select (map f Xp) Xp)
           (SpectrumDataLoader.select (map f Xp) Yp)
       = filter (fun p => f (fst p) = true) (zip Xp Yp).
Proof.
  induction Xp as [|xp Xp IH]; intros [|y Yp] Hlen; try discriminate Hlen.
  - split; reflexivity.
  - cbn [map SpectrumDataLoader.select zip zip_with].
    destruct (IH Yp ltac:(simpl in Hlen; lia)) as [IHlen IHzip].
    rewrite filter_cons. cbn [fst].
    destruct (f xp) eqn:E.
    + rewrite decide_True by reflexivity.
      cbn [length zip zip_with]. split; [lia|]. f_equal. exact IHzip.
    + rewrite decide_False by discriminate. split; assumption.
Qed.

(** X18.  [restrict_to_X_range] raises [ValueError] on an empty [X] and
    [IndexError] when the two arrays differ in length.  Otherwise it
    returns two arrays of the same length whose pairs are, in order, the
    pairs of the input whose sample point lies between two elements of [X],
    that is between the minimum and the maximum of [X]. *)
Theorem restrict_to_X_range_keeps_the_samples_within_range (X Xp Yp : list Q) :
  (X = [] ->
   exists msg : string,
     SpectrumDataLoader.restrict_to_X_range X Xp Yp
     = SpectrumDataLoader.NpValueError msg)
  /\ (X <> [] -> length Yp <> length Xp ->
      exists msg : string,
        SpectrumDataLoader.restrict_to_X_range X Xp Yp
        = SpectrumDataLoader.NpIndexError msg)
  /\ (X <> [] -> length Yp = length Xp ->
      exists Xr Yr : list Q,
        SpectrumDataLoader.restrict_to_X_range X Xp Yp
        = SpectrumDataLoader.NpOk (Xr, Yr)
        /\ length Xr = length Yr
        /\ zip Xr Yr `sublist_of` zip Xp Yp
        /\ forall xp y : Q,
             (xp, y) ∈ zip Xr Yr
             <-> (xp, y) ∈ zip Xp Yp
                 /\ (exists a : Q, a ∈ X /\ a <= xp)
                 /\ (exists b : Q, b ∈ X /\ xp <= b)).
Proof.
  split; [|split].
  - intros ->. eexists. reflexivity.
  - intros HX Hlen. destruct X as [|x X]; [contradiction|].
    unfold SpectrumDataLoader.restrict_to_X_range. rewrite length_map.
    rewrite (proj2 (Nat.eqb_neq _ _) Hlen). eexists. reflexivity.
  - intros HX Hlen. destruct X as [|x X]; [contradiction|].
    unfold SpectrumDataLoader.restrict_to_X_range. rewrite length_map.
    rewrite (proj2 (Nat.eqb_eq _ _) Hlen). cbn [negb].
    set (Xmin := fold_left Qmin X x). set (Xmax := fold_left Qmax X x).
    set (f := fun xp : Q => Qle_bool Xmin xp && Qle_bool xp Xmax).
    destruct (select_zip f Xp Yp Hlen) as [Hsel Hzip].
    eexists _, _. split; [reflexivity|]. split; [exact Hsel|].
    rewrite Hzip. split; [apply sublist_filter|].
    intros xp y. rewrite list_elem_of_filter. cbn [fst].
    destruct (fold_left_Qmin_spec X x) as [(a & Ha & Hamin) Hmin].
    destruct (fold_left_Qmax_spec X x) as [(b & Hb & Hbmax) Hmax].
    fold Xmin in Hamin, Hmin. fold Xmax in Hbmax, Hmax.
    unfold f. rewrite andb_true_iff, !Qle_bool_iff.
    split.
    + intros [[Hlo Hhi] Hin]. split; [exact Hin|]. split.
      * exists a. split; [exact Ha|]. rewrite Hamin. exact Hlo.
      * exists b. split; [exact Hb|]. rewrite Hbmax. exact Hhi.
    + intros (Hin & (a' & Ha' & Hlo) & (b' & Hb' & Hhi)). split; [|exact Hin]. split.
      * eapply Qle_trans; [apply Hmin, Ha' | exact Hlo].
      * eapply Qle_trans; [exact Hhi | apply Hmax, Hb'].
Qed.

Lemma restrict_to_X_range_keeps_the_samples_within_range_witness :
  exists Xr Yr : list Q,
    SpectrumDataLoader.restrict_to_X_range [400; 700] [390; 400; 550; 700; 710]
      [1; 2; 3; 4; 5]
    = SpectrumDataLoader.NpOk (Xr, Yr)
    /\ length Xr = length Yr
    /\ ((550, 3) ∈ zip Xr Yr
        <-> (550, 3) ∈ zip [390; 400; 550; 700; 710] [1; 2; 3; 4; 5]
            /\ (exists a : Q, a ∈ [400; 700] /\ a <= 550)
            /\ (exists b : Q, b ∈ [400; 700] /\ 550 <= b)).
Proof.
  destruct (restrict_to_X_range_keeps_the_samples_within_range
              [400; 700] [390; 400; 550; 700; 710] [1; 2; 3; 4; 5])
    as (_ & _ & Hok).
  destruct (Hok ltac:(discriminate) eq_refl) as (Xr & Yr & Heq & Hlen & _ & Hiff).
  exists Xr, Yr. split; [exact Heq|]. split; [exact Hlen | apply Hiff].
Defined.

End ResamplingFacts.

(** ** White points *)

Section WhitePointFacts.
Local Open Scope Q_scope.

Lemma upper_ascii_idemp (c : ascii) :
  WhitePoint.upper_ascii (WhitePoint.upper_ascii c) = WhitePoint.upper_ascii c.
Proof. destruct c as [[] [] [] [] [] [] [] []]; reflexivity. Qed.

Lemma upper_idemp (s : string) : WhitePoint.upper (WhitePoint.upper s) = WhitePoint.upper s.
Proof.
  induction s as [|c s IH]; [reflexivity|].
  cbn [WhitePoint.upper]. rewrite upper_ascii_idemp, IH. reflexivity.
Qed.

Lemma upper_app (s t : string) :
  WhitePoint.upper (s +:+ t) = (WhitePoint.upper s +:+ WhitePoint.upper t)%string.
Proof.
  induction s as [|c s IH]; [reflexivity|].
  change (String c s +:+ t)%string with (String c (s +:+ t)).
  cbn [WhitePoint.upper]. rewrite IH. reflexivity.
Qed.

Lemma contains_app_r (c : ascii) (s t : string) :
  WhitePoint.contains c t = true -> WhitePoint.contains c (s +:+ t) = true.
Proof.
  intros H. induction s as [|a s IH]; [exact H|].
  change (String a s +:+ t)%string with (String a (s +:+ t)).
  cbn [WhitePoint.contains]. rewrite IH. apply orb_true_r.
Qed.

(** Every tabulated white point has [Y = 100] and positive [X] and [Z]. *)
Lemma white_points_normalised (key : string) (white : Q * Q * Q) :
  WhitePoint._data !! key = Some white ->
  let '(X, Y, Z) := white in Y == 100 /\ 0 < X /\ 0 < Z.
Proof.
  intros H. unfold WhitePoint._data in H.
  apply elem_of_list_to_map_2 in H.
  repeat (apply elem_of_cons in H as [H | H];
          [injection H as _ ->; repeat split|]).
  apply elem_of_nil in H. contradiction.
Qed.

(** X19.  [WhitePoint.__getitem__] returns what [WhitePoint.get] finds and
    raises [KeyError], with the key as it was given, when [get] finds
    nothing; every white point found has [Y = 100] and positive [X] and
    [Z].  The look-up ignores the case of the key, and a key that is
    [D50], [D55], [D65] or [D75] in any case is found as the key with
    [/10] appended.  There are 27 white points. *)
Theorem white_point_lookup :
  (forall key : string,
     match WhitePoint.get key None with
     | Some white =>
         WhitePoint.__getitem__ key = Ok white
         /\ let '(X, Y, Z) := white in Y == 100 /\ 0 < X /\ 0 < Z
     | None =>
         WhitePoint.__getitem__ key
         = Raise (KeyError ("Unknown whitepoint '" +:+ key +:+ "'"))
     end)
  /\ (forall (key : string) (default : option (Q * Q * Q)),
        WhitePoint.get (WhitePoint.upper key) default = WhitePoint.get key default)
  /\ (forall key : string,
        WhitePoint.upper key ∈ ["D50"; "D55"; "D65"; "D75"]%string ->
        WhitePoint.get key None = WhitePoint.get (key +:+ "/10") None
        /\ exists white : Q * Q * Q, WhitePoint.__getitem__ key = Ok white)
  /\ WhitePoint.__len__ = 27%nat.
Proof.
  split; [|split; [|split]].
  - intros key. unfold WhitePoint.get, WhitePoint.__getitem__. cbv zeta.
    destruct (WhitePoint._data !! _) as [white|] eqn:H; [|reflexivity].
    split; [reflexivity|]. exact (white_points_normalised _ _ H).
  - intros key default. unfold WhitePoint.get. rewrite upper_idemp. reflexivity.
  - intros key Hkey.
    assert (WhitePoint.contains "/" (WhitePoint.upper key) = false) as Hslash.
    { repeat (apply elem_of_cons in Hkey as [-> | Hkey]); try reflexivity.
      apply elem_of_nil in Hkey. contradiction. }
    unfold WhitePoint.get, WhitePoint.__getitem__. cbv zeta.
    rewrite upper_app, contains_app_r by reflexivity.
    rewrite Hslash, (bool_decide_eq_true_2 _ Hkey). cbn [negb andb].
    change (WhitePoint.upper "/10") with "/10"%string.
    split; [reflexivity|].
    repeat (apply elem_of_cons in Hkey as [-> | Hkey]);
      try (eexists; vm_compute; reflexivity).
    apply elem_of_nil in Hkey. contradiction.
  - vm_compute. reflexivity.
Qed.

Lemma white_point_lookup_witness :
  WhitePoint.get "d65" None = WhitePoint.get "d65/10" None
  /\ exists white : Q * Q * Q, WhitePoint.__getitem__ "d65" = Ok white.
Proof.
  apply (proj1 (proj2 (proj2 white_point_lookup)) "d65"%string).
  apply list_elem_of_further, list_elem_of_further, list_elem_of_here.
Defined.

End WhitePointFacts.

(** ** The colour space of a reading *)

Section DecideFacts.
Local Open Scope R_scope.

Lemma Q2R_nonzero (q : Q) : (0 < q)%Q -> Q2R q <> 0.
Proof.
  intros H. apply Qreals.Qlt_Rlt in H. rewrite RMicromega.Q2R_0 in H. lra.
Qed.

(** X23.  [_decide] returns the XYZ triple as it is for the space [XYZ],
    whatever the illuminant.  For any other space it looks the illuminant
    up first: an unknown illuminant raises [KeyError], also for [RGB],
    which does not use the white point.  With a known illuminant, [RGB]
    gives [xyz_to_rgb], [LAB] gives a triple that [lab_to_xyz] with the
    same white point turns back into the XYZ triple, and any other space
    raises [ValueError]. *)
Theorem decide_looks_up_the_white_point_unless_XYZ
    (xyz : R * R * R) (space illuminant : string) :
  (space = "XYZ"%string -> CR30Reader._decide xyz space illuminant = Ok xyz)
  /\ (space <> "XYZ"%string -> WhitePoint.get illuminant None = None ->
      CR30Reader._decide xyz space illuminant
      = Raise (KeyError ("Unknown whitepoint '" +:+ illuminant +:+ "'")))
  /\ (forall Xn Yn Zn : Q,
        WhitePoint.get illuminant None = Some (Xn, Yn, Zn) ->
        (space = "RGB"%string ->
         CR30Reader._decide xyz space illuminant
         = Ok (let '(X, Y, Z) := xyz in ColorScience.xyz_to_rgb X Y Z true))
        /\ (space = "LAB"%string ->
            exists L a b : R,
              CR30Reader._decide xyz space illuminant = Ok (L, a, b)
              /\ ColorScience.lab_to_xyz L a b (Some (Q2R Xn, Q2R Yn, Q2R Zn)) = xyz)
        /\ (space <> "XYZ"%string -> space <> "LAB"%string -> space <> "RGB"%string ->
            CR30Reader._decide xyz space illuminant
            = Raise (ValueError ("Unknown color space: " +:+ space)))).
Proof.
  assert (forall white : Q * Q * Q,
            WhitePoint.get illuminant None = Some white ->
            WhitePoint.__getitem__ illuminant = Ok white
            /\ exists key : string, WhitePoint._data !! key = Some white) as Hget.
  { intros white. unfold WhitePoint.get, WhitePoint.__getitem__. cbv zeta.
    intros H. destruct (WhitePoint._data !! _) as [w|] eqn:E; [|discriminate H].
    injection H as ->. split; [reflexivity | eexists; exact E]. }
  unfold CR30Reader._decide. destruct xyz as [[X Y] Z].
  split; [|split].
  - intros ->. reflexivity.
  - intros Hspace Hnone. rewrite (proj2 (String.eqb_neq _ _) Hspace).
    unfold WhitePoint.get, WhitePoint.__getitem__ in *. cbv zeta in *.
    destruct (WhitePoint._data !! _); [discriminate Hnone | reflexivity].
  - intros Xn Yn Zn Hsome. destruct (Hget _ Hsome) as [-> [key Hdata]].
    cbn [mbind outcome_bind]. split; [|split].
    + intros ->. reflexivity.
    + intros ->. cbn [String.eqb Ascii.eqb Bool.eqb andb].
      pose proof (white_points_normalised _ _ Hdata) as (HY & HX & HZ).
      pose proof (lab_to_xyz_xyz_to_lab_white X Y Z (Q2R Xn) (Q2R Yn) (Q2R Zn)) as H.
      destruct (ColorScience.xyz_to_lab X Y Z (Some (Q2R Xn, Q2R Yn, Q2R Zn)))
        as [[L a] b].
      exists L, a, b. split; [reflexivity|].
      apply H; apply Q2R_nonzero; try assumption.
      rewrite HY. reflexivity.
    + intros H1 H2 H3.
      rewrite (proj2 (String.eqb_neq _ _) H1), (proj2 (String.eqb_neq _ _) H2),
        (proj2 (String.eqb_neq _ _) H3).
      reflexivity.
Qed.

Lemma decide_looks_up_the_white_point_unless_XYZ_witness :
  CR30Reader._decide (41.24, 21.26, 1.93) "XYZ" "D66" = Ok (41.24, 21.26, 1.93)
  /\ CR30Reader._decide (41.24, 21.26, 1.93) "RGB" "D66"
     = Raise (KeyError "Unknown whitepoint 'D66'")
  /\ exists L a b : R,
       CR30Reader._decide (41.24, 21.26, 1.93) "LAB" "D50" = Ok (L, a, b)
       /\ ColorScience.lab_to_xyz L a b (Some (Q2R 96.72, Q2R 100.000, Q2R 81.43))
          = (41.24, 21.26, 1.93).
Proof.
  destruct (decide_looks_up_the_white_point_unless_XYZ (41.24, 21.26, 1.93) "XYZ" "D66")
    as (Hxyz & _).
  destruct (decide_looks_up_the_white_point_unless_XYZ (41.24, 21.26, 1.93) "RGB" "D66")
    as (_ & Hkey & _).
  destruct (decide_looks_up_the_white_point_unless_XYZ (41.24, 21.26, 1.93) "LAB" "D50")
    as (_ & _ & Hlab).
  split; [exact (Hxyz eq_refl)|]. split.
  - apply Hkey; [discriminate | vm_compute; reflexivity].
  - assert (WhitePoint.get "D50" None = Some (96.72, 100.000, 81.43)%Q) as Hget
      by (vm_compute; reflexivity).
    exact (proj1 (proj2 (Hlab _ _ _ Hget)) eq_refl).
Defined.

End DecideFacts.
